(** * Al3bara-Data: ledger balance and commission reconciliation

    A shallow embedding of the ledger core of the application component
    (src/unnamed/part_000) together with the data shapes of src/types.ts.

    Conventions of the embedding.
    - A JavaScript [number] holding money is an exact rational ([Q]) in the
      handlers; sums and products are the exact ones, compared with [==]
      ([Qeq]).  The code computes in IEEE 754 binary64, where every
      operation is rounded: addition is not associative and the product does
      not distribute over it.  The properties stated over [Q] are those that
      do not depend on it: they relate a stored value to the value the
      program itself computes (its own running sum, its negation, its
      absolute value), never to a regrouped sum.  The module [Binary64] holds
      the arithmetic kernels over the primitive floats, with the rounding of
      the code; the properties that are about the arithmetic itself are
      stated there.
    - A Firestore [Timestamp] is the integer its [toMillis()] returns.
    - An optional field [f?: T] is [option T]; [None] is "the field is absent".
    - The Firestore collections the handlers write to are lists of documents
      keyed by their [id]; a handler is a computation in the state monad
      [Firestore] over that store, reading the React state ([clients],
      [workClients], [user]) it closes over. *)

From Stdlib Require Import List String ZArith QArith Qabs Bool Lia Permutation.
From Stdlib Require Import DecimalString Sorted Ascii.
From Stdlib Require Import PrimFloat FloatOps SpecFloat.
Import ListNotations.

(** A decimal literal denotes the nearest binary64 float, as in the source. *)
Set Warnings "-inexact-float".

Local Open Scope Q_scope.
Local Open Scope list_scope.

(** ** Data model (src/types.ts) *)

Definition Timestamp := Z.

Module User.
Record t := mk { uid : string; email : option string }.
End User.

Module Image.
Record t := mk { name : string; url : string }.
End Image.

Module TransactionItem.
Record t := mk {
  id : string;
  name : string;
  quantity : Q;
  pricePerKilo : Q;
  image : option Image.t }.
End TransactionItem.

Module Transaction.
Record t := mk {
  id : string;
  amount : Q;
  notes : string;
  date : Timestamp;
  isSettled : bool;
  items : list TransactionItem.t;
  entityId : option string;
  image : option Image.t }.

(** [{ ...t, isSettled: true }] *)
Definition markSettled (x : t) : t :=
  mk (id x) (amount x) (notes x) (date x) true (items x) (entityId x) (image x).

(** [{ ...t, amount, date, notes, isSettled: true }] *)
Definition overwrite (x : t) (a : Q) (d : Timestamp) (n : string) : t :=
  mk (id x) a n d true (items x) (entityId x) (image x).
End Transaction.

(** ['entities' | 'work' | 'advances'] *)
Module ArchiveType.
Inductive t := entities | work | advances.
End ArchiveType.

(** ['advance' | 'work'] *)
Module ClientType.
Inductive t := advance | work.
End ClientType.

Module Client.
Record t := mk {
  id : string;
  userId : string;
  name : string;
  transactions : list Transaction.t;
  isBuyer : option bool;
  isArchived : option bool;
  archiveType : option ArchiveType.t;
  phone : option string }.
End Client.

Module PaymentDetails.
Record t := mk {
  payerName : string;
  date : Timestamp;
  receiptImage : option Image.t }.
End PaymentDetails.

Module LoadingDetails.
Record t := mk { loaderName : string; date : Timestamp }.
End LoadingDetails.

Module Lot.
Record t := mk {
  id : string;
  lotNumber : string;
  name : string;
  quantity : string;
  totalValue : Q;
  value30 : Q;
  value70 : Q;
  is70Paid : option bool;
  paymentDetails : option PaymentDetails.t;
  loadingDetails : option LoadingDetails.t;
  contractImage : option Image.t;
  isArchived : bool }.
End Lot.

(** The [paymentData] argument of [addPayment]; its [date] is a JavaScript
    [Date], kept as its milliseconds. *)
Module PaymentData.
Record t := mk {
  amount : Q;
  notes : string;
  date : Timestamp;
  linkedTransactionId : option string;
  receiptImage : option Image.t }.
End PaymentData.

Module Entity.
Record t := mk {
  id : string;
  userId : string;
  name : string;
  buyerName : option string;
  auctionDate : option Timestamp;
  lots : list Lot.t }.
End Entity.

(** ** JavaScript helpers *)

(** [x || 0] on a number: a falsy number is replaced by [0]. *)
Definition orZero (x : Q) : Q := if Qeq_bool x 0 then 0 else x.

(** [x > 0] on numbers. *)
Definition Qpositive (x : Q) : bool := negb (Qle_bool x 0).

(** Truthiness of an optional boolean flag ([undefined] and [false] are falsy). *)
Definition truthyFlag (b : option bool) : bool :=
  match b with Some true => true | _ => false end.

(** Truthiness of an optional string ([undefined] and the empty string are falsy). *)
Definition truthyString (s : option string) : bool :=
  match s with
  | Some EmptyString => false
  | Some _ => true
  | None => false
  end.

(** [name === buyerName] for a string against an optional string. *)
Definition strictEqOpt (s : string) (o : option string) : bool :=
  match o with Some s' => String.eqb s s' | None => false end.

(** [Array.prototype.findIndex]; [None] stands for the result [-1]. *)
Fixpoint findIndex {A : Type} (p : A -> bool) (l : list A) : option nat :=
  match l with
  | [] => None
  | x :: l' => if p x then Some 0%nat else option_map S (findIndex p l')
  end.

(** [arr[i] = f(arr[i])] on a copy of the array, for an index inside it. *)
Fixpoint updateAt {A : Type} (i : nat) (f : A -> A) (l : list A) : list A :=
  match l, i with
  | [], _ => []
  | x :: l', O => f x :: l'
  | x :: l', S i' => x :: updateAt i' f l'
  end.

(** [`${n}`] for an integer. *)
Definition showInt (n : Z) : string := NilZero.string_of_int (Z.to_int n).

(** ** Balance engine *)

(** [transactions.reduce((acc, t) => acc + (t.amount || 0), 0)]: the [total]
    of [ClientSummaryPrintLayout] and of [ClientCard], over the rationals.
    [Binary64.computeClientBalance] is the same reduction over the floats of
    the code, where the result depends on the order of the additions. *)
Definition computeClientBalance (transactions : list Transaction.t) : Q :=
  fold_left (fun acc t => acc + orZero (Transaction.amount t)) transactions 0.

(** The mathematical sum of the amounts of a list of transactions. *)
Fixpoint sumAmounts (l : list Transaction.t) : Q :=
  match l with
  | [] => 0
  | t :: l' => Transaction.amount t + sumAmounts l'
  end.

(** ** The document store

    The two client collections of the Firestore database.  A document is a
    [Client.t] whose [id] is the document key. *)

Record Db := mkDb {
  advanceClients : list Client.t;
  workClients : list Client.t }.

Inductive CollectionName := AdvanceClientsColl | WorkClientsColl.

Definition getCollection (c : CollectionName) (db : Db) : list Client.t :=
  match c with
  | AdvanceClientsColl => advanceClients db
  | WorkClientsColl => workClients db
  end.

Definition setCollection (c : CollectionName) (docs : list Client.t) (db : Db) : Db :=
  match c with
  | AdvanceClientsColl => mkDb docs (workClients db)
  | WorkClientsColl => mkDb (advanceClients db) docs
  end.

(** One field of the object given to [updateDoc]: not mentioned, given a
    value, or the sentinel [deleteField()]. *)
Inductive FieldUpdate (A : Type) :=
| Untouched
| SetTo (a : A)
| DeleteField.
Arguments Untouched {A}.
Arguments SetTo {A} a.
Arguments DeleteField {A}.

(** The object given to [updateDoc] for a client document. *)
Record ClientPatch := mkPatch {
  setTransactions : option (list Transaction.t);
  setIsBuyer : option bool;
  setIsArchived : option bool;
  setArchiveType : FieldUpdate ArchiveType.t }.

Definition orKeep {A : Type} (new : option A) (old : A) : A :=
  match new with Some a => a | None => old end.

Definition orKeepOpt {A : Type} (new : option A) (old : option A) : option A :=
  match new with Some a => Some a | None => old end.

Definition applyFieldUpdate {A : Type} (u : FieldUpdate A) (old : option A) : option A :=
  match u with
  | Untouched => old
  | SetTo a => Some a
  | DeleteField => None
  end.

Definition applyPatch (p : ClientPatch) (d : Client.t) : Client.t :=
  Client.mk (Client.id d) (Client.userId d) (Client.name d)
    (orKeep (setTransactions p) (Client.transactions d))
    (orKeepOpt (setIsBuyer p) (Client.isBuyer d))
    (orKeepOpt (setIsArchived p) (Client.isArchived d))
    (applyFieldUpdate (setArchiveType p) (Client.archiveType d))
    (Client.phone d).

(** Computations that write to the store. *)
Definition Firestore (A : Type) : Type := Db -> A * Db.

Definition ret {A : Type} (a : A) : Firestore A := fun db => (a, db).

Definition bind {A B : Type} (m : Firestore A) (k : A -> Firestore B) : Firestore B :=
  fun db => let (a, db') := m db in k a db'.

Notation "x <- m ;; k" := (bind m (fun x => k))
  (at level 61, m at next level, right associativity).
Notation "m ;; k" := (bind m (fun _ => k))
  (at level 61, right associativity).

(** The store a computation leaves behind. *)
Definition execFirestore {A : Type} (m : Firestore A) (db : Db) : Db := snd (m db).

(** [updateDoc(doc(db, collection, id), patch)]: the document with key [id]
    gets the fields of [patch]; the other documents are left alone.  (On a
    key the collection does not hold, Firestore rejects the update and the
    store stays as it is.) *)
Definition updateDoc (c : CollectionName) (id : string) (p : ClientPatch) : Firestore unit :=
  fun db =>
    (tt, setCollection c
           (map (fun d => if String.eqb (Client.id d) id then applyPatch p d else d)
                (getCollection c db)) db).

(** [addDoc(collection(db, collection), data)]: a new document is added at
    the end of the collection, under the key the store assigns to it (the
    [id] of [data]). *)
Definition addDoc (c : CollectionName) (data : Client.t) : Firestore unit :=
  fun db => (tt, setCollection c (getCollection c db ++ [data]) db).

(** ** Handlers of the application component

    The React state and the environment the handlers close over. *)

Section App.

(** [user], [clients] (the advance clients) and [workClients]. *)
Variable user : option User.t.
Variable clients : list Client.t.
Variable workClientsState : list Client.t.
(** [Date.now()] and [Timestamp.now()]. *)
Variable now : Z.
(** The key Firestore assigns to the next added document. *)
Variable newDocId : string.
(** [date.toLocaleDateString('ar-EG', ...)] of the runtime. *)
Variable toLocaleDateString : Timestamp -> string.

(** [formatDate] *)
Definition formatDate (timestamp : option Timestamp) : string :=
  match timestamp with
  | None => "لا يوجد تاريخ"%string
  | Some ts => toLocaleDateString ts
  end.

(** [t.entityId === entityId] *)
Definition hasEntityId (entityId : string) (t : Transaction.t) : bool :=
  match Transaction.entityId t with
  | Some e => String.eqb e entityId
  | None => false
  end.

(** Step 1 of [syncBuyerCommission]: the commission of an entity, over the
    rationals.  [Binary64.commissionOf] is the same computation over the
    floats of the code, where the sum and the product are rounded. *)
Definition activeLots (lots : list Lot.t) : list Lot.t :=
  filter (fun l => negb (Lot.isArchived l)) lots.

Definition lotsTotalValue (lots : list Lot.t) : Q :=
  fold_left (fun sum l => sum + orZero (Lot.totalValue l)) lots 0.

Definition commissionOf (entityData : Entity.t) : Q :=
  lotsTotalValue (activeLots (Entity.lots entityData)) * 0.005.

Definition commissionNotes (entityData : Entity.t) : string :=
  ("عمولة 0.5% عن جلسة بتاريخ " ++ formatDate (Entity.auctionDate entityData))%string.

Definition commissionDate (entityData : Entity.t) : Timestamp :=
  match Entity.auctionDate entityData with Some d => d | None => now end.

(** [client.transactions.filter(t => t.entityId !== entityId)] *)
Definition withoutEntity (entityId : string) (l : list Transaction.t) : list Transaction.t :=
  filter (fun t => negb (hasEntityId entityId t)) l.

(** The object written for the current buyer when [commission > 0]: the
    transaction at [transactionIndex] is overwritten in a copy of the list. *)
Definition rewriteCommission (entityData : Entity.t) (transactionIndex : nat)
  (client : Client.t) : ClientPatch :=
  mkPatch
    (Some (updateAt transactionIndex
             (fun t => Transaction.overwrite t
                         (- commissionOf entityData)
                         (commissionDate entityData)
                         (commissionNotes entityData))
             (Client.transactions client)))
    (Some true) None Untouched.

(** The object written to take the commission of the entity away from a
    client. *)
Definition removeCommission (entityData : Entity.t) (client : Client.t) : ClientPatch :=
  mkPatch (Some (withoutEntity (Entity.id entityData) (Client.transactions client)))
    None None Untouched.

(** Step 2 of [syncBuyerCommission]: the [for (const client of clients)]
    loop.  The result is [true] when the loop left the function through
    [return]. *)
Fixpoint scanClients (entityData : Entity.t) (cs : list Client.t) : Firestore bool :=
  match cs with
  | [] => ret false
  | client :: rest =>
    match findIndex (hasEntityId (Entity.id entityData)) (Client.transactions client) with
    | Some transactionIndex =>
      if strictEqOpt (Client.name client) (Entity.buyerName entityData) then
        (if Qpositive (commissionOf entityData) then
           updateDoc AdvanceClientsColl (Client.id client)
             (rewriteCommission entityData transactionIndex client)
         else
           updateDoc AdvanceClientsColl (Client.id client)
             (removeCommission entityData client)) ;;
        ret true
      else
        updateDoc AdvanceClientsColl (Client.id client)
          (removeCommission entityData client) ;;
        scanClients entityData rest
    | None => scanClients entityData rest
    end
  end.

(** The [newTransaction] of step 3. *)
Definition newCommissionTransaction (entityData : Entity.t) : Transaction.t :=
  Transaction.mk (showInt now ++ "_comm")%string
    (- commissionOf entityData)
    (commissionNotes entityData)
    (commissionDate entityData)
    true [] (Some (Entity.id entityData)) None.

(** The object written to an existing buyer in step 3. *)
Definition appendCommission (entityData : Entity.t) (buyerClient : Client.t) : ClientPatch :=
  mkPatch (Some (Client.transactions buyerClient ++ [newCommissionTransaction entityData]))
    (Some true) None Untouched.

(** The document added for a buyer that has no client yet. *)
Definition newBuyerClient (u : User.t) (entityData : Entity.t) : Client.t :=
  Client.mk newDocId (User.uid u)
    (match Entity.buyerName entityData with Some n => n | None => EmptyString end)
    [newCommissionTransaction entityData]
    (Some true) None None None.

(** [syncBuyerCommission] *)
Definition syncBuyerCommission (entityData : Entity.t) : Firestore unit :=
  match user with
  | None => ret tt
  | Some u =>
    returned <- scanClients entityData clients ;;
    if returned then ret tt
    else if Qpositive (commissionOf entityData) && truthyString (Entity.buyerName entityData) then
      match find (fun c => strictEqOpt (Client.name c) (Entity.buyerName entityData)) clients with
      | Some buyerClient =>
        updateDoc AdvanceClientsColl (Client.id buyerClient)
          (appendCommission entityData buyerClient)
      | None => addDoc AdvanceClientsColl (newBuyerClient u entityData)
      end
    else ret tt
  end.

(** [collectionName] of a client type. *)
Definition collectionOf (type : ClientType.t) : CollectionName :=
  match type with
  | ClientType.advance => AdvanceClientsColl
  | ClientType.work => WorkClientsColl
  end.

(** [type === 'advance' ? clients : workClients] *)
Definition clientListOf (type : ClientType.t) : list Client.t :=
  match type with
  | ClientType.advance => clients
  | ClientType.work => workClientsState
  end.

(** The [newTransaction] of [addPayment]. *)
Definition paymentTransaction (paymentData : PaymentData.t) : Transaction.t :=
  Transaction.mk (showInt now)
    (- Qabs (orZero (PaymentData.amount paymentData)))
    (match PaymentData.notes paymentData with
     | EmptyString => "دفعة سداد"%string
     | n => n
     end)
    (PaymentData.date paymentData)
    true
    (match PaymentData.receiptImage paymentData with
     | Some img =>
       [TransactionItem.mk ("receipt_" ++ showInt now)%string "إيصال السداد"%string 0 0 (Some img)]
     | None => []
     end)
    None None.

(** [updatedTransactions] of [addPayment]. *)
Definition paymentUpdatedTransactions (paymentData : PaymentData.t) (client : Client.t)
  : list Transaction.t :=
  let updatedTransactions := Client.transactions client ++ [paymentTransaction paymentData] in
  if truthyString (PaymentData.linkedTransactionId paymentData) then
    map (fun t =>
           if strictEqOpt (Transaction.id t) (PaymentData.linkedTransactionId paymentData)
           then Transaction.markSettled t else t)
        updatedTransactions
  else updatedTransactions.

(** [addPayment] *)
Definition addPayment (paymentData : PaymentData.t) (clientId : string) (type : ClientType.t)
  : Firestore unit :=
  match user with
  | None => ret tt
  | Some _ =>
    match find (fun c => String.eqb (Client.id c) clientId) (clientListOf type) with
    | None => ret tt
    | Some client =>
      updateDoc (collectionOf type) clientId
        (mkPatch (Some (paymentUpdatedTransactions paymentData client)) None None Untouched)
    end
  end.

(** [clients.some(c => c.id === id)] *)
Definition someWithId (id : string) (l : list Client.t) : bool :=
  existsb (fun c => String.eqb (Client.id c) id) l.

(** The [balancingTransaction] of [confirmSettleAndArchive]. *)
Definition balancingTransaction (total : Q) : Transaction.t :=
  Transaction.mk ("settle_" ++ showInt now)%string
    (- total)
    "تسوية نهائية - تم التسديد بالكامل"%string
    now true [] None None.

(** [confirmSettleAndArchive], on the [settleTarget] that [handleSettleClient]
    stored. *)
Definition confirmSettleAndArchive (settleTarget : option (Client.t * Q)) : Firestore unit :=
  match settleTarget, user with
  | Some (client, total), Some _ =>
    let isAdvanceClient := someWithId (Client.id client) clients in
    let isWorkClient := someWithId (Client.id client) workClientsState in
    if isAdvanceClient then
      updateDoc AdvanceClientsColl (Client.id client)
        (mkPatch (Some (Client.transactions client ++ [balancingTransaction total]))
                 None (Some true) (SetTo ArchiveType.advances))
    else if isWorkClient then
      updateDoc WorkClientsColl (Client.id client)
        (mkPatch (Some (Client.transactions client ++ [balancingTransaction total]))
                 None (Some true) (SetTo ArchiveType.work))
    else ret tt
  | _, _ => ret tt
  end.

(** The settlement button of [ClientCard]: shown when [Math.abs(total) > 0],
    it calls [onSettleClient(client, total)] with the [total] of the card,
    i.e. [handleSettleClient], which the confirmation dialog completes with
    [confirmSettleAndArchive].  The test is taken on the total the rationals
    give; with the rounding of the code a ledger whose exact sum is [0] can
    have a total that is not ([0.1], [0.2], [-0.3]), and the button is then
    shown for it. *)
Definition settleAndArchive (client : Client.t) : Firestore unit :=
  let total := computeClientBalance (Client.transactions client) in
  if Qpositive (Qabs total) then confirmSettleAndArchive (Some (client, total))
  else ret tt.

(** [confirmRestoreClient], on the [clientToRestore] that
    [handleRestoreClient] stored. *)
Definition confirmRestoreClient (clientToRestore : option Client.t) : Firestore unit :=
  match clientToRestore, user with
  | Some client, Some _ =>
    let isAdvanceClient := someWithId (Client.id client) clients in
    let isWorkClient := someWithId (Client.id client) workClientsState in
    if isAdvanceClient then
      updateDoc AdvanceClientsColl (Client.id client)
        (mkPatch None None (Some false) DeleteField)
    else if isWorkClient then
      updateDoc WorkClientsColl (Client.id client)
        (mkPatch None None (Some false) DeleteField)
    else ret tt
  | _, _ => ret tt
  end.

End App.

(** ** Dashboard: the upcoming lot of [DashboardMetrics] *)

(** [{ ...lot, auctionDate: entity?.auctionDate }] *)
Record DatedLot := mkDatedLot {
  lot : Lot.t;
  lotAuctionDate : option Timestamp }.

(** [15 * 24 * 60 * 60 * 1000] *)
Definition fifteenDays : Z := 15 * 24 * 60 * 60 * 1000.

(** [entities.flatMap(e => (e.lots || []).filter(l => l && !l.isArchived))] *)
Definition allLots (entities : list Entity.t) : list Lot.t :=
  flat_map (fun e => filter (fun l => negb (Lot.isArchived l)) (Entity.lots e)) entities.

(** [entities.find(e => e.lots && e.lots.some(l => l.id === lot.id))?.auctionDate] *)
Definition auctionDateOfLot (entities : list Entity.t) (l : Lot.t) : option Timestamp :=
  match find (fun e => existsb (fun l' => String.eqb (Lot.id l') (Lot.id l)) (Entity.lots e))
             entities with
  | Some entity => Entity.auctionDate entity
  | None => None
  end.

(** [new Date(lot.auctionDate.toMillis() + 15 days) > new Date()] *)
Definition deadlineInFuture (now : Z) (x : DatedLot) : bool :=
  match lotAuctionDate x with
  | Some d => (now <? d + fifteenDays)%Z
  | None => false
  end.

(** The comparator given to [sort]: [dateA - dateB]. *)
Definition compareDates (a b : DatedLot) : Z :=
  ((match lotAuctionDate a with Some d => d | None => 0 end)
   - (match lotAuctionDate b with Some d => d | None => 0 end))%Z.

(** [Array.prototype.sort], a stable sort: an element stays in front of the
    later elements the comparator does not put before it. *)
Fixpoint insertSorted {A : Type} (cmp : A -> A -> Z) (x : A) (l : list A) : list A :=
  match l with
  | [] => [x]
  | y :: l' => if (cmp x y <=? 0)%Z then x :: y :: l' else y :: insertSorted cmp x l'
  end.

Definition sortBy {A : Type} (cmp : A -> A -> Z) (l : list A) : list A :=
  fold_right (insertSorted cmp) [] l.

(** The candidates of [upcomingLot] before the sort. *)
Definition upcomingCandidates (now : Z) (entities : list Entity.t) : list DatedLot :=
  filter (deadlineInFuture now)
    (map (fun l => mkDatedLot l (auctionDateOfLot entities l))
       (filter (fun l => negb (truthyFlag (Lot.is70Paid l))) (allLots entities))).

(** [upcomingLot]; [None] is the [undefined] that [[0]] gives on an empty
    array. *)
Definition upcomingLot (now : Z) (entities : list Entity.t) : option DatedLot :=
  hd_error (sortBy compareDates (upcomingCandidates now entities)).

(** ** Vocabulary of the properties *)

(** The running total of [totalValue] over the lots that are not archived:
    from [acc], each lot that is not archived adds its [totalValue] (or [0]
    for a falsy one), the lots being taken in the order of the list. *)
Fixpoint runningActiveTotal (acc : Q) (lots : list Lot.t) : Q :=
  match lots with
  | [] => acc
  | l :: lots' =>
    runningActiveTotal
      (if Lot.isArchived l then acc else acc + orZero (Lot.totalValue l)) lots'
  end.

(** The number of transactions of a client that carry the entity id [e]. *)
Definition commissionCount (e : string) (c : Client.t) : nat :=
  List.length (filter (hasEntityId e) (Client.transactions c)).

(** The number of such transactions over a whole list of clients. *)
Definition totalCommissionCount (e : string) (cs : list Client.t) : nat :=
  list_sum (map (commissionCount e) cs).

(** The document of a collection stored under the key [id]. *)
Definition docWithId (id : string) (docs : list Client.t) : option Client.t :=
  find (fun c => String.eqb (Client.id c) id) docs.

(** A store whose advance-client collection is the list [clients] the
    component holds in its state. *)
Definition storeOf (clients workClientsState : list Client.t) : Db :=
  mkDb clients workClientsState.

(** [paymentData] with another [amount]. *)
Definition withAmount (a : Q) (p : PaymentData.t) : PaymentData.t :=
  PaymentData.mk a (PaymentData.notes p) (PaymentData.date p)
    (PaymentData.linkedTransactionId p) (PaymentData.receiptImage p).

(** The namespace that holds a client id: the advance clients when the id is
    among them, the work clients otherwise. *)
Definition namespaceOf (clients : list Client.t) (id : string) : CollectionName :=
  if someWithId id clients then AdvanceClientsColl else WorkClientsColl.

Definition archiveTypeOf (c : CollectionName) : ArchiveType.t :=
  match c with
  | AdvanceClientsColl => ArchiveType.advances
  | WorkClientsColl => ArchiveType.work
  end.

(** The advance clients the scan of [syncBuyerCommission] leaves, document
    by document in the order of [clients], and whether the scan returned. *)
Fixpoint scanOutcome (now : Z) (toLocaleDateString : Timestamp -> string)
  (entityData : Entity.t) (cs : list Client.t) : bool * list Client.t :=
  match cs with
  | [] => (false, [])
  | client :: rest =>
    match findIndex (hasEntityId (Entity.id entityData)) (Client.transactions client) with
    | Some transactionIndex =>
      if strictEqOpt (Client.name client) (Entity.buyerName entityData) then
        (true,
         applyPatch
           (if Qpositive (commissionOf entityData)
            then rewriteCommission now toLocaleDateString entityData transactionIndex client
            else removeCommission entityData client) client :: rest)
      else
        (fst (scanOutcome now toLocaleDateString entityData rest),
         applyPatch (removeCommission entityData client) client
           :: snd (scanOutcome now toLocaleDateString entityData rest))
    | None =>
      (fst (scanOutcome now toLocaleDateString entityData rest),
       client :: snd (scanOutcome now toLocaleDateString entityData rest))
    end
  end.

(** A client after the commission of the entity is taken away from it. *)
Definition stripCommission (entityData : Entity.t) (c : Client.t) : Client.t :=
  applyPatch (removeCommission entityData c) c.

(** The clients of a store after [syncBuyerCommission]. *)
Definition syncedClients (u : User.t) (clients : list Client.t) (now : Z)
  (newDocId : string) (toLocaleDateString : Timestamp -> string)
  (entityData : Entity.t) (workClientsState : list Client.t) : list Client.t :=
  advanceClients
    (execFirestore
       (syncBuyerCommission (Some u) clients now newDocId toLocaleDateString entityData)
       (storeOf clients workClientsState)).
(** The advance-client lists the application reaches for the entity id [e]:
    it starts from a list, with distinct document keys, in which no
    transaction carries [e] (the entity is new), and every step is one
    reconciliation, of any entity in any state of its lots and buyer, on the
    current list. *)
Inductive reachable (e : string) : list Client.t -> Prop :=
| reachable_initial (cs : list Client.t) :
    NoDup (map Client.id cs) ->
    totalCommissionCount e cs = 0%nat ->
    reachable e cs
| reachable_sync (cs : list Client.t) (u : User.t) (now : Z) (newDocId : string)
    (toLocaleDateString : Timestamp -> string) (entityData : Entity.t)
    (workClientsState : list Client.t) :
    reachable e cs ->
    ~ In newDocId (map Client.id cs) ->
    reachable e
      (syncedClients u cs now newDocId toLocaleDateString entityData workClientsState).

(** The sort key of a dated lot: [auctionDate.toMillis()], or [0]. *)
Definition dateKey (x : DatedLot) : Z :=
  match lotAuctionDate x with Some d => d | None => 0%Z end.

(** A dated lot is a candidate for the upcoming deadline: it is a lot of
    some entity, not archived, not paid, dated with the auction date [d] of
    that entity, and the deadline [d + 15 days] is strictly after [now]. *)
Definition qualifies (now : Z) (entities : list Entity.t) (x : DatedLot) (d : Timestamp)
  : Prop :=
  exists entity,
    In entity entities
    /\ In (lot x) (Entity.lots entity)
    /\ Lot.isArchived (lot x) = false
    /\ truthyFlag (Lot.is70Paid (lot x)) = false
    /\ Entity.auctionDate entity = Some d
    /\ lotAuctionDate x = Some d
    /\ (now < d + fifteenDays)%Z.

(** The same without the condition on [isArchived]: the lots the sentence
    "all lots where is70Paid is false and the deadline is in the future"
    speaks of. *)
Definition qualifiesArchivedToo (now : Z) (entities : list Entity.t) (x : DatedLot)
  (d : Timestamp) : Prop :=
  exists entity,
    In entity entities
    /\ In (lot x) (Entity.lots entity)
    /\ truthyFlag (Lot.is70Paid (lot x)) = false
    /\ Entity.auctionDate entity = Some d
    /\ lotAuctionDate x = Some d
    /\ (now < d + fifteenDays)%Z.

(** What "the earliest among the candidates, or nothing when there is no
    candidate" says of a result, for a notion of candidate. *)
Definition selectsEarliest (candidate : DatedLot -> Timestamp -> Prop)
  (result : option DatedLot) : Prop :=
  match result with
  | None => forall x d, ~ candidate x d
  | Some x => exists d, candidate x d /\ forall y d', candidate y d' -> (d <= d')%Z
  end.

(** The head of a list is one of its elements of least key. *)
Definition headLeast {A : Type} (key : A -> Z) (l : list A) : Prop :=
  match l with
  | [] => True
  | h :: _ => forall y, In y l -> (key h <= key y)%Z
  end.

(** The conclusion of the buyer-change migration: the document of [A] no
    longer carries a transaction of the entity, and a client named [B]
    carries exactly one, of amount [-commission]. *)
Definition migrated (synced : list Client.t) (entityData : Entity.t) (A : Client.t)
  (B : string) : Prop :=
  (exists A',
      docWithId (Client.id A) synced = Some A'
      /\ Client.name A' = Client.name A
      /\ commissionCount (Entity.id entityData) A' = 0%nat)
  /\ (exists cB t,
         In cB synced
         /\ Client.name cB = B
         /\ filter (hasEntityId (Entity.id entityData)) (Client.transactions cB) = [t]
         /\ Transaction.amount t == - commissionOf entityData).

(** ** Sample data

    The end-to-end scenario of the application: the session "Auction-7",
    the buyers "Ahmed" and "Sara". *)

Definition sampleUser : User.t := User.mk "user-1" None.

Definition sampleLocale : Timestamp -> string := showInt.

Definition sampleNow : Z := 1700000500000.

Definition sampleAuctionDate : Timestamp := 1700000000000%Z.

Definition sampleTransaction (id : string) (amount : Q) : Transaction.t :=
  Transaction.mk id amount "فاتورة"%string 1699000000000%Z false [] None None.

Definition sampleCommission (amount : Q) : Transaction.t :=
  Transaction.mk "1700000100000_comm" amount "عمولة"%string sampleAuctionDate true []
    (Some "Auction-7"%string) None.

Definition sampleClient (id name : string) (transactions : list Transaction.t) : Client.t :=
  Client.mk id "user-1" name transactions None None None None.

Definition sampleLot (id : string) (totalValue : Q) (is70Paid : option bool)
  (isArchived : bool) : Lot.t :=
  Lot.mk id id "بضاعة"%string "1" totalValue (totalValue * 0.3) (totalValue * 0.7)
    is70Paid None None None isArchived.

Definition sampleEntity (buyerName : option string) (lots : list Lot.t) : Entity.t :=
  Entity.mk "Auction-7" "user-1" "Auction-7" buyerName (Some sampleAuctionDate) lots.

(** Transactions [+500, -200, +150], of balance [450]. *)
Definition sampleLedger : list Transaction.t :=
  [sampleTransaction "t1" 500; sampleTransaction "t2" (-200); sampleTransaction "t3" 150].

Definition ahmed : Client.t := sampleClient "c-ahmed" "Ahmed" sampleLedger.

(** "Ahmed" once the commission of one lot of value 10000 is on his ledger. *)
Definition ahmedWithCommission : Client.t :=
  sampleClient "c-ahmed" "Ahmed" (sampleLedger ++ [sampleCommission (-50)]).

Definition saraWithCommission : Client.t :=
  sampleClient "c-sara" "Sara" [sampleCommission (-50)].

Definition archivedAhmed : Client.t :=
  Client.mk "c-ahmed" "user-1" "Ahmed" sampleLedger None (Some true)
    (Some ArchiveType.advances) None.

(** Active lots of value 1000, 2000 and 500, and one archived lot of value
    10000. *)
Definition sampleLots : list Lot.t :=
  [sampleLot "l1" 1000 None false; sampleLot "l2" 2000 None false;
   sampleLot "l3" 500 (Some true) false; sampleLot "l4" 10000 None true].

Definition oneLot : list Lot.t := [sampleLot "l1" 10000 None false].

(** The lot above once it has been marked as loaded. *)
Definition oneLotLoaded : list Lot.t := [sampleLot "l1" 10000 None true].

Definition samplePayment (amount : Q) : PaymentData.t :=
  PaymentData.mk amount "دفعة"%string 1700000400000%Z (Some "t1"%string) None.

(** Two sessions of the dashboard: the second one is earlier. *)
Definition dashboardEntities : list Entity.t :=
  [Entity.mk "e1" "user-1" "e1" (Some "Ahmed"%string) (Some 1700000000000%Z)
     [sampleLot "a1" 1000 None false; sampleLot "a2" 2000 (Some true) false];
   Entity.mk "e2" "user-1" "e2" (Some "Sara"%string) (Some 1699900000000%Z)
     [sampleLot "b1" 700 (Some false) false]].

(** A session whose only lot is unpaid and archived. *)
Definition loadedEntities : list Entity.t :=
  [Entity.mk "e3" "user-1" "e3" (Some "Ahmed"%string) (Some 1700000000000%Z)
     [sampleLot "c1" 1000 None true]].

(** The advance clients after the first reconciliation of "Auction-7",
    bought by "Ahmed", with one lot of value 10000. *)
Definition afterFirstSync : list Client.t :=
  syncedClients sampleUser [ahmed] sampleNow "c-new-1" sampleLocale
    (sampleEntity (Some "Ahmed"%string) oneLot) [].

(** ** Vocabulary of the further properties *)

(** What [syncBuyerCommission] keeps of a client document: its key, its
    owner, its name, its phone, its archive fields and, in their order, the
    transactions that do not carry the id [e] of the entity. *)
Definition sameLedgerOutside (e : string) (c c' : Client.t) : Prop :=
  Client.id c' = Client.id c
  /\ Client.userId c' = Client.userId c
  /\ Client.name c' = Client.name c
  /\ Client.phone c' = Client.phone c
  /\ Client.isArchived c' = Client.isArchived c
  /\ Client.archiveType c' = Client.archiveType c
  /\ withoutEntity e (Client.transactions c') = withoutEntity e (Client.transactions c).

(** ** Further handlers of the application component: the ledgers *)

(** The [transactionData] argument of [addOrUpdateTransaction]; its [date]
    is a JavaScript [Date], kept as its milliseconds. *)
Module TransactionData.
Record t := mk {
  amount : Q;
  notes : string;
  date : Timestamp;
  items : list TransactionItem.t;
  isSettled : bool;
  image : option Image.t }.
End TransactionData.

(** The state [transactionToDelete]. *)
Module TransactionToDelete.
Record t := mk {
  clientId : string;
  clientType : ClientType.t;
  transactionId : string }.
End TransactionToDelete.

(** [deleteDoc(doc(db, collection, id))] *)
Definition deleteDoc (c : CollectionName) (id : string) : Firestore unit :=
  fun db =>
    (tt, setCollection c
           (filter (fun d => negb (String.eqb (Client.id d) id)) (getCollection c db)) db).

Section Ledger.

Variable user : option User.t.
Variable clients : list Client.t.
Variable workClientsState : list Client.t.
Variable now : Z.
(** The state [editingTransaction]. *)
Variable editingTransaction : option Transaction.t.

(** The [newTransaction] of [addOrUpdateTransaction]. *)
Definition savedTransaction (transactionData : TransactionData.t) : Transaction.t :=
  Transaction.mk
    (match editingTransaction with
     | Some t => Transaction.id t
     | None => showInt now
     end)
    (orZero (TransactionData.amount transactionData))
    (TransactionData.notes transactionData)
    (TransactionData.date transactionData)
    (TransactionData.isSettled transactionData)
    (TransactionData.items transactionData)
    None
    (TransactionData.image transactionData).

(** The [updatedTransactions] of [addOrUpdateTransaction]. *)
Definition savedTransactions (transactionData : TransactionData.t) (client : Client.t)
  : list Transaction.t :=
  match editingTransaction with
  | Some editing =>
    map (fun t =>
           if String.eqb (Transaction.id t) (Transaction.id editing)
           then savedTransaction transactionData else t)
        (Client.transactions client)
  | None => Client.transactions client ++ [savedTransaction transactionData]
  end.

(** [addOrUpdateTransaction] *)
Definition addOrUpdateTransaction (transactionData : TransactionData.t) (clientId : string)
  (type : ClientType.t) : Firestore unit :=
  match user with
  | None => ret tt
  | Some _ =>
    match find (fun c => String.eqb (Client.id c) clientId)
               (clientListOf clients workClientsState type) with
    | None => ret tt
    | Some client =>
      updateDoc (collectionOf type) clientId
        (mkPatch (Some (savedTransactions transactionData client)) None None Untouched)
    end
  end.

(** [client.transactions.filter(t => t.id !== transactionId)] *)
Definition withoutTransaction (transactionId : string) (l : list Transaction.t)
  : list Transaction.t :=
  filter (fun t => negb (String.eqb (Transaction.id t) transactionId)) l.

(** [handleConfirmDeleteTransaction], on the state [transactionToDelete]. *)
Definition handleConfirmDeleteTransaction (transactionToDelete : option TransactionToDelete.t)
  : Firestore unit :=
  match transactionToDelete with
  | None => ret tt
  | Some target =>
    match find (fun c => String.eqb (Client.id c) (TransactionToDelete.clientId target))
               (clientListOf clients workClientsState (TransactionToDelete.clientType target))
    with
    | None => ret tt
    | Some client =>
      updateDoc (collectionOf (TransactionToDelete.clientType target))
        (TransactionToDelete.clientId target)
        (mkPatch
           (Some (withoutTransaction (TransactionToDelete.transactionId target)
                    (Client.transactions client)))
           None None Untouched)
    end
  end.

(** [handleConfirmDeleteClient], on the state [clientToDelete]. *)
Definition handleConfirmDeleteClient (clientToDelete : option (string * ClientType.t))
  : Firestore unit :=
  match clientToDelete with
  | None => ret tt
  | Some (id, type) => deleteDoc (collectionOf type) id
  end.

End Ledger.

(** [(client.transactions || []).filter(t => !t.isSettled)] of
    [PaymentModal]. *)
Definition unsettledTransactions (client : Client.t) : list Transaction.t :=
  filter (fun t => negb (Transaction.isSettled t)) (Client.transactions client).

(** ** Views

    The lists [renderContent] hands to the views. *)

(** [clients.filter(c => !c.isArchived)] *)
Definition activeClients (l : list Client.t) : list Client.t :=
  filter (fun c => negb (truthyFlag (Client.isArchived c))) l.

(** [c.isArchived && c.archiveType === type] *)
Definition archivedAs (type : ArchiveType.t) (c : Client.t) : bool :=
  truthyFlag (Client.isArchived c)
  && match Client.archiveType c, type with
     | Some ArchiveType.entities, ArchiveType.entities => true
     | Some ArchiveType.work, ArchiveType.work => true
     | Some ArchiveType.advances, ArchiveType.advances => true
     | _, _ => false
     end.

(** [clients.filter(c => c.isArchived && c.archiveType === 'advances')] and
    its counterpart for the work clients. *)
Definition archivedClients (type : ArchiveType.t) (l : list Client.t) : list Client.t :=
  filter (archivedAs type) l.

(** The [summary] of [SummaryPanel]. *)
Module FinancialSummary.
Record t := mk {
  totalDebit : Q;
  totalCredit : Q;
  netBalance : Q }.
End FinancialSummary.

(** One step of the inner [forEach] of [SummaryPanel]. *)
Definition summaryStep (acc : Q * Q) (transaction : Transaction.t) : Q * Q :=
  let amount := orZero (Transaction.amount transaction) in
  if Qpositive amount then (fst acc + amount, snd acc)
  else (fst acc, snd acc + Qabs amount).

(** The test [amount > 0] of that step: the transaction counts as a debit. *)
Definition isDebit (transaction : Transaction.t) : bool :=
  Qpositive (orZero (Transaction.amount transaction)).

Definition summaryTotals (clients : list Client.t) : Q * Q :=
  fold_left (fun acc client => fold_left summaryStep (Client.transactions client) acc)
    clients (0, 0).

Definition summary (clients : list Client.t) : FinancialSummary.t :=
  let totals := summaryTotals clients in
  FinancialSummary.mk (fst totals) (snd totals) (fst totals - snd totals).

(** The [stats] of [DashboardView]. *)
Module DashboardStats.
Record t := mk {
  entitiesCount : nat;
  activeLots : nat;
  advancesBalance : Q;
  workBalance : Q;
  archivedLots : nat;
  archivedAdvances : nat;
  archivedWork : nat;
  totalArchivedClients : nat }.
End DashboardStats.

(** [clients.reduce((sum, c) => sum + c.transactions.reduce(...), 0)] *)
Definition ledgersBalance (l : list Client.t) : Q :=
  fold_left (fun sum c => sum + computeClientBalance (Client.transactions c)) l 0.

(** [entities.reduce((sum, e) => sum + (e.lots?.filter(p).length || 0), 0)] *)
Definition countLots (p : Lot.t -> bool) (entities : list Entity.t) : nat :=
  fold_left (fun sum e => (sum + List.length (filter p (Entity.lots e)))%nat) entities 0%nat.

Definition dashboardStats (entities : list Entity.t) (clients workClientsProp : list Client.t)
  : DashboardStats.t :=
  let archivedAdvances := List.length (archivedClients ArchiveType.advances clients) in
  let archivedWork := List.length (archivedClients ArchiveType.work workClientsProp) in
  DashboardStats.mk
    (List.length
       (filter (fun e => existsb (fun l => negb (Lot.isArchived l)) (Entity.lots e)) entities))
    (countLots (fun l => negb (Lot.isArchived l)) entities)
    (ledgersBalance clients)
    (ledgersBalance workClientsProp)
    (countLots Lot.isArchived entities)
    archivedAdvances
    archivedWork
    (archivedAdvances + archivedWork)%nat.

(** The [stats] of the [DashboardView] that [renderContent] renders: it is
    given the clients that are not archived. *)
Definition renderedDashboardStats (entities : list Entity.t)
  (clients workClientsState : list Client.t) : DashboardStats.t :=
  dashboardStats entities (activeClients clients) (activeClients workClientsState).

(** [{ ...e, lots }] *)
Definition withLots (lots : list Lot.t) (e : Entity.t) : Entity.t :=
  Entity.mk (Entity.id e) (Entity.userId e) (Entity.name e) (Entity.buyerName e)
    (Entity.auctionDate e) lots.

(** [activeLotsEntities] of [EntitiesView]. *)
Definition activeLotsEntities (entities : list Entity.t) : list Entity.t :=
  map (fun e => withLots (filter (fun l => negb (Lot.isArchived l)) (Entity.lots e)) e)
    (filter
       (fun e =>
          existsb (fun l => negb (Lot.isArchived l)) (Entity.lots e)
          || Nat.eqb (List.length (Entity.lots e)) 0)
       entities).

(** [archivedLotsEntities] of [ArchiveView], as shown: the entities that
    have no archived lot are skipped. *)
Definition archivedLotsEntities (entities : list Entity.t) : list Entity.t :=
  filter (fun e => negb (Nat.eqb (List.length (Entity.lots e)) 0))
    (map (fun e => withLots (filter Lot.isArchived (Entity.lots e)) e) entities).

(** The other metrics of [DashboardMetrics]. *)
Definition totalInvoices (entities : list Entity.t) : Q :=
  fold_left (fun sum lot => sum + orZero (Lot.totalValue lot)) (allLots entities) 0.

Definition remainingToSupply (entities : list Entity.t) : Q :=
  fold_left (fun sum lot => sum + orZero (Lot.value70 lot))
    (filter (fun l => negb (truthyFlag (Lot.is70Paid l))) (allLots entities)) 0.

Definition remaining30 (entities : list Entity.t) : Q :=
  fold_left (fun sum lot => sum + orZero (Lot.value30 lot)) (allLots entities) 0.

(** [metrics.totalInvoices > 0 && metrics.remainingToSupply === 0] *)
Definition isFullyPaid (entities : list Entity.t) : bool :=
  Qpositive (totalInvoices entities) && Qeq_bool (remainingToSupply entities) 0.

(** ** Further handlers of the application component: the lots

    The store with the [entities] collection beside the client collections;
    an entity document is an [Entity.t] whose [id] is the document key. *)

Record Store := mkStore {
  entityDocs : list Entity.t;
  clientDocs : Db }.

(** [updateDoc(doc(db, 'entities', id), { lots })] *)
Definition updateEntityLots (id : string) (lots : list Lot.t) (s : Store) : Store :=
  mkStore
    (map (fun d => if String.eqb (Entity.id d) id then withLots lots d else d)
       (entityDocs s))
    (clientDocs s).

(** A computation on the client collections, run on the whole store. *)
Definition onClients (m : Firestore unit) (s : Store) : Store :=
  mkStore (entityDocs s) (execFirestore m (clientDocs s)).

(** The [lotData] argument of [addOrUpdateLot]. *)
Module LotData.
Record t := mk {
  lotNumber : string;
  name : string;
  quantity : string;
  totalValue : Q;
  value30 : Q;
  contractImage : option Image.t }.
End LotData.

(** ['lot' | 'entity'] *)
Module SupplyType.
Inductive t := lot | entity.
End SupplyType.

(** The state [supplyTarget]. *)
Module SupplyTarget.
Record t := mk {
  type : SupplyType.t;
  entityId : string;
  lotId : option string }.
End SupplyTarget.

(** The state [loadingTarget]. *)
Module LoadingTarget.
Record t := mk {
  entityId : string;
  lotId : option string }.
End LoadingTarget.

(** The [data] argument of [handleSupplySave]. *)
Module SupplyData.
Record t := mk {
  payerName : string;
  date : Timestamp;
  receiptImage : option Image.t }.
End SupplyData.

(** [{ ...l, is70Paid: true, paymentDetails }] *)
Definition markPaid (paymentDetails : PaymentDetails.t) (l : Lot.t) : Lot.t :=
  Lot.mk (Lot.id l) (Lot.lotNumber l) (Lot.name l) (Lot.quantity l) (Lot.totalValue l)
    (Lot.value30 l) (Lot.value70 l) (Some true) (Some paymentDetails) (Lot.loadingDetails l)
    (Lot.contractImage l) (Lot.isArchived l).

(** [{ ...l, isArchived: true, loadingDetails }] *)
Definition markLoaded (loadingDetails : LoadingDetails.t) (l : Lot.t) : Lot.t :=
  Lot.mk (Lot.id l) (Lot.lotNumber l) (Lot.name l) (Lot.quantity l) (Lot.totalValue l)
    (Lot.value30 l) (Lot.value70 l) (Lot.is70Paid l) (Lot.paymentDetails l)
    (Some loadingDetails) (Lot.contractImage l) true.

(** [{ ...l, isArchived: !l.isArchived }] *)
Definition flipArchived (l : Lot.t) : Lot.t :=
  Lot.mk (Lot.id l) (Lot.lotNumber l) (Lot.name l) (Lot.quantity l) (Lot.totalValue l)
    (Lot.value30 l) (Lot.value70 l) (Lot.is70Paid l) (Lot.paymentDetails l)
    (Lot.loadingDetails l) (Lot.contractImage l) (negb (Lot.isArchived l)).

Section Lots.

Variable user : option User.t.
Variable clients : list Client.t.
(** The state [entities]. *)
Variable entities : list Entity.t.
Variable now : Z.
Variable newDocId : string.
Variable toLocaleDateString : Timestamp -> string.
(** The state [editingLot]. *)
Variable editingLot : option Lot.t.

(** [entities.find(e => e.id === entityId)] *)
Definition findEntity (entityId : string) : option Entity.t :=
  find (fun e => String.eqb (Entity.id e) entityId) entities.

(** [{ ...l, ...newLotData }] *)
Definition editLot (lotData : LotData.t) (l : Lot.t) : Lot.t :=
  Lot.mk (Lot.id l)
    (LotData.lotNumber lotData) (LotData.name lotData) (LotData.quantity lotData)
    (orZero (LotData.totalValue lotData))
    (orZero (LotData.value30 lotData))
    (orZero (LotData.totalValue lotData) - orZero (LotData.value30 lotData))
    (Lot.is70Paid l) (Lot.paymentDetails l) (Lot.loadingDetails l)
    (match LotData.contractImage lotData with
     | Some image => Some image
     | None => Lot.contractImage l
     end)
    (Lot.isArchived l).

(** [{ ...newLotData, id: `${Date.now()}`, isArchived: false }] *)
Definition newLot (lotData : LotData.t) : Lot.t :=
  Lot.mk (showInt now)
    (LotData.lotNumber lotData) (LotData.name lotData) (LotData.quantity lotData)
    (orZero (LotData.totalValue lotData))
    (orZero (LotData.value30 lotData))
    (orZero (LotData.totalValue lotData) - orZero (LotData.value30 lotData))
    None None None (LotData.contractImage lotData) false.

(** The [updatedLots] of [addOrUpdateLot]. *)
Definition savedLots (lotData : LotData.t) (lots : list Lot.t) : list Lot.t :=
  match editingLot with
  | Some editing =>
    map (fun l => if String.eqb (Lot.id l) (Lot.id editing) then editLot lotData l else l)
        lots
  | None => lots ++ [newLot lotData]
  end.

(** The reconciliation the lot handlers end with. *)
Definition syncOnStore (entityData : Entity.t) : Store -> Store :=
  onClients (syncBuyerCommission user clients now newDocId toLocaleDateString entityData).

(** [addOrUpdateLot] *)
Definition addOrUpdateLot (lotData : LotData.t) (entityId : string) (s : Store) : Store :=
  match user with
  | None => s
  | Some _ =>
    match findEntity entityId with
    | None => s
    | Some entity =>
      let updatedLots := savedLots lotData (Entity.lots entity) in
      syncOnStore (withLots updatedLots entity) (updateEntityLots entityId updatedLots s)
    end
  end.

(** The [updatedLots] of [handleSupplySave]; [None] when the handler
    returns before writing. *)
Definition suppliedLots (target : SupplyTarget.t) (paymentDetails : PaymentDetails.t)
  (lots : list Lot.t) : option (list Lot.t) :=
  match SupplyTarget.type target with
  | SupplyType.lot =>
    if truthyString (SupplyTarget.lotId target) then
      Some (map (fun l =>
                   if strictEqOpt (Lot.id l) (SupplyTarget.lotId target)
                   then markPaid paymentDetails l else l) lots)
    else None
  | SupplyType.entity =>
    Some (map (fun l =>
                 if negb (truthyFlag (Lot.is70Paid l))
                 then markPaid paymentDetails l else l) lots)
  end.

(** [handleSupplySave], on the state [supplyTarget]. *)
Definition handleSupplySave (supplyTarget : option SupplyTarget.t) (data : SupplyData.t)
  (s : Store) : Store :=
  match supplyTarget, user with
  | Some target, Some _ =>
    match findEntity (SupplyTarget.entityId target) with
    | None => s
    | Some entity =>
      let paymentDetails :=
        PaymentDetails.mk (SupplyData.payerName data) (SupplyData.date data)
          (SupplyData.receiptImage data) in
      match suppliedLots target paymentDetails (Entity.lots entity) with
      | Some updatedLots => updateEntityLots (SupplyTarget.entityId target) updatedLots s
      | None => s
      end
    end
  | _, _ => s
  end.

(** The [updatedLots] of [handleLoadingSave]. *)
Definition loadedLots (target : LoadingTarget.t) (loadingDetails : LoadingDetails.t)
  (lots : list Lot.t) : list Lot.t :=
  if truthyString (LoadingTarget.lotId target) then
    map (fun l =>
           if strictEqOpt (Lot.id l) (LoadingTarget.lotId target)
           then markLoaded loadingDetails l else l) lots
  else map (markLoaded loadingDetails) lots.

(** [handleLoadingSave], on the state [loadingTarget]: it does not
    reconcile the commission. *)
Definition handleLoadingSave (loadingTarget : option LoadingTarget.t)
  (data : LoadingDetails.t) (s : Store) : Store :=
  match loadingTarget, user with
  | Some target, Some _ =>
    match findEntity (LoadingTarget.entityId target) with
    | None => s
    | Some entity =>
      updateEntityLots (LoadingTarget.entityId target)
        (loadedLots target data (Entity.lots entity)) s
    end
  | _, _ => s
  end.

(** [handleConfirmDeleteLot], on the state [lotToDelete]. *)
Definition handleConfirmDeleteLot (lotToDelete : option (string * string)) (s : Store)
  : Store :=
  match lotToDelete with
  | None => s
  | Some (entityId, lotId) =>
    match findEntity entityId with
    | None => s
    | Some entity =>
      let updatedLots :=
        filter (fun l => negb (String.eqb (Lot.id l) lotId)) (Entity.lots entity) in
      syncOnStore (withLots updatedLots entity) (updateEntityLots entityId updatedLots s)
    end
  end.

(** [toggleLotArchive] *)
Definition toggleLotArchive (lot : Lot.t) (entityId : string) (s : Store) : Store :=
  match findEntity entityId with
  | None => s
  | Some entity =>
    let updatedLots :=
      map (fun l => if String.eqb (Lot.id l) (Lot.id lot) then flipArchived l else l)
          (Entity.lots entity) in
    syncOnStore (withLots updatedLots entity) (updateEntityLots entityId updatedLots s)
  end.

End Lots.

(** ** Lots in the order of their numbers *)

(** [\d] of the regular expression: an ASCII digit. *)
Definition isDigit (c : Ascii.ascii) : bool :=
  (48 <=? Ascii.nat_of_ascii c)%nat && (Ascii.nat_of_ascii c <=? 57)%nat.

(** [parseInt(s.replace(/\D/g, ''))] continued from the value [acc] of the
    digits read so far: the characters that are not digits are dropped. *)
Fixpoint digitsValue (acc : Z) (s : string) : Z :=
  match s with
  | EmptyString => acc
  | String c s' =>
    if isDigit c
    then digitsValue (10 * acc + Z.of_nat (Ascii.nat_of_ascii c - 48)) s'
    else digitsValue acc s'
  end.

(** [parseInt(String(lotNumber).replace(/\D/g, '')) || 0]: without a digit
    [parseInt] gives [NaN], replaced by [0].  The value is the integer the
    digits write; [parseInt] returns it as a binary64 float, which is that
    integer as long as it is below [2^53] and a rounding of it above. *)
Definition lotNumberValue (l : Lot.t) : Z := digitsValue 0 (Lot.lotNumber l).

(** The comparator of [sortLotsByNumber]. *)
Definition compareLotNumbers (a b : Lot.t) : Z :=
  match Lot.lotNumber a, Lot.lotNumber b with
  | EmptyString, _ => 1
  | _, EmptyString => -1
  | _, _ => lotNumberValue a - lotNumberValue b
  end%Z.

(** [sortLotsByNumber].  [Array.prototype.sort] is a stable sort, and
    [sortBy] gives its result whenever the comparator is consistent; it is
    not with an empty lot number (sent behind whatever it is compared to),
    and the order of the engine is then its own. *)
Definition sortLotsByNumber (lots : list Lot.t) : list Lot.t :=
  match lots with
  | [] => []
  | _ => sortBy compareLotNumbers lots
  end.

(** ** Image links (App.tsx, [getDirectImageUrl]) *)

(** [s.startsWith(pre)]. *)
Fixpoint startsWith (s pre : string) {struct pre} : bool :=
  match pre with
  | EmptyString => true
  | String a pre' =>
      match s with
      | EmptyString => false
      | String b s' => Ascii.eqb a b && startsWith s' pre'
      end
  end.

(** [s.includes(sub)]. *)
Fixpoint includes (s sub : string) {struct s} : bool :=
  startsWith s sub
  || match s with
     | EmptyString => false
     | String _ s' => includes s' sub
     end.

(** What follows the literal [pre] at the head of [s], when [s] starts with it. *)
Fixpoint afterLiteral (pre s : string) {struct pre} : option string :=
  match pre with
  | EmptyString => Some s
  | String a pre' =>
      match s with
      | EmptyString => None
      | String b s' => if Ascii.eqb a b then afterLiteral pre' s' else None
      end
  end.

(** The longest run of characters of the class [p] at the head of [s]. *)
Fixpoint takeWhile (p : Ascii.ascii -> bool) (s : string) : string :=
  match s with
  | EmptyString => EmptyString
  | String a s' => if p a then String a (takeWhile p s') else EmptyString
  end.

(** A closing group [([class]+)] at the head of [s]: the quantifier is greedy
    and nothing follows it, so the group is the longest run of the class, and
    there is no match when the run is empty. *)
Definition captureRun (p : Ascii.ascii -> bool) (s : string) : option string :=
  match takeWhile p s with
  | EmptyString => None
  | run => Some run
  end.

(** [s.match(re)] without the global flag, as the group [1] of the match at
    the leftmost position that has one; [matchAt] is the match of [re]
    anchored at the head of its argument. *)
Fixpoint matchFirst (matchAt : string -> option string) (s : string) : option string :=
  match matchAt s with
  | Some g => Some g
  | None =>
      match s with
      | EmptyString => None
      | String _ s' => matchFirst matchAt s'
      end
  end.

Definition notSlashNorQuery (c : Ascii.ascii) : bool :=
  negb (Ascii.eqb c "/"%char || Ascii.eqb c "?"%char).

Definition notAmpersand (c : Ascii.ascii) : bool := negb (Ascii.eqb c "&"%char).

(** [/\/file\/d\/([^\/\?]+)/], anchored. *)
Definition viewPattern (s : string) : option string :=
  match afterLiteral "/file/d/" s with
  | Some rest => captureRun notSlashNorQuery rest
  | None => None
  end.

(** [/[?&]id=([^&]+)/], anchored. *)
Definition idPattern (s : string) : option string :=
  match s with
  | EmptyString => None
  | String c s' =>
      if Ascii.eqb c "?"%char || Ascii.eqb c "&"%char then
        match afterLiteral "id=" s' with
        | Some rest => captureRun notAmpersand rest
        | None => None
        end
      else None
  end.

Definition isEmptyString (s : string) : bool :=
  match s with
  | EmptyString => true
  | String _ _ => false
  end.

Definition directUrl (fileId : string) : string :=
  String.append "https://drive.google.com/uc?export=view&id=" fileId.

Definition getDirectImageUrl (url : string) : string :=
  if isEmptyString url then url
  else if includes url "drive.google.com" then
    let fileId := EmptyString in
    let fileId :=
      match matchFirst viewPattern url with
      | Some g => g
      | None => fileId
      end in
    let fileId :=
      if isEmptyString fileId then
        match matchFirst idPattern url with
        | Some g => g
        | None => fileId
        end
      else fileId in
    if isEmptyString fileId
       && match matchFirst idPattern url with Some _ => true | None => false end
    then url
    else if negb (isEmptyString fileId) then directUrl fileId
    else url
  else url.

(** [https://drive.google.com/file/d/FILE_ID] followed by [rest]. *)
Definition viewUrl (fileId rest : string) : string :=
  String.append "https://drive.google.com/file/d/" (String.append fileId rest).

(** Every character of [s] is of the class [p]. *)
Fixpoint allChars (p : Ascii.ascii -> bool) (s : string) : bool :=
  match s with
  | EmptyString => true
  | String a s' => p a && allChars p s'
  end.

(** [s] is empty or starts with a character outside the class [p]. *)
Definition stopsRun (p : Ascii.ascii -> bool) (s : string) : bool :=
  match s with
  | EmptyString => true
  | String a _ => negb (p a)
  end.

(** ** The arithmetic of the code: IEEE 754 binary64

    A JavaScript [number] is a binary64 float.  The kernels below are the
    balance of a ledger and the commission of an entity as the code computes
    them, over the primitive floats: each addition and each product is
    rounded to the nearest float. *)

Module Binary64.

(** [x || 0] on a number: [0], [-0] and [NaN] are falsy. *)
Definition orZero (x : float) : float :=
  if PrimFloat.eqb x 0%float || negb (PrimFloat.eqb x x) then 0%float else x.

(** The fields of a [Transaction] (src/types.ts) the ledger reads. *)
Module Transaction.
Record t := mk {
  id : string;
  amount : float;
  notes : string;
  date : Timestamp;
  isSettled : bool;
  entityId : option string }.
End Transaction.

(** [transactions.reduce((acc, t) => acc + (t.amount || 0), 0)] *)
Definition computeClientBalance (transactions : list Transaction.t) : float :=
  fold_left (fun acc t => (acc + orZero (Transaction.amount t))%float) transactions 0%float.

(** The fields of a [Lot] (src/types.ts) the commission reads. *)
Module Lot.
Record t := mk {
  id : string;
  lotNumber : string;
  totalValue : float;
  isArchived : bool }.
End Lot.

(** [(lots || []).filter(l => !l.isArchived)] *)
Definition activeLots (lots : list Lot.t) : list Lot.t :=
  filter (fun l => negb (Lot.isArchived l)) lots.

(** [activeLots.reduce((sum, l) => sum + (l.totalValue || 0), 0)] *)
Definition lotsTotalValue (lots : list Lot.t) : float :=
  fold_left (fun sum l => (sum + orZero (Lot.totalValue l))%float) lots 0%float.

(** [const commission = totalValue * 0.005] *)
Definition commissionOf (lots : list Lot.t) : float :=
  (lotsTotalValue (activeLots lots) * 0.005)%float.

(** The running total of [totalValue] over the lots that are not archived,
    as [runningActiveTotal] over the floats. *)
Fixpoint runningActiveTotal (acc : float) (lots : list Lot.t) : float :=
  match lots with
  | [] => acc
  | l :: lots' =>
    runningActiveTotal
      (if Lot.isArchived l then acc else (acc + orZero (Lot.totalValue l))%float) lots'
  end.

(** [amount: -commission], the amount of the commission transaction. *)
Definition commissionAmount (lots : list Lot.t) : float := (- commissionOf lots)%float.


End Binary64.

(** ** Further sample data *)

Definition sampleStoreDb : Db := storeOf [ahmed] [].

Definition sampleTransactionData : TransactionData.t :=
  TransactionData.mk 250 "بضاعة"%string 1700000300000%Z [] false None.

Definition sampleDeletion : TransactionToDelete.t :=
  TransactionToDelete.mk "c-ahmed" ClientType.advance "t2".

(** "Auction-7" bought by "Sara", with one lot of value 10000. *)
Definition saraEntity : Entity.t := sampleEntity (Some "Sara"%string) oneLot.

(** "Auction-7" before its first lot. *)
Definition newEntity : Entity.t := sampleEntity (Some "Ahmed"%string) [].

Definition sampleStore : Store := mkStore [saraEntity] (storeOf [ahmedWithCommission] []).

Definition sampleLotData : LotData.t :=
  LotData.mk "12" "حديد"%string "3 طن"%string 4000 1200 None.

Definition sampleSupplyTarget : SupplyTarget.t :=
  SupplyTarget.mk SupplyType.entity "Auction-7" None.

Definition sampleSupplyData : SupplyData.t :=
  SupplyData.mk "Ahmed" 1700000400000%Z None.

Definition sampleLoadingTarget : LoadingTarget.t := LoadingTarget.mk "Auction-7" None.

Definition sampleLoadingData : LoadingDetails.t :=
  LoadingDetails.mk "Sara" 1700000400000%Z.

(** A session whose lots are all paid. *)
Definition paidEntities : list Entity.t :=
  [Entity.mk "e4" "user-1" "e4" (Some "Ahmed"%string) (Some 1700000000000%Z)
     [sampleLot "d1" 1000 (Some true) false; sampleLot "d2" 2000 None true]].

(** Lots numbered "lot 10", "2" and "7b". *)
Definition numberedLots : list Lot.t :=
  [Lot.mk "n1" "lot 10" "a" "1" 100 30 70 None None None None false;
   Lot.mk "n2" "2" "b" "1" 100 30 70 None None None None false;
   Lot.mk "n3" "7b" "c" "1" 100 30 70 None None None None false].


(** The identifier of a shared file. *)
Definition sampleFileId : string := "1AbC_dEf-42".





(** Active lots of value 1000, 2000 and 500, and one archived lot of value
    10000. *)
Definition floatLots : list Binary64.Lot.t :=
  [Binary64.Lot.mk "l1" "1" 1000 false; Binary64.Lot.mk "l2" "2" 2000 false;
   Binary64.Lot.mk "l3" "3" 500 false; Binary64.Lot.mk "l4" "4" 10000 true].
(** ** Properties of the balance engine *)

Lemma orZero_eq (x : Q) : orZero x == x.
Proof.
  unfold orZero. destruct (Qeq_bool x 0) eqn:E.
  - apply Qeq_bool_eq in E. now symmetry.
  - reflexivity.
Qed.

Lemma balance_fold (l : list Transaction.t) (a : Q) :
  fold_left (fun acc t => acc + orZero (Transaction.amount t)) l a == a + sumAmounts l.
Proof.
  revert a. induction l as [|t l IH]; intros a; simpl.
  - ring.
  - rewrite IH, orZero_eq. ring.
Qed.

Lemma computeClientBalance_sum (l : list Transaction.t) :
  computeClientBalance l == sumAmounts l.
Proof. unfold computeClientBalance. rewrite balance_fold. ring. Qed.

Lemma sumAmounts_app (l1 l2 : list Transaction.t) :
  sumAmounts (l1 ++ l2) == sumAmounts l1 + sumAmounts l2.
Proof.
  induction l1 as [|t l1 IH]; simpl.
  - ring.
  - rewrite IH. ring.
Qed.


(** ** Properties of the document store *)

Lemma applyPatch_id (p : ClientPatch) (d : Client.t) :
  Client.id (applyPatch p d) = Client.id d.
Proof. reflexivity. Qed.

Lemma docWithId_update (id : string) (p : ClientPatch) (docs : list Client.t) :
  docWithId id (map (fun d => if String.eqb (Client.id d) id then applyPatch p d else d) docs)
  = option_map (applyPatch p) (docWithId id docs).
Proof.
  unfold docWithId. induction docs as [|d docs IH]; simpl; [reflexivity|].
  destruct (String.eqb (Client.id d) id) eqn:E; simpl.
  - now rewrite E.
  - now rewrite E, IH.
Qed.

Lemma getCollection_setCollection (c : CollectionName) (docs : list Client.t) (db : Db) :
  getCollection c (setCollection c docs db) = docs.
Proof. now destruct c. Qed.

Lemma docWithId_updateDoc (c : CollectionName) (id : string) (p : ClientPatch) (db : Db) :
  docWithId id (getCollection c (execFirestore (updateDoc c id p) db))
  = option_map (applyPatch p) (docWithId id (getCollection c db)).
Proof.
  unfold execFirestore, updateDoc; simpl.
  now rewrite getCollection_setCollection, docWithId_update.
Qed.

Lemma someWithId_docWithId (id : string) (docs : list Client.t) :
  someWithId id docs = true <-> exists d, docWithId id docs = Some d.
Proof.
  unfold someWithId, docWithId. induction docs as [|d docs IH]; simpl.
  - split; [discriminate|]. now intros [d H].
  - destruct (String.eqb (Client.id d) id); simpl; [|exact IH].
    split; [eauto|reflexivity].
Qed.

(** ** Payments *)

Lemma Qeq_bool_opp_0 (a : Q) : Qeq_bool (- a) 0 = Qeq_bool a 0.
Proof. destruct a as [[|n|n] d]; reflexivity. Qed.

Lemma Qabs_opp_eq (a : Q) : Qabs (- a) = Qabs a.
Proof. destruct a as [[|n|n] d]; reflexivity. Qed.

Lemma payment_amount_opp (a : Q) : - Qabs (orZero (- a)) = - Qabs (orZero a).
Proof.
  unfold orZero. rewrite Qeq_bool_opp_0.
  destruct (Qeq_bool a 0); [reflexivity|]. now rewrite Qabs_opp_eq.
Qed.

Lemma paymentTransaction_opp (now : Z) (pd : PaymentData.t) :
  paymentTransaction now (withAmount (- PaymentData.amount pd) pd) = paymentTransaction now pd.
Proof.
  unfold paymentTransaction, withAmount; simpl. now rewrite payment_amount_opp.
Qed.

Lemma paymentUpdatedTransactions_opp (now : Z) (pd : PaymentData.t) (client : Client.t) :
  paymentUpdatedTransactions now (withAmount (- PaymentData.amount pd) pd) client
  = paymentUpdatedTransactions now pd client.
Proof.
  unfold paymentUpdatedTransactions. rewrite paymentTransaction_opp. reflexivity.
Qed.

Lemma paymentUpdatedTransactions_shape (now : Z) (pd : PaymentData.t) (client : Client.t) :
  exists pre t,
    paymentUpdatedTransactions now pd client = pre ++ [t]
    /\ List.length pre = List.length (Client.transactions client)
    /\ Transaction.amount t = - Qabs (orZero (PaymentData.amount pd))
    /\ Transaction.isSettled t = true.
Proof.
  unfold paymentUpdatedTransactions.
  destruct (truthyString (PaymentData.linkedTransactionId pd)).
  - rewrite map_app; simpl. eexists _, _. split; [reflexivity|].
    rewrite length_map. split; [reflexivity|].
    destruct (strictEqOpt _ _); split; reflexivity.
  - eexists _, _. repeat split; reflexivity.
Qed.

(** C8. [addPayment] stores, at the end of the client's transaction list, a
    transaction whose amount is [-abs(paymentData.amount)] and whose
    [isSettled] flag is [true]; the payment given with the opposite amount
    leaves exactly the same store behind. *)
Theorem addPayment_sign_normalized
  (u : User.t) (clients workClientsState : list Client.t) (now : Z)
  (paymentData : PaymentData.t) (clientId : string) (type : ClientType.t)
  (client d : Client.t) (db : Db) :
  docWithId clientId (clientListOf clients workClientsState type) = Some client ->
  docWithId clientId (getCollection (collectionOf type) db) = Some d ->
  exists d' pre t,
    docWithId clientId
      (getCollection (collectionOf type)
         (execFirestore
            (addPayment (Some u) clients workClientsState now paymentData clientId type) db))
    = Some d'
    /\ Client.transactions d' = pre ++ [t]
    /\ List.length pre = List.length (Client.transactions client)
    /\ Transaction.amount t == - Qabs (PaymentData.amount paymentData)
    /\ Transaction.isSettled t = true
    /\ execFirestore
         (addPayment (Some u) clients workClientsState now
            (withAmount (- PaymentData.amount paymentData) paymentData) clientId type) db
       = execFirestore
           (addPayment (Some u) clients workClientsState now paymentData clientId type) db.
Proof.
  intros Hstate Hdoc. unfold addPayment.
  unfold docWithId in Hstate. rewrite Hstate.
  destruct (paymentUpdatedTransactions_shape now paymentData client)
    as (pre & t & Hshape & Hlen & Hamt & Hset).
  exists (applyPatch (mkPatch (Some (pre ++ [t])) None None Untouched) d), pre, t.
  rewrite paymentUpdatedTransactions_opp, docWithId_updateDoc, Hdoc, Hshape. simpl.
  repeat split; try assumption.
  rewrite Hamt, orZero_eq. reflexivity.
Qed.

(** ** Settlement and restore *)

Lemma balance_settled (now : Z) (l : list Transaction.t) :
  computeClientBalance (l ++ [balancingTransaction now (computeClientBalance l)]) == 0.
Proof.
  rewrite computeClientBalance_sum, sumAmounts_app; simpl.
  rewrite computeClientBalance_sum. ring.
Qed.

Lemma Qpositive_abs (x : Q) : ~ x == 0 -> Qpositive (Qabs x) = true.
Proof.
  intros Hx. unfold Qpositive. destruct (Qle_bool (Qabs x) 0) eqn:E; [|reflexivity].
  apply Qle_bool_iff, Qabs_Qle_condition in E. destruct E as [E1 E2].
  exfalso. apply Hx. apply Qle_antisym; assumption.
Qed.

(** C6. For a client of balance [B <> 0] held by one of the two namespaces,
    [settleAndArchive] stores the client's transactions followed by exactly
    one balancing transaction of amount [-B]; the stored list sums to [0],
    [isArchived] is [true] and [archiveType] names the namespace that holds
    the client's id. *)
Theorem settleAndArchive_zeroes_balance
  (u : User.t) (clients workClientsState : list Client.t) (now : Z)
  (client d : Client.t) (db : Db) :
  ~ computeClientBalance (Client.transactions client) == 0 ->
  someWithId (Client.id client) clients = true
  \/ someWithId (Client.id client) workClientsState = true ->
  docWithId (Client.id client)
    (getCollection (namespaceOf clients (Client.id client)) db) = Some d ->
  exists d' t,
    docWithId (Client.id client)
      (getCollection (namespaceOf clients (Client.id client))
         (execFirestore (settleAndArchive (Some u) clients workClientsState now client) db))
    = Some d'
    /\ Client.transactions d' = Client.transactions client ++ [t]
    /\ Transaction.amount t = - computeClientBalance (Client.transactions client)
    /\ computeClientBalance (Client.transactions d') == 0
    /\ Client.isArchived d' = Some true
    /\ Client.archiveType d'
       = Some (archiveTypeOf (namespaceOf clients (Client.id client))).
Proof.
  intros HB Hheld Hdoc. unfold settleAndArchive, confirmSettleAndArchive.
  rewrite (Qpositive_abs _ HB). unfold namespaceOf in *.
  destruct (someWithId (Client.id client) clients) eqn:Ha.
  - rewrite docWithId_updateDoc, Hdoc. simpl.
    eexists _, _. split; [reflexivity|]. simpl.
    repeat split. apply balance_settled.
  - destruct Hheld as [Hheld|Hheld]; [discriminate|]. rewrite Hheld.
    rewrite docWithId_updateDoc, Hdoc. simpl.
    eexists _, _. split; [reflexivity|]. simpl.
    repeat split. apply balance_settled.
Qed.

(** C9. [restoreClient] sets [isArchived] to [false] and removes the
    [archiveType] field of the stored client (the field is absent
    afterwards); the transaction list and the other fields of the document
    stay as they were. *)
Theorem restoreClient_frame
  (u : User.t) (clients workClientsState : list Client.t)
  (client d : Client.t) (db : Db) :
  someWithId (Client.id client) clients = true
  \/ someWithId (Client.id client) workClientsState = true ->
  docWithId (Client.id client)
    (getCollection (namespaceOf clients (Client.id client)) db) = Some d ->
  exists d',
    docWithId (Client.id client)
      (getCollection (namespaceOf clients (Client.id client))
         (execFirestore
            (confirmRestoreClient (Some u) clients workClientsState (Some client)) db))
    = Some d'
    /\ Client.isArchived d' = Some false
    /\ Client.archiveType d' = None
    /\ Client.transactions d' = Client.transactions d
    /\ Client.id d' = Client.id d
    /\ Client.userId d' = Client.userId d
    /\ Client.name d' = Client.name d
    /\ Client.isBuyer d' = Client.isBuyer d
    /\ Client.phone d' = Client.phone d.
Proof.
  intros Hheld Hdoc. unfold confirmRestoreClient, namespaceOf in *.
  destruct (someWithId (Client.id client) clients) eqn:Ha.
  - rewrite docWithId_updateDoc, Hdoc. simpl.
    eexists. split; [reflexivity|]. simpl. repeat split.
  - destruct Hheld as [Hheld|Hheld]; [discriminate|]. rewrite Hheld.
    rewrite docWithId_updateDoc, Hdoc. simpl.
    eexists. split; [reflexivity|]. simpl. repeat split.
Qed.

(** ** The scan of [syncBuyerCommission], document by document *)

Section Scan.

Variable now : Z.
Variable toLocaleDateString : Timestamp -> string.
Variable entityData : Entity.t.

Let outcome := scanOutcome now toLocaleDateString entityData.

Lemma update_other (id : string) (p : ClientPatch) (docs : list Client.t) :
  ~ In id (map Client.id docs) ->
  map (fun d => if String.eqb (Client.id d) id then applyPatch p d else d) docs = docs.
Proof.
  induction docs as [|d docs IH]; simpl; intros Hn; [reflexivity|].
  destruct (String.eqb_spec (Client.id d) id) as [E|E].
  - exfalso. apply Hn. now left.
  - f_equal. apply IH. intros H. apply Hn. now right.
Qed.

Lemma update_positional (p : ClientPatch) (pre post : list Client.t) (c : Client.t) :
  NoDup (map Client.id (pre ++ c :: post)) ->
  map (fun d => if String.eqb (Client.id d) (Client.id c) then applyPatch p d else d)
      (pre ++ c :: post)
  = pre ++ applyPatch p c :: post.
Proof.
  intros Hnd. rewrite map_app in Hnd. simpl in Hnd.
  pose proof (NoDup_remove_2 _ _ _ Hnd) as Hnot.
  rewrite map_app. simpl. rewrite String.eqb_refl.
  rewrite !update_other; [reflexivity| |];
    intros H; apply Hnot, in_or_app; [now right|now left].
Qed.

Lemma scanOutcome_ids (cs : list Client.t) :
  map Client.id (snd (outcome cs)) = map Client.id cs.
Proof.
  subst outcome. induction cs as [|c cs IH]; simpl; [reflexivity|].
  destruct (findIndex _ _); [destruct (strictEqOpt _ _)|]; simpl;
    try rewrite IH; reflexivity.
Qed.

(** Under distinct document keys the scan rewrites exactly the documents of
    the clients it visits. *)
Lemma scanClients_outcome (cs pre : list Client.t) (w : list Client.t) :
  NoDup (map Client.id (pre ++ cs)) ->
  scanClients now toLocaleDateString entityData cs (mkDb (pre ++ cs) w)
  = (fst (outcome cs), mkDb (pre ++ snd (outcome cs)) w).
Proof.
  subst outcome. revert pre. induction cs as [|c cs IH]; intros pre Hnd; simpl.
  - reflexivity.
  - destruct (findIndex _ _) as [i|].
    + destruct (strictEqOpt _ _).
      * unfold bind, ret.
        destruct (Qpositive _); unfold updateDoc; simpl;
          now rewrite update_positional.
      * unfold bind at 1. unfold updateDoc at 1. simpl.
        rewrite update_positional by assumption.
        change (pre ++ ?x :: cs) with (pre ++ [x] ++ cs).
        rewrite app_assoc, IH.
        -- now rewrite <- app_assoc.
        -- rewrite <- app_assoc. simpl.
           rewrite map_app in *. simpl in *. exact Hnd.
    + change (pre ++ c :: cs) with (pre ++ [c] ++ cs).
      rewrite app_assoc, IH.
      * now rewrite <- app_assoc.
      * now rewrite <- app_assoc.
Qed.

Lemma findIndex_none {A : Type} (p : A -> bool) (l : list A) :
  findIndex p l = None <-> filter p l = [].
Proof.
  induction l as [|x l IH]; simpl; [tauto|].
  destruct (p x); [split; discriminate|].
  destruct (findIndex p l); simpl; [|tauto].
  split; [discriminate|]. intros H. apply IH in H. discriminate.
Qed.

Lemma findIndex_count (e : string) (c : Client.t) :
  findIndex (hasEntityId e) (Client.transactions c) = None <-> commissionCount e c = 0%nat.
Proof.
  unfold commissionCount. rewrite findIndex_none. apply iff_sym, length_zero_iff_nil.
Qed.

Lemma withoutEntity_count (e : string) (l : list Transaction.t) :
  filter (hasEntityId e) (withoutEntity e l) = [].
Proof.
  unfold withoutEntity. induction l as [|t l IH]; simpl; [reflexivity|].
  destruct (hasEntityId e t) eqn:E; simpl; [exact IH|]. now rewrite E.
Qed.

Lemma withoutEntity_unmatched (e : string) (l : list Transaction.t) :
  filter (hasEntityId e) l = [] -> withoutEntity e l = l.
Proof.
  unfold withoutEntity. induction l as [|t l IH]; simpl; [reflexivity|].
  destruct (hasEntityId e t); simpl; [discriminate|]. intros H. now rewrite IH.
Qed.

Lemma stripCommission_count (c : Client.t) :
  commissionCount (Entity.id entityData) (stripCommission entityData c) = 0%nat.
Proof.
  unfold commissionCount, stripCommission; simpl. now rewrite withoutEntity_count.
Qed.

(** When the scan does not return, every client has been stripped, and no
    client named as the buyer carried a commission of the entity. *)
Lemma scanOutcome_not_returned (cs : list Client.t) :
  fst (outcome cs) = false ->
  snd (outcome cs) = map (stripCommission entityData) cs
  /\ forall c, In c cs ->
       strictEqOpt (Client.name c) (Entity.buyerName entityData) = true ->
       commissionCount (Entity.id entityData) c = 0%nat.
Proof.
  subst outcome. induction cs as [|c cs IH]; simpl; intros Hf.
  - split; [reflexivity|]. intros c [].
  - destruct (findIndex _ _) as [i|] eqn:Hi.
    + destruct (strictEqOpt _ _) eqn:Hn; [discriminate|]. simpl in *.
      destruct (IH Hf) as [IH1 IH2]. split; [now rewrite IH1|].
      intros c' [<-|Hin] Hc'; [congruence|now apply IH2].
    + simpl in *. destruct (IH Hf) as [IH1 IH2]. split.
      * rewrite IH1. f_equal. apply findIndex_none in Hi.
        unfold stripCommission, applyPatch; simpl.
        rewrite (withoutEntity_unmatched _ _ Hi). now destruct c.
      * intros c' [<-|Hin] Hc'; [now apply findIndex_count|now apply IH2].
Qed.

(** When the scan returns, it has stripped the clients in front of the
    first client that is named as the buyer and carries a commission of the
    entity, rewritten that client, and left the clients behind it alone. *)
Lemma scanOutcome_returned (cs : list Client.t) :
  fst (outcome cs) = true ->
  exists l1 c i l2,
    cs = l1 ++ c :: l2
    /\ strictEqOpt (Client.name c) (Entity.buyerName entityData) = true
    /\ findIndex (hasEntityId (Entity.id entityData)) (Client.transactions c) = Some i
    /\ snd (outcome cs)
       = map (stripCommission entityData) l1
         ++ applyPatch
              (if Qpositive (commissionOf entityData)
               then rewriteCommission now toLocaleDateString entityData i c
               else removeCommission entityData c) c
         :: l2.
Proof.
  subst outcome. induction cs as [|c cs IH]; simpl; intros Hf; [discriminate|].
  destruct (findIndex _ _) as [i|] eqn:Hi.
  - destruct (strictEqOpt _ _) eqn:Hn.
    + exists [], c, i, cs. simpl. repeat split; assumption.
    + simpl in *. destruct (IH Hf) as (l1 & c' & i' & l2 & -> & Hc' & Hi' & Hs).
      exists (c :: l1), c', i', l2. simpl. rewrite Hs. repeat split; assumption.
  - simpl in *. destruct (IH Hf) as (l1 & c' & i' & l2 & -> & Hc' & Hi' & Hs).
    exists (c :: l1), c', i', l2. simpl. rewrite Hs. repeat split; try assumption.
    f_equal. apply findIndex_none in Hi.
    unfold stripCommission, applyPatch; simpl.
    rewrite (withoutEntity_unmatched _ _ Hi). now destruct c.
Qed.

End Scan.

(** ** Counting the commission transactions of an entity *)

Lemma strictEqOpt_true (s : string) (o : option string) :
  strictEqOpt s o = true <-> o = Some s.
Proof.
  destruct o as [s'|]; simpl; [|split; discriminate].
  rewrite String.eqb_eq. split; congruence.
Qed.

Lemma totalCommissionCount_app (e : string) (l1 l2 : list Client.t) :
  totalCommissionCount e (l1 ++ l2)
  = (totalCommissionCount e l1 + totalCommissionCount e l2)%nat.
Proof. unfold totalCommissionCount. now rewrite map_app, list_sum_app. Qed.

Lemma totalCommissionCount_cons (e : string) (c : Client.t) (l : list Client.t) :
  totalCommissionCount e (c :: l) = (commissionCount e c + totalCommissionCount e l)%nat.
Proof. reflexivity. Qed.

Lemma totalCommissionCount_zero (e : string) (l : list Client.t) :
  totalCommissionCount e l = 0%nat <-> forall c, In c l -> commissionCount e c = 0%nat.
Proof.
  induction l as [|c l IH]; simpl.
  - split; [intros _ c []|reflexivity].
  - rewrite totalCommissionCount_cons. split.
    + intros H c' [<-|Hin]; [lia|]. apply IH; [lia|assumption].
    + intros H. rewrite (H c (or_introl eq_refl)).
      apply IH. intros c' Hc'. apply H. now right.
Qed.

Lemma totalCommissionCount_map (e : string) (g : Client.t -> Client.t) (l : list Client.t) :
  (forall c, In c l -> commissionCount e (g c) = commissionCount e c) ->
  totalCommissionCount e (map g l) = totalCommissionCount e l.
Proof.
  induction l as [|c l IH]; simpl; intros H; [reflexivity|].
  rewrite !totalCommissionCount_cons, H, IH; auto.
Qed.

Lemma filter_updateAt_length {A : Type} (p : A -> bool) (f : A -> A) (i : nat) (l : list A) :
  (forall x, p (f x) = p x) ->
  List.length (filter p (updateAt i f l)) = List.length (filter p l).
Proof.
  intros Hf. revert i. induction l as [|x l IH]; intros [|i]; simpl; try reflexivity.
  - rewrite Hf. now destruct (p x).
  - destruct (p x); simpl; now rewrite IH.
Qed.

Lemma rewriteCommission_count (e : string) (now : Z) (tl : Timestamp -> string)
  (entityData : Entity.t) (i : nat) (c : Client.t) :
  commissionCount e (applyPatch (rewriteCommission now tl entityData i c) c)
  = commissionCount e c.
Proof.
  unfold commissionCount; simpl. apply filter_updateAt_length.
  intros t. reflexivity.
Qed.

Lemma stripCommission_other (e : string) (entityData : Entity.t) (c : Client.t) :
  e <> Entity.id entityData ->
  commissionCount e (stripCommission entityData c) = commissionCount e c.
Proof.
  intros Hne. unfold commissionCount, stripCommission, withoutEntity; simpl.
  induction (Client.transactions c) as [|t l IH]; simpl; [reflexivity|].
  destruct (hasEntityId (Entity.id entityData) t) eqn:E1; simpl.
  - destruct (hasEntityId e t) eqn:E2; [|exact IH].
    exfalso. unfold hasEntityId in *. destruct (Transaction.entityId t); [|discriminate].
    apply String.eqb_eq in E1, E2. congruence.
  - destruct (hasEntityId e t); simpl; now rewrite IH.
Qed.

Lemma appendCommission_count (e : string) (now : Z) (tl : Timestamp -> string)
  (entityData : Entity.t) (b d : Client.t) :
  commissionCount e (applyPatch (appendCommission now tl entityData b) d)
  = (commissionCount e b + if String.eqb (Entity.id entityData) e then 1 else 0)%nat.
Proof.
  unfold commissionCount; simpl. rewrite filter_app, length_app. simpl.
  unfold hasEntityId at 2; simpl. now destruct (String.eqb _ _).
Qed.

Lemma findIndex_some_count (e : string) (c : Client.t) (i : nat) :
  findIndex (hasEntityId e) (Client.transactions c) = Some i ->
  (1 <= commissionCount e c)%nat.
Proof.
  intros Hi. destruct (commissionCount e c) eqn:E; [|lia].
  apply findIndex_count in E. congruence.
Qed.

Lemma NoDup_id_inj (cs : list Client.t) (a b : Client.t) :
  NoDup (map Client.id cs) -> In a cs -> In b cs -> Client.id a = Client.id b -> a = b.
Proof.
  induction cs as [|c cs IH]; simpl; intros Hnd Ha Hb Hid; [contradiction|].
  inversion Hnd as [|? ? Hnot Hnd']; subst.
  destruct Ha as [<-|Ha], Hb as [<-|Hb]; auto.
  - exfalso. apply Hnot. rewrite Hid. now apply in_map.
  - exfalso. apply Hnot. rewrite <- Hid. now apply in_map.
Qed.

Lemma id_absent_sum (cs : list Client.t) (id : string) :
  ~ In id (map Client.id cs) ->
  list_sum (map (fun c => if String.eqb (Client.id c) id then 1%nat else 0%nat) cs) = 0%nat.
Proof.
  induction cs as [|c cs IH]; simpl; intros Hn; [reflexivity|].
  destruct (String.eqb_spec (Client.id c) id) as [E|E].
  - exfalso. apply Hn. now left.
  - apply IH. intros H. apply Hn. now right.
Qed.

Lemma NoDup_id_once (cs : list Client.t) (b : Client.t) :
  NoDup (map Client.id cs) -> In b cs ->
  list_sum (map (fun c => if String.eqb (Client.id c) (Client.id b) then 1%nat else 0%nat) cs)
  = 1%nat.
Proof.
  induction cs as [|c cs IH]; simpl; intros Hnd Hb; [contradiction|].
  inversion Hnd as [|? ? Hnot Hnd']; subst.
  destruct (String.eqb_spec (Client.id c) (Client.id b)) as [E|E].
  - rewrite id_absent_sum; [reflexivity|]. now rewrite <- E.
  - destruct Hb as [Hb|Hb]; [congruence|]. now apply IH.
Qed.

(** ** [syncBuyerCommission] on a store that holds the clients of the state *)

Section Sync.

Variable u : User.t.
Variable clients : list Client.t.
Variable now : Z.
Variable newDocId : string.
Variable toLocaleDateString : Timestamp -> string.
Variable entityData : Entity.t.
Variable workClientsState : list Client.t.

Hypothesis distinct_ids : NoDup (map Client.id clients).

Let e := Entity.id entityData.
Let outcome := scanOutcome now toLocaleDateString entityData clients.
Let synced :=
  syncedClients u clients now newDocId toLocaleDateString entityData workClientsState.
Let appendTo (b : Client.t) (d : Client.t) : Client.t :=
  if String.eqb (Client.id d) (Client.id b)
  then applyPatch (appendCommission now toLocaleDateString entityData b) d
  else d.

Lemma syncedClients_outcome :
  synced =
  if fst outcome then snd outcome
  else if Qpositive (commissionOf entityData) && truthyString (Entity.buyerName entityData)
  then
    match find (fun c => strictEqOpt (Client.name c) (Entity.buyerName entityData)) clients with
    | Some b => map (appendTo b) (snd outcome)
    | None => snd outcome ++ [newBuyerClient now newDocId toLocaleDateString u entityData]
    end
  else snd outcome.
Proof.
  subst synced outcome appendTo.
  unfold syncedClients, execFirestore, syncBuyerCommission, storeOf, bind.
  pose proof (scanClients_outcome now toLocaleDateString entityData clients []
                workClientsState distinct_ids) as Hscan.
  simpl in Hscan. rewrite Hscan. simpl. destruct (fst (scanOutcome _ _ _ _)); [reflexivity|].
  destruct (Qpositive _ && truthyString _); [|reflexivity].
  destruct (find _ clients); reflexivity.
Qed.

Lemma syncedClients_ids :
  map Client.id synced = map Client.id clients
  \/ map Client.id synced = map Client.id clients ++ [newDocId].
Proof.
  rewrite syncedClients_outcome. subst outcome.
  pose proof (scanOutcome_ids now toLocaleDateString entityData clients) as Hids.
  destruct (fst _); [now left|].
  destruct (_ && _); [|now left].
  destruct (find _ _) as [b|].
  - left. rewrite <- Hids, map_map. apply map_ext. intros d. subst appendTo. simpl.
    now destruct (String.eqb _ _).
  - right. now rewrite map_app, Hids.
Qed.

(** The case where the scan found the commission on the current buyer. *)
Lemma synced_returned :
  fst outcome = true ->
  (totalCommissionCount e clients <= 1)%nat ->
  (totalCommissionCount e synced <= 1)%nat
  /\ forall c, In c synced -> commissionCount e c <> 0%nat ->
       Entity.buyerName entityData = Some (Client.name c).
Proof.
  intros Hret Hone. rewrite syncedClients_outcome, Hret. subst outcome e.
  destruct (scanOutcome_returned now toLocaleDateString entityData clients Hret)
    as (l1 & c & i & l2 & Hcs & Hname & Hi & Hout).
  rewrite Hout. rewrite Hcs in Hone.
  rewrite totalCommissionCount_app, totalCommissionCount_cons in Hone |- *.
  pose proof (findIndex_some_count _ _ _ Hi) as Hc.
  assert (Hl2 : totalCommissionCount (Entity.id entityData) l2 = 0%nat) by lia.
  assert (Hl1 : totalCommissionCount (Entity.id entityData)
                  (map (stripCommission entityData) l1) = 0%nat).
  { apply totalCommissionCount_zero. intros d Hd. apply in_map_iff in Hd.
    destruct Hd as (d0 & <- & _). apply stripCommission_count. }
  assert (Hc' : (commissionCount (Entity.id entityData)
                  (applyPatch
                     (if Qpositive (commissionOf entityData)
                      then rewriteCommission now toLocaleDateString entityData i c
                      else removeCommission entityData c) c) <= 1)%nat).
  { destruct (Qpositive _).
    - rewrite rewriteCommission_count. lia.
    - change (applyPatch _ c) with (stripCommission entityData c).
      rewrite stripCommission_count. lia. }
  split; [lia|].
  intros d Hd Hcount. apply in_app_or in Hd. destruct Hd as [Hd|[<-|Hd]].
  - exfalso. apply Hcount. now apply (proj1 (totalCommissionCount_zero _ _) Hl1).
  - apply strictEqOpt_true. exact Hname.
  - exfalso. apply Hcount. now apply (proj1 (totalCommissionCount_zero _ _) Hl2).
Qed.

Lemma stripped_count :
  totalCommissionCount e (map (stripCommission entityData) clients) = 0%nat.
Proof.
  apply totalCommissionCount_zero. intros d Hd. apply in_map_iff in Hd.
  destruct Hd as (d0 & <- & _). apply stripCommission_count.
Qed.

(** The commission count of each client after step 3 added the commission
    to the existing buyer [b]. *)
Lemma appendTo_count (b c : Client.t) :
  commissionCount e b = 0%nat ->
  commissionCount e (appendTo b (stripCommission entityData c))
  = if String.eqb (Client.id c) (Client.id b) then 1%nat else 0%nat.
Proof.
  intros Hb. subst appendTo e. simpl.
  destruct (String.eqb (Client.id c) (Client.id b)).
  - rewrite appendCommission_count, Hb, String.eqb_refl. reflexivity.
  - apply stripCommission_count.
Qed.

(** The case where the scan did not return. *)
Lemma synced_not_returned :
  fst outcome = false ->
  (totalCommissionCount e synced <= 1)%nat
  /\ forall c, In c synced -> commissionCount e c <> 0%nat ->
       Entity.buyerName entityData = Some (Client.name c).
Proof.
  intros Hret. rewrite syncedClients_outcome, Hret. subst outcome.
  destruct (scanOutcome_not_returned now toLocaleDateString entityData clients Hret)
    as [Hout Hbuyer].
  rewrite Hout. clear Hout Hret.
  destruct (Qpositive _ && truthyString _) eqn:Hcond.
  - destruct (find _ clients) as [b|] eqn:Hfind.
    + apply find_some in Hfind. destruct Hfind as [Hb Hbn].
      pose proof (Hbuyer b Hb Hbn) as Hb0. fold e in Hb0.
      assert (Hcount : forall c,
                 commissionCount e (appendTo b (stripCommission entityData c))
                 = if String.eqb (Client.id c) (Client.id b) then 1%nat else 0%nat)
        by (intros c; now apply appendTo_count).
      split.
      * unfold totalCommissionCount. rewrite !map_map.
        rewrite (map_ext _ _ Hcount), (NoDup_id_once clients b distinct_ids Hb). lia.
      * intros d Hd Hd0. rewrite map_map in Hd. apply in_map_iff in Hd.
        destruct Hd as (c & <- & Hc). rewrite Hcount in Hd0.
        destruct (String.eqb_spec (Client.id c) (Client.id b)) as [E|E]; [|congruence].
        rewrite (NoDup_id_inj clients c b distinct_ids Hc Hb E).
        subst appendTo. simpl. rewrite String.eqb_refl. simpl.
        now apply strictEqOpt_true.
    + rewrite totalCommissionCount_app, stripped_count.
      apply andb_true_iff in Hcond. destruct Hcond as [_ Htruthy].
      split.
      * unfold totalCommissionCount, commissionCount; simpl.
        destruct (hasEntityId _ _); simpl; lia.
      * intros d Hd Hd0. apply in_app_or in Hd. destruct Hd as [Hd|[<-|[]]].
        -- exfalso. apply Hd0.
           now apply (proj1 (totalCommissionCount_zero _ _) stripped_count).
        -- simpl. destruct (Entity.buyerName entityData); [reflexivity|discriminate].
  - rewrite stripped_count. split; [lia|].
    intros d Hd Hd0. exfalso. apply Hd0.
    now apply (proj1 (totalCommissionCount_zero _ _) stripped_count).
Qed.

(** One reconciliation keeps the commission of the entity unique and puts
    it on a client named as the buyer. *)
Lemma synced_at_most_one :
  (totalCommissionCount e clients <= 1)%nat ->
  (totalCommissionCount e synced <= 1)%nat
  /\ forall c, In c synced -> commissionCount e c <> 0%nat ->
       Entity.buyerName entityData = Some (Client.name c).
Proof.
  intros Hone. destruct (fst outcome) eqn:Hret.
  - now apply synced_returned.
  - now apply synced_not_returned.
Qed.

End Sync.

(** ** Reconciliations of other entities leave the commissions of an entity alone *)

Section SyncFrame.

Variable u : User.t.
Variable clients : list Client.t.
Variable now : Z.
Variable newDocId : string.
Variable toLocaleDateString : Timestamp -> string.
Variable entityData : Entity.t.
Variable workClientsState : list Client.t.
Variable e : string.

Hypothesis distinct_ids : NoDup (map Client.id clients).
Hypothesis other_entity : e <> Entity.id entityData.

Lemma newCommission_other :
  hasEntityId e (newCommissionTransaction now toLocaleDateString entityData) = false.
Proof.
  unfold hasEntityId; simpl. apply String.eqb_neq. congruence.
Qed.

Lemma synced_other_entity :
  totalCommissionCount e
    (syncedClients u clients now newDocId toLocaleDateString entityData workClientsState)
  = totalCommissionCount e clients.
Proof.
  rewrite syncedClients_outcome by assumption.
  destruct (fst (scanOutcome now toLocaleDateString entityData clients)) eqn:Hret.
  - destruct (scanOutcome_returned now toLocaleDateString entityData clients Hret)
      as (l1 & c & i & l2 & Hcs & _ & _ & Hout).
    rewrite Hout, Hcs.
    rewrite !totalCommissionCount_app, !totalCommissionCount_cons.
    rewrite totalCommissionCount_map
      by (intros; now apply stripCommission_other).
    destruct (Qpositive _).
    + now rewrite rewriteCommission_count.
    + change (applyPatch _ c) with (stripCommission entityData c).
      now rewrite stripCommission_other.
  - destruct (scanOutcome_not_returned now toLocaleDateString entityData clients Hret)
      as [Hout _].
    rewrite Hout. clear Hout.
    destruct (Qpositive _ && truthyString _).
    + destruct (find _ clients) as [b|] eqn:Hfind.
      * apply find_some in Hfind. destruct Hfind as [Hb _].
        rewrite map_map. apply totalCommissionCount_map. intros c Hc.
        destruct (String.eqb_spec (Client.id (stripCommission entityData c)) (Client.id b))
          as [E|E].
        -- rewrite appendCommission_count.
           rewrite (NoDup_id_inj clients c b distinct_ids Hc Hb E).
           destruct (String.eqb_spec (Entity.id entityData) e); [congruence|lia].
        -- now apply stripCommission_other.
      * rewrite totalCommissionCount_app.
        rewrite totalCommissionCount_map
          by (intros; now apply stripCommission_other).
        unfold totalCommissionCount at 2, commissionCount; simpl.
        rewrite newCommission_other. simpl. lia.
    + apply totalCommissionCount_map. intros. now apply stripCommission_other.
Qed.

End SyncFrame.

(** ** The commission invariant *)

Lemma reachable_invariant (e : string) (cs : list Client.t) :
  reachable e cs ->
  NoDup (map Client.id cs) /\ (totalCommissionCount e cs <= 1)%nat.
Proof.
  induction 1 as [cs Hnd H0 | cs u now newDocId tl entityData w _ [Hnd Hone] Hfresh].
  - split; [assumption|lia].
  - split.
    + destruct (syncedClients_ids u cs now newDocId tl entityData w Hnd) as [-> | ->].
      * assumption.
      * apply NoDup_app; [assumption|repeat constructor; intros []|].
        intros x Hx [<-|[]]. now apply Hfresh.
    + destruct (String.eqb_spec e (Entity.id entityData)) as [->|Hne].
      * now apply synced_at_most_one.
      * now rewrite synced_other_entity.
Qed.

(** C1. On every reachable client list, whatever the lots and the buyer of
    the entity have become, the clients that [syncBuyerCommission] leaves
    carry at most one transaction of the entity (none or exactly one), and a
    client that carries one has the name [buyerName] of the entity. *)
Theorem commission_at_most_one
  (u : User.t) (clients : list Client.t) (now : Z) (newDocId : string)
  (toLocaleDateString : Timestamp -> string) (entityData : Entity.t)
  (workClientsState : list Client.t) :
  reachable (Entity.id entityData) clients ->
  (totalCommissionCount (Entity.id entityData)
     (syncedClients u clients now newDocId toLocaleDateString entityData workClientsState)
   <= 1)%nat
  /\ forall c,
       In c (syncedClients u clients now newDocId toLocaleDateString entityData
               workClientsState) ->
       commissionCount (Entity.id entityData) c <> 0%nat ->
       Entity.buyerName entityData = Some (Client.name c).
Proof.
  intros Hreach. apply reachable_invariant in Hreach. destruct Hreach as [Hnd Hone].
  now apply synced_at_most_one.
Qed.

(** ** Cases of the reconciliation *)

Lemma docWithId_in (docs : list Client.t) (d : Client.t) :
  NoDup (map Client.id docs) -> In d docs -> docWithId (Client.id d) docs = Some d.
Proof.
  unfold docWithId. induction docs as [|c docs IH]; simpl; intros Hnd Hin; [contradiction|].
  inversion Hnd as [|? ? Hnot Hnd']; subst.
  destruct (String.eqb_spec (Client.id c) (Client.id d)) as [E|E].
  - destruct Hin as [->|Hin]; [reflexivity|].
    exfalso. apply Hnot. rewrite E. now apply in_map.
  - destruct Hin as [->|Hin]; [congruence|]. now apply IH.
Qed.

Lemma docWithId_map (g : Client.t -> Client.t) (id : string) (docs : list Client.t) :
  (forall d, Client.id (g d) = Client.id d) ->
  docWithId id (map g docs) = option_map g (docWithId id docs).
Proof.
  intros Hg. unfold docWithId. induction docs as [|c docs IH]; simpl; [reflexivity|].
  rewrite Hg. destruct (String.eqb (Client.id c) id); [reflexivity|exact IH].
Qed.

Lemma docWithId_app_l (id : string) (docs extra : list Client.t) (d : Client.t) :
  docWithId id docs = Some d -> docWithId id (docs ++ extra) = Some d.
Proof.
  unfold docWithId. induction docs as [|c docs IH]; simpl; [discriminate|].
  destruct (String.eqb (Client.id c) id); [trivial|exact IH].
Qed.

Lemma scanOutcome_no_buyer (now : Z) (tl : Timestamp -> string) (entityData : Entity.t)
  (cs : list Client.t) :
  (forall c, In c cs ->
     strictEqOpt (Client.name c) (Entity.buyerName entityData) = true ->
     commissionCount (Entity.id entityData) c = 0%nat) ->
  fst (scanOutcome now tl entityData cs) = false.
Proof.
  induction cs as [|c cs IH]; simpl; intros H; [reflexivity|].
  destruct (findIndex _ _) as [i|] eqn:Hi.
  - destruct (strictEqOpt _ _) eqn:Hn; simpl.
    + apply findIndex_some_count in Hi.
      specialize (H c (or_introl eq_refl) Hn). lia.
    + apply IH. intros c' Hc'. apply H. now right.
  - simpl. apply IH. intros c' Hc'. apply H. now right.
Qed.

Lemma Qpositive_true (x : Q) : Qpositive x = true <-> 0 < x.
Proof.
  unfold Qpositive. rewrite negb_true_iff. split.
  - intros H. apply Qnot_le_lt. intros Hle. apply Qle_bool_iff in Hle. congruence.
  - intros H. destruct (Qle_bool x 0) eqn:E; [|reflexivity].
    apply Qle_bool_iff in E. exfalso. exact (Qlt_not_le _ _ H E).
Qed.

Lemma commissionOf_all_archived (entityData : Entity.t) :
  forallb Lot.isArchived (Entity.lots entityData) = true ->
  Qpositive (commissionOf entityData) = false.
Proof.
  intros Hall. unfold commissionOf.
  assert (Hnone : activeLots (Entity.lots entityData) = []).
  { induction (Entity.lots entityData) as [|l lots IH]; simpl in *; [reflexivity|].
    apply andb_true_iff in Hall. destruct Hall as [Hl Hall].
    rewrite Hl. simpl. now apply IH. }
  now rewrite Hnone.
Qed.

(** C10. When the buyer name of the entity is empty or missing and no
    client bears that name, [syncBuyerCommission] strips the transactions of
    the entity from every client and creates nothing: the clients it leaves
    are the former ones without those transactions, so none of them carries
    a commission of the entity. *)
Theorem empty_buyer_strips_all
  (u : User.t) (clients : list Client.t) (now : Z) (newDocId : string)
  (toLocaleDateString : Timestamp -> string) (entityData : Entity.t)
  (workClientsState : list Client.t) :
  NoDup (map Client.id clients) ->
  truthyString (Entity.buyerName entityData) = false ->
  (forall c, In c clients -> Entity.buyerName entityData <> Some (Client.name c)) ->
  syncedClients u clients now newDocId toLocaleDateString entityData workClientsState
  = map (stripCommission entityData) clients
  /\ forall c,
       In c (syncedClients u clients now newDocId toLocaleDateString entityData
               workClientsState) ->
       commissionCount (Entity.id entityData) c = 0%nat.
Proof.
  intros Hnd Hempty Hnames.
  assert (Hret : fst (scanOutcome now toLocaleDateString entityData clients) = false).
  { apply scanOutcome_no_buyer. intros c Hc Hn. apply strictEqOpt_true in Hn.
    now apply Hnames in Hc. }
  rewrite syncedClients_outcome by assumption.
  rewrite Hret, Hempty, andb_false_r.
  destruct (scanOutcome_not_returned now toLocaleDateString entityData clients Hret)
    as [-> _].
  split; [reflexivity|].
  intros c Hc. apply in_map_iff in Hc. destruct Hc as (c0 & <- & _).
  apply stripCommission_count.
Qed.

Lemma scanOutcome_buyer_holds (now : Z) (tl : Timestamp -> string) (entityData : Entity.t)
  (cs : list Client.t) (c : Client.t) :
  In c cs ->
  Entity.buyerName entityData = Some (Client.name c) ->
  commissionCount (Entity.id entityData) c <> 0%nat ->
  fst (scanOutcome now tl entityData cs) = true.
Proof.
  intros Hin Hname Hholds.
  destruct (fst (scanOutcome now tl entityData cs)) eqn:Hret; [reflexivity|].
  destruct (scanOutcome_not_returned now tl entityData cs Hret) as [_ Hnone].
  exfalso. apply Hholds, Hnone; [assumption|]. now apply strictEqOpt_true.
Qed.

(** C4. When the client named as the buyer of the entity carries its
    commission (and is the only client of that name that does) and all the
    lots of the entity are archived or removed,
    [syncBuyerCommission] stores that client's transactions without those of
    the entity: no transaction of the entity remains on the client. *)
Theorem zero_commission_removed
  (u : User.t) (clients : list Client.t) (now : Z) (newDocId : string)
  (toLocaleDateString : Timestamp -> string) (entityData : Entity.t)
  (workClientsState : list Client.t) (buyer : Client.t) :
  NoDup (map Client.id clients) ->
  In buyer clients ->
  Entity.buyerName entityData = Some (Client.name buyer) ->
  commissionCount (Entity.id entityData) buyer <> 0%nat ->
  (forall c, In c clients -> Client.name c = Client.name buyer ->
     commissionCount (Entity.id entityData) c <> 0%nat -> c = buyer) ->
  forallb Lot.isArchived (Entity.lots entityData) = true ->
  exists buyer',
    docWithId (Client.id buyer)
      (syncedClients u clients now newDocId toLocaleDateString entityData workClientsState)
    = Some buyer'
    /\ Client.name buyer' = Client.name buyer
    /\ Client.transactions buyer'
       = withoutEntity (Entity.id entityData) (Client.transactions buyer)
    /\ commissionCount (Entity.id entityData) buyer' = 0%nat.
Proof.
  intros Hnd Hin Hname Hholds Hunique Harchived.
  pose proof (scanOutcome_buyer_holds now toLocaleDateString entityData clients buyer
                Hin Hname Hholds) as Hret.
  destruct (scanOutcome_returned now toLocaleDateString entityData clients Hret)
    as (l1 & c & i & l2 & Hcs & Hc & Hi & Hout).
  assert (Hcb : c = buyer).
  { apply Hunique.
    - rewrite Hcs. apply in_or_app. right. now left.
    - apply strictEqOpt_true in Hc. congruence.
    - apply findIndex_some_count in Hi. lia. }
  subst c.
  rewrite (commissionOf_all_archived entityData Harchived) in Hout.
  exists (stripCommission entityData buyer).
  split; [|split; [reflexivity|split; [reflexivity|apply stripCommission_count]]].
  rewrite syncedClients_outcome, Hret by assumption.
  change (Client.id buyer) with (Client.id (stripCommission entityData buyer)).
  apply docWithId_in.
  - now rewrite scanOutcome_ids.
  - rewrite Hout. apply in_or_app. right. now left.
Qed.

(** ** A commission that the scan did not find on the current buyer *)

Section FreshCommission.

Variable u : User.t.
Variable clients : list Client.t.
Variable now : Z.
Variable newDocId : string.
Variable toLocaleDateString : Timestamp -> string.
Variable entityData : Entity.t.
Variable workClientsState : list Client.t.

Hypothesis distinct_ids : NoDup (map Client.id clients).

Let e := Entity.id entityData.
Let synced :=
  syncedClients u clients now newDocId toLocaleDateString entityData workClientsState.
Let fresh := newCommissionTransaction now toLocaleDateString entityData.


Lemma fresh_filter (l : list Transaction.t) :
  filter (hasEntityId e) l = [] -> filter (hasEntityId e) (l ++ [fresh]) = [fresh].
Proof.
  intros Hl. rewrite filter_app, Hl. simpl.
  subst fresh e. unfold hasEntityId; simpl. now rewrite String.eqb_refl.
Qed.

Lemma commissionCount_le_total (c : Client.t) (l : list Client.t) :
  In c l -> (commissionCount e c <= totalCommissionCount e l)%nat.
Proof.
  induction l as [|d l IH]; simpl; intros Hin; [contradiction|].
  rewrite totalCommissionCount_cons. destruct Hin as [->|Hin]; [lia|].
  specialize (IH Hin). lia.
Qed.

(** When no client named as the buyer carries the commission yet, the
    commission is positive and the buyer name is not empty, step 3 puts the
    new commission transaction on a client of that name, and the other
    clients are stored without the transactions of the entity. *)
Lemma synced_fresh :
  (forall c, In c clients ->
     Entity.buyerName entityData = Some (Client.name c) ->
     commissionCount e c = 0%nat) ->
  0 < commissionOf entityData ->
  truthyString (Entity.buyerName entityData) = true ->
  (exists cB,
      In cB synced
      /\ Entity.buyerName entityData = Some (Client.name cB)
      /\ filter (hasEntityId e) (Client.transactions cB) = [fresh])
  /\ (forall c, In c clients ->
        Entity.buyerName entityData <> Some (Client.name c) ->
        docWithId (Client.id c) synced = Some (stripCommission entityData c))
  /\ totalCommissionCount e synced = 1%nat.
Proof.
  intros Hnone Hpos Htruthy.
  assert (Hret : fst (scanOutcome now toLocaleDateString entityData clients) = false).
  { apply scanOutcome_no_buyer. intros c Hc Hn. apply strictEqOpt_true in Hn.
    now apply Hnone. }
  assert (Hex_total :
            (exists cB,
                In cB synced
                /\ Entity.buyerName entityData = Some (Client.name cB)
                /\ filter (hasEntityId e) (Client.transactions cB) = [fresh])
            /\ (forall c, In c clients ->
                  Entity.buyerName entityData <> Some (Client.name c) ->
                  docWithId (Client.id c) synced = Some (stripCommission entityData c))).
  { subst synced. rewrite syncedClients_outcome by assumption.
    rewrite Hret. apply Qpositive_true in Hpos. rewrite Hpos, Htruthy. simpl.
    destruct (scanOutcome_not_returned now toLocaleDateString entityData clients Hret)
      as [-> _].
    destruct (find _ clients) as [b|] eqn:Hfind.
    - apply find_some in Hfind. destruct Hfind as [Hb Hbn].
      apply strictEqOpt_true in Hbn.
      rewrite map_map. split.
      + exists (applyPatch (appendCommission now toLocaleDateString entityData b)
                  (stripCommission entityData b)).
        split; [|split].
        * apply in_map_iff. exists b. split; [|assumption].
          simpl. now rewrite String.eqb_refl.
        * exact Hbn.
        * simpl. apply fresh_filter. apply length_zero_iff_nil.
          now apply Hnone.
      + intros c Hc Hcn.
        rewrite docWithId_map
          by (intros d; simpl; now destruct (String.eqb _ _)).
        rewrite (docWithId_in clients c distinct_ids Hc). simpl.
        destruct (String.eqb_spec (Client.id c) (Client.id b)) as [E|E]; [|reflexivity].
        exfalso. apply Hcn.
        now rewrite (NoDup_id_inj clients c b distinct_ids Hc Hb E).
    - split.
      + exists (newBuyerClient now newDocId toLocaleDateString u entityData).
        split; [|split].
        * apply in_or_app. right. now left.
        * simpl. destruct (Entity.buyerName entityData); [reflexivity|discriminate].
        * simpl. apply (fresh_filter []). reflexivity.
      + intros c Hc Hcn. apply docWithId_app_l.
        rewrite docWithId_map by reflexivity.
        now rewrite (docWithId_in clients c distinct_ids Hc). }
  destruct Hex_total as [Hex Hothers]. split; [exact Hex|split; [exact Hothers|]].
  destruct Hex as (cB & HcB & _ & Hone).
  pose proof (commissionCount_le_total cB synced HcB) as Hge.
  unfold commissionCount in Hge at 1. rewrite Hone in Hge. simpl in Hge.
  destruct (synced_not_returned u clients now newDocId toLocaleDateString entityData
              workClientsState distinct_ids Hret) as [Hle _].
  fold synced e in Hle. lia.
Qed.

End FreshCommission.


Lemma lotsTotalValue_running (lots : list Lot.t) (a : Q) :
  fold_left (fun sum l => sum + orZero (Lot.totalValue l)) (activeLots lots) a
  = runningActiveTotal a lots.
Proof.
  revert a. induction lots as [|l lots IH]; intros a; simpl; [reflexivity|].
  destruct (Lot.isArchived l); simpl; apply IH.
Qed.



(** C3 (as amended). The commission of the entity lives on client [A]; the
    buyer of the entity becomes [B], a non-empty name other than the name of
    [A], and no client named [B] carries a transaction of the entity.  After
    [syncBuyerCommission] the document of [A] no longer carries a
    transaction of the entity, whatever the commission.  When the recomputed
    commission is positive, a client named [B] (created if absent) carries
    exactly one, of amount the negated commission, and it is the only one
    among all the clients.  When the recomputed commission is not positive,
    nothing is written for [B]: the clients are the former ones without the
    transactions of the entity, and no client carries one. *)
Theorem buyer_change_migrates
  (u : User.t) (clients : list Client.t) (now : Z) (newDocId : string)
  (toLocaleDateString : Timestamp -> string) (entityData : Entity.t)
  (workClientsState : list Client.t) (A : Client.t) (B : string) :
  NoDup (map Client.id clients) ->
  In A clients ->
  commissionCount (Entity.id entityData) A <> 0%nat ->
  Entity.buyerName entityData = Some B ->
  B <> Client.name A ->
  B <> EmptyString ->
  (forall c, In c clients -> Client.name c = B ->
     commissionCount (Entity.id entityData) c = 0%nat) ->
  (exists A',
      docWithId (Client.id A)
        (syncedClients u clients now newDocId toLocaleDateString entityData
           workClientsState) = Some A'
      /\ Client.name A' = Client.name A
      /\ commissionCount (Entity.id entityData) A' = 0%nat)
  /\ (0 < commissionOf entityData ->
      migrated
        (syncedClients u clients now newDocId toLocaleDateString entityData
           workClientsState)
        entityData A B
      /\ totalCommissionCount (Entity.id entityData)
           (syncedClients u clients now newDocId toLocaleDateString entityData
              workClientsState) = 1%nat)
  /\ (~ 0 < commissionOf entityData ->
      syncedClients u clients now newDocId toLocaleDateString entityData workClientsState
      = map (stripCommission entityData) clients
      /\ totalCommissionCount (Entity.id entityData)
           (syncedClients u clients now newDocId toLocaleDateString entityData
              workClientsState) = 0%nat).
Proof.
  intros Hnd HA Hholds HB HBA HBne Hnone.
  assert (Htruthy : truthyString (Entity.buyerName entityData) = true).
  { rewrite HB. destruct B; [congruence|reflexivity]. }
  assert (Hnobuyer : forall c, In c clients ->
                       Entity.buyerName entityData = Some (Client.name c) ->
                       commissionCount (Entity.id entityData) c = 0%nat).
  { intros c Hc Hn. apply Hnone; [assumption|]. congruence. }
  assert (Hpositive : 0 < commissionOf entityData ->
            migrated
              (syncedClients u clients now newDocId toLocaleDateString entityData
                 workClientsState)
              entityData A B
            /\ totalCommissionCount (Entity.id entityData)
                 (syncedClients u clients now newDocId toLocaleDateString entityData
                    workClientsState) = 1%nat).
  { intros Hpos.
    destruct (synced_fresh u clients now newDocId toLocaleDateString entityData
                workClientsState Hnd Hnobuyer Hpos Htruthy)
      as [(cB & HcB & Hname & Hfilter) [Hothers Htotal]].
    split; [split|exact Htotal].
    - exists (stripCommission entityData A). split; [|split].
      + apply Hothers; [assumption|]. congruence.
      + reflexivity.
      + apply stripCommission_count.
    - exists cB, (newCommissionTransaction now toLocaleDateString entityData).
      split; [assumption|]. split; [congruence|]. split; [assumption|reflexivity]. }
  assert (Hstripped : ~ 0 < commissionOf entityData ->
            syncedClients u clients now newDocId toLocaleDateString entityData
              workClientsState
            = map (stripCommission entityData) clients).
  { intros Hnpos.
    assert (Hret : fst (scanOutcome now toLocaleDateString entityData clients) = false).
    { apply scanOutcome_no_buyer. intros c Hc Hn.
      apply Hnobuyer; [assumption|]. now apply strictEqOpt_true. }
    rewrite syncedClients_outcome, Hret by assumption.
    destruct (Qpositive (commissionOf entityData)) eqn:Hq.
    - exfalso. apply Hnpos. now apply Qpositive_true.
    - simpl.
      now destruct (scanOutcome_not_returned now toLocaleDateString entityData
                      clients Hret). }
  split; [|split; [exact Hpositive|]].
  - destruct (Qlt_le_dec 0 (commissionOf entityData)) as [Hpos|Hle].
    + now destruct (Hpositive Hpos) as [[HA' _] _].
    + exists (stripCommission entityData A).
      rewrite Hstripped by now apply Qle_not_lt.
      split; [|split; [reflexivity|apply stripCommission_count]].
      rewrite docWithId_map by reflexivity.
      now rewrite (docWithId_in clients A Hnd HA).
  - intros Hnpos. split; [now apply Hstripped|].
    rewrite (Hstripped Hnpos).
    apply totalCommissionCount_zero. intros d Hd. apply in_map_iff in Hd.
    destruct Hd as (d0 & <- & _). apply stripCommission_count.
Qed.

(** ** The upcoming deadline *)

Section StableSort.

Variable A : Type.
Variable key : A -> Z.

Let cmp (a b : A) : Z := (key a - key b)%Z.

Lemma insertSorted_in (x y : A) (l : list A) :
  In y (insertSorted cmp x l) <-> y = x \/ In y l.
Proof.
  induction l as [|z l IH]; simpl.
  - intuition congruence.
  - destruct (cmp x z <=? 0)%Z; simpl; [intuition congruence|].
    rewrite IH. intuition congruence.
Qed.

Lemma sortBy_in (y : A) (l : list A) : In y (sortBy cmp l) <-> In y l.
Proof.
  unfold sortBy. induction l as [|x l IH]; simpl; [tauto|].
  rewrite insertSorted_in, IH. intuition congruence.
Qed.

Lemma insertSorted_headLeast (x : A) (l : list A) :
  headLeast key l -> headLeast key (insertSorted cmp x l).
Proof.
  destruct l as [|h l]; simpl; intros Hl.
  - intros y [<-|[]]. lia.
  - unfold cmp at 1. destruct (key x - key h <=? 0)%Z eqn:E.
    + apply Z.leb_le in E. simpl. intros y [<-|Hy]; [lia|].
      specialize (Hl y Hy). lia.
    + apply Z.leb_gt in E. simpl. intros y [<-|Hy]; [lia|].
      apply insertSorted_in in Hy. destruct Hy as [->|Hy]; [lia|].
      apply Hl. now right.
Qed.

Lemma sortBy_headLeast (l : list A) : headLeast key (sortBy cmp l).
Proof.
  unfold sortBy. induction l as [|x l IH]; simpl; [exact I|].
  now apply insertSorted_headLeast.
Qed.

Lemma sortBy_first (l : list A) :
  match hd_error (sortBy cmp l) with
  | None => l = []
  | Some h => In h l /\ forall y, In y l -> (key h <= key y)%Z
  end.
Proof.
  pose proof (sortBy_headLeast l) as Hleast.
  pose proof (fun y => sortBy_in y l) as Hin.
  destruct (sortBy cmp l) as [|h s]; simpl in *.
  - destruct l as [|x l]; [reflexivity|].
    exfalso. apply (Hin x). now left.
  - split; [apply Hin; now left|].
    intros y Hy. apply Hleast, Hin, Hy.
Qed.

End StableSort.

Lemma NoDup_app_disjoint {A : Type} (l1 l2 : list A) (a : A) :
  NoDup (l1 ++ l2) -> In a l1 -> In a l2 -> False.
Proof.
  induction l1 as [|x l1 IH]; simpl; intros Hnd H1 H2; [contradiction|].
  inversion Hnd as [|? ? Hnot Hnd']; subst.
  destruct H1 as [->|H1]; [|now apply IH].
  apply Hnot, in_or_app. now right.
Qed.

(** With distinct lot ids, the entity found for a lot is the entity that
    holds it. *)
Lemma auctionDateOfLot_own (entities : list Entity.t) (entity : Entity.t) (l : Lot.t) :
  NoDup (map Lot.id (flat_map Entity.lots entities)) ->
  In entity entities ->
  In l (Entity.lots entity) ->
  auctionDateOfLot entities l = Entity.auctionDate entity.
Proof.
  unfold auctionDateOfLot.
  induction entities as [|e0 rest IH]; simpl; intros Hnd Hin Hl; [contradiction|].
  rewrite map_app in Hnd.
  destruct (existsb _ (Entity.lots e0)) eqn:Hex.
  - destruct Hin as [->|Hin]; [reflexivity|]. exfalso.
    apply existsb_exists in Hex. destruct Hex as (l' & Hl' & Hid).
    apply String.eqb_eq in Hid.
    apply (NoDup_app_disjoint _ _ (Lot.id l) Hnd).
    + rewrite <- Hid. now apply in_map.
    + apply in_map, in_flat_map. now exists entity.
  - destruct Hin as [->|Hin].
    + exfalso.
      assert (Hyes : existsb (fun l' => String.eqb (Lot.id l') (Lot.id l))
                       (Entity.lots entity) = true).
      { apply existsb_exists. exists l. split; [assumption|apply String.eqb_refl]. }
      congruence.
    + apply IH; [|assumption|assumption]. now apply NoDup_app_remove_l in Hnd.
Qed.

Lemma allLots_in (entities : list Entity.t) (l : Lot.t) :
  In l (allLots entities)
  <-> exists entity,
        In entity entities /\ In l (Entity.lots entity) /\ Lot.isArchived l = false.
Proof.
  unfold allLots. rewrite in_flat_map. split.
  - intros (entity & He & Hl). apply filter_In in Hl. destruct Hl as [Hl Ha].
    exists entity. repeat split; try assumption. now apply negb_true_iff.
  - intros (entity & He & Hl & Ha). exists entity. split; [assumption|].
    apply filter_In. split; [assumption|]. now apply negb_true_iff.
Qed.

Lemma upcomingCandidates_qualify (now : Z) (entities : list Entity.t) (x : DatedLot) :
  NoDup (map Lot.id (flat_map Entity.lots entities)) ->
  In x (upcomingCandidates now entities) <-> exists d, qualifies now entities x d.
Proof.
  intros Hnd. unfold upcomingCandidates, qualifies.
  rewrite filter_In, in_map_iff. split.
  - intros [(l & <- & Hl) Hfuture]. apply filter_In in Hl. destruct Hl as [Hl Hpaid].
    apply allLots_in in Hl. destruct Hl as (entity & He & Hle & Ha).
    unfold deadlineInFuture in Hfuture. simpl in *.
    rewrite (auctionDateOfLot_own entities entity l Hnd He Hle) in *.
    destruct (Entity.auctionDate entity) as [d|] eqn:Hd; [|discriminate].
    exists d, entity. apply negb_true_iff in Hpaid. apply Z.ltb_lt in Hfuture.
    repeat split; assumption.
  - intros (d & entity & He & Hle & Ha & Hpaid & Hd & Hx & Hfuture).
    destruct x as [l dx]. simpl in *. subst dx. split.
    + exists l. split.
      * now rewrite (auctionDateOfLot_own entities entity l Hnd He Hle), Hd.
      * apply filter_In. split; [|now apply negb_true_iff].
        apply allLots_in. now exists entity.
    + unfold deadlineInFuture. simpl. now apply Z.ltb_lt.
Qed.

(** C7 (as amended). With distinct lot ids, [computeUpcomingDeadline]
    considers the lots of all entities that are not archived, whose
    [is70Paid] is false and whose entity deadline ([auctionDate] + 15 days)
    is strictly in the future; it returns one with the earliest deadline, and
    nothing when no lot qualifies. *)
Theorem upcoming_deadline_selection (now : Z) (entities : list Entity.t) :
  NoDup (map Lot.id (flat_map Entity.lots entities)) ->
  selectsEarliest (qualifies now entities) (upcomingLot now entities).
Proof.
  intros Hnd. unfold upcomingLot, selectsEarliest.
  pose proof (sortBy_first DatedLot dateKey (upcomingCandidates now entities)) as Hfirst.
  change (sortBy (fun a b => (dateKey a - dateKey b)%Z)) with (sortBy compareDates) in Hfirst.
  destruct (hd_error (sortBy compareDates (upcomingCandidates now entities))) as [x|].
  - destruct Hfirst as [Hx Hleast].
    apply (upcomingCandidates_qualify now entities x Hnd) in Hx.
    destruct Hx as (d & Hq). exists d. split; [assumption|].
    intros y d' Hy.
    assert (Hin : In y (upcomingCandidates now entities))
      by (apply upcomingCandidates_qualify; eauto).
    specialize (Hleast y Hin). unfold dateKey in Hleast.
    destruct Hq as (_ & _ & _ & _ & _ & _ & Hdx & _).
    destruct Hy as (_ & _ & _ & _ & _ & _ & Hdy & _).
    now rewrite Hdx, Hdy in Hleast.
  - intros x d Hq.
    assert (Hin : In x (upcomingCandidates now entities))
      by (apply upcomingCandidates_qualify; eauto).
    now rewrite Hfirst in Hin.
Qed.

(** ** Worked instances *)

Ltac distinct_keys := repeat constructor; simpl; intuition discriminate.


Lemma addPayment_sign_normalized_witness :
  docWithId "c-ahmed" (clientListOf [ahmed] [] ClientType.advance) = Some ahmed
  /\ exists d' pre t,
       docWithId "c-ahmed"
         (getCollection (collectionOf ClientType.advance)
            (execFirestore
               (addPayment (Some sampleUser) [ahmed] [] sampleNow (samplePayment 300)
                  "c-ahmed" ClientType.advance) (storeOf [ahmed] [])))
       = Some d'
       /\ Client.transactions d' = pre ++ [t]
       /\ List.length pre = List.length (Client.transactions ahmed)
       /\ Transaction.amount t == - Qabs (PaymentData.amount (samplePayment 300))
       /\ Transaction.isSettled t = true
       /\ execFirestore
            (addPayment (Some sampleUser) [ahmed] [] sampleNow
               (withAmount (- PaymentData.amount (samplePayment 300)) (samplePayment 300))
               "c-ahmed" ClientType.advance) (storeOf [ahmed] [])
          = execFirestore
              (addPayment (Some sampleUser) [ahmed] [] sampleNow (samplePayment 300)
                 "c-ahmed" ClientType.advance) (storeOf [ahmed] []).
Proof.
  assert (Hstate : docWithId "c-ahmed" (clientListOf [ahmed] [] ClientType.advance)
                   = Some ahmed) by reflexivity.
  split; [exact Hstate|].
  apply (addPayment_sign_normalized sampleUser [ahmed] [] sampleNow (samplePayment 300)
           "c-ahmed" ClientType.advance ahmed ahmed (storeOf [ahmed] []) Hstate).
  reflexivity.
Defined.

Lemma settleAndArchive_zeroes_balance_witness :
  ~ computeClientBalance (Client.transactions ahmed) == 0
  /\ exists d' t,
       docWithId (Client.id ahmed)
         (getCollection (namespaceOf [ahmed] (Client.id ahmed))
            (execFirestore (settleAndArchive (Some sampleUser) [ahmed] [] sampleNow ahmed)
               (storeOf [ahmed] [])))
       = Some d'
       /\ Client.transactions d' = Client.transactions ahmed ++ [t]
       /\ Transaction.amount t = - computeClientBalance (Client.transactions ahmed)
       /\ computeClientBalance (Client.transactions d') == 0
       /\ Client.isArchived d' = Some true
       /\ Client.archiveType d'
          = Some (archiveTypeOf (namespaceOf [ahmed] (Client.id ahmed))).
Proof.
  assert (HB : ~ computeClientBalance (Client.transactions ahmed) == 0)
    by (intros H; discriminate H).
  split; [exact HB|].
  apply (settleAndArchive_zeroes_balance sampleUser [ahmed] [] sampleNow ahmed ahmed
           (storeOf [ahmed] []) HB).
  - left. reflexivity.
  - reflexivity.
Defined.

Lemma restoreClient_frame_witness :
  someWithId (Client.id archivedAhmed) [archivedAhmed] = true
  /\ exists d',
       docWithId (Client.id archivedAhmed)
         (getCollection (namespaceOf [archivedAhmed] (Client.id archivedAhmed))
            (execFirestore
               (confirmRestoreClient (Some sampleUser) [archivedAhmed] []
                  (Some archivedAhmed)) (storeOf [archivedAhmed] [])))
       = Some d'
       /\ Client.isArchived d' = Some false
       /\ Client.archiveType d' = None
       /\ Client.transactions d' = Client.transactions archivedAhmed
       /\ Client.id d' = Client.id archivedAhmed
       /\ Client.userId d' = Client.userId archivedAhmed
       /\ Client.name d' = Client.name archivedAhmed
       /\ Client.isBuyer d' = Client.isBuyer archivedAhmed
       /\ Client.phone d' = Client.phone archivedAhmed.
Proof.
  split; [reflexivity|].
  apply (restoreClient_frame sampleUser [archivedAhmed] [] archivedAhmed archivedAhmed
           (storeOf [archivedAhmed] [])).
  - left. reflexivity.
  - reflexivity.
Defined.

Lemma afterFirstSync_reachable : reachable "Auction-7" afterFirstSync.
Proof.
  apply reachable_sync.
  - apply reachable_initial; [distinct_keys|reflexivity].
  - simpl. intuition discriminate.
Defined.

Lemma commission_at_most_one_witness :
  reachable "Auction-7" afterFirstSync
  /\ (totalCommissionCount "Auction-7"
        (syncedClients sampleUser afterFirstSync sampleNow "c-new-2" sampleLocale
           (sampleEntity (Some "Sara"%string) oneLot) []) <= 1)%nat
  /\ forall c,
       In c (syncedClients sampleUser afterFirstSync sampleNow "c-new-2" sampleLocale
               (sampleEntity (Some "Sara"%string) oneLot) []) ->
       commissionCount "Auction-7" c <> 0%nat ->
       Some "Sara"%string = Some (Client.name c).
Proof.
  split; [exact afterFirstSync_reachable|].
  exact (commission_at_most_one sampleUser afterFirstSync sampleNow "c-new-2" sampleLocale
           (sampleEntity (Some "Sara"%string) oneLot) [] afterFirstSync_reachable).
Defined.


(** The example of the commission formula: active lots of value 1000, 2000
    and 500 (an archived lot of value 10000 left out) give the commission
    17.5, stored as the amount -17.5. *)
Example commission_example :
  commissionOf (sampleEntity (Some "Ahmed"%string) sampleLots) == 17.5
  /\ Transaction.amount
       (newCommissionTransaction sampleNow sampleLocale
          (sampleEntity (Some "Ahmed"%string) sampleLots)) == -17.5.
Proof. split; reflexivity. Qed.

Lemma buyer_change_migrates_witness :
  commissionCount "Auction-7" ahmedWithCommission <> 0%nat
  /\ (exists A',
         docWithId (Client.id ahmedWithCommission)
           (syncedClients sampleUser [ahmedWithCommission] sampleNow "c-new-2"
              sampleLocale (sampleEntity (Some "Sara"%string) oneLot) []) = Some A'
         /\ Client.name A' = Client.name ahmedWithCommission
         /\ commissionCount "Auction-7" A' = 0%nat)
  /\ (0 < commissionOf (sampleEntity (Some "Sara"%string) oneLot) ->
      migrated
        (syncedClients sampleUser [ahmedWithCommission] sampleNow "c-new-2" sampleLocale
           (sampleEntity (Some "Sara"%string) oneLot) [])
        (sampleEntity (Some "Sara"%string) oneLot) ahmedWithCommission "Sara"
      /\ totalCommissionCount "Auction-7"
           (syncedClients sampleUser [ahmedWithCommission] sampleNow "c-new-2"
              sampleLocale (sampleEntity (Some "Sara"%string) oneLot) []) = 1%nat)
  /\ (~ 0 < commissionOf (sampleEntity (Some "Sara"%string) oneLot) ->
      syncedClients sampleUser [ahmedWithCommission] sampleNow "c-new-2" sampleLocale
        (sampleEntity (Some "Sara"%string) oneLot) []
      = map (stripCommission (sampleEntity (Some "Sara"%string) oneLot))
          [ahmedWithCommission]
      /\ totalCommissionCount "Auction-7"
           (syncedClients sampleUser [ahmedWithCommission] sampleNow "c-new-2"
              sampleLocale (sampleEntity (Some "Sara"%string) oneLot) []) = 0%nat).
Proof.
  assert (Hholds : commissionCount "Auction-7" ahmedWithCommission <> 0%nat)
    by (intros H; discriminate H).
  split; [exact Hholds|].
  apply (buyer_change_migrates sampleUser [ahmedWithCommission] sampleNow "c-new-2"
           sampleLocale (sampleEntity (Some "Sara"%string) oneLot) []
           ahmedWithCommission "Sara").
  - distinct_keys.
  - left. reflexivity.
  - exact Hholds.
  - reflexivity.
  - intros H. discriminate H.
  - intros H. discriminate H.
  - intros c [<-|[]] H. discriminate H.
Defined.

(** The example of the commission formula in the arithmetic of the code:
    the same lots give the floats [17.5] and [-17.5]. *)
Example commission_example_binary64 :
  Binary64.commissionOf floatLots = 17.5%float
  /\ Binary64.commissionAmount floatLots = (-17.5)%float.
Proof. split; reflexivity. Qed.



(** C3 as stated fails: "Ahmed" carries the commission of "Auction-7", its
    only lot has been marked as loaded, and the buyer becomes "Sara"; the
    recomputed commission is [0], so no client named "Sara" receives a
    transaction of the entity. *)
Lemma buyer_change_counterexample :
  In ahmedWithCommission [ahmedWithCommission]
  /\ commissionCount "Auction-7" ahmedWithCommission = 1%nat
  /\ Entity.buyerName (sampleEntity (Some "Sara"%string) oneLotLoaded) = Some "Sara"%string
  /\ "Sara"%string <> Client.name ahmedWithCommission
  /\ ~ migrated
         (syncedClients sampleUser [ahmedWithCommission] sampleNow "c-new-2" sampleLocale
            (sampleEntity (Some "Sara"%string) oneLotLoaded) [])
         (sampleEntity (Some "Sara"%string) oneLotLoaded) ahmedWithCommission "Sara".
Proof.
  split; [now left|]. split; [reflexivity|]. split; [reflexivity|].
  split; [discriminate|].
  intros [_ (cB & t & Hin & Hname & _)].
  cbv in Hin. destruct Hin as [<-|[]]. discriminate Hname.
Qed.

Lemma zero_commission_removed_witness :
  forallb Lot.isArchived (Entity.lots (sampleEntity (Some "Sara"%string) oneLotLoaded)) = true
  /\ exists buyer',
       docWithId (Client.id saraWithCommission)
         (syncedClients sampleUser [ahmed; saraWithCommission] sampleNow "c-new-2"
            sampleLocale (sampleEntity (Some "Sara"%string) oneLotLoaded) [])
       = Some buyer'
       /\ Client.name buyer' = Client.name saraWithCommission
       /\ Client.transactions buyer'
          = withoutEntity "Auction-7" (Client.transactions saraWithCommission)
       /\ commissionCount "Auction-7" buyer' = 0%nat.
Proof.
  split; [reflexivity|].
  apply (zero_commission_removed sampleUser [ahmed; saraWithCommission] sampleNow "c-new-2"
           sampleLocale (sampleEntity (Some "Sara"%string) oneLotLoaded) []
           saraWithCommission).
  - distinct_keys.
  - right. left. reflexivity.
  - reflexivity.
  - intros H. discriminate H.
  - intros c [<-|[<-|[]]] Hn _; [discriminate Hn|reflexivity].
  - reflexivity.
Defined.

Lemma empty_buyer_strips_all_witness :
  truthyString (Entity.buyerName (sampleEntity (Some EmptyString) oneLot)) = false
  /\ syncedClients sampleUser [ahmedWithCommission; saraWithCommission] sampleNow "c-new-2"
       sampleLocale (sampleEntity (Some EmptyString) oneLot) []
     = map (stripCommission (sampleEntity (Some EmptyString) oneLot))
         [ahmedWithCommission; saraWithCommission]
  /\ forall c,
       In c (syncedClients sampleUser [ahmedWithCommission; saraWithCommission] sampleNow
               "c-new-2" sampleLocale (sampleEntity (Some EmptyString) oneLot) []) ->
       commissionCount "Auction-7" c = 0%nat.
Proof.
  split; [reflexivity|].
  apply (empty_buyer_strips_all sampleUser [ahmedWithCommission; saraWithCommission]
           sampleNow "c-new-2" sampleLocale (sampleEntity (Some EmptyString) oneLot) []).
  - distinct_keys.
  - reflexivity.
  - intros c [<-|[<-|[]]] H; discriminate H.
Defined.

Lemma upcoming_deadline_selection_witness :
  NoDup (map Lot.id (flat_map Entity.lots dashboardEntities))
  /\ selectsEarliest (qualifies sampleNow dashboardEntities)
       (upcomingLot sampleNow dashboardEntities).
Proof.
  assert (Hnd : NoDup (map Lot.id (flat_map Entity.lots dashboardEntities)))
    by distinct_keys.
  exact (conj Hnd (upcoming_deadline_selection sampleNow dashboardEntities Hnd)).
Defined.

(** C7 as stated fails: the only lot is unpaid and its deadline is in the
    future, but it is archived, and [upcomingLot] returns nothing. *)
Lemma upcoming_deadline_counterexample :
  ~ selectsEarliest (qualifiesArchivedToo sampleNow loadedEntities)
      (upcomingLot sampleNow loadedEntities).
Proof.
  assert (Hnone : upcomingLot sampleNow loadedEntities = None) by reflexivity.
  rewrite Hnone. simpl. intros H.
  apply (H (mkDatedLot (sampleLot "c1" 1000 None true) (Some 1700000000000%Z))
           1700000000000%Z).
  eexists. split; [left; reflexivity|]. simpl.
  split; [left; reflexivity|]. repeat split.
Qed.

(** ** Further properties of the reconciliation *)

Lemma stripCommission_unmatched (entityData : Entity.t) (c : Client.t) :
  commissionCount (Entity.id entityData) c = 0%nat -> stripCommission entityData c = c.
Proof.
  intros H0. apply length_zero_iff_nil in H0.
  unfold stripCommission, applyPatch; simpl.
  rewrite (withoutEntity_unmatched _ _ H0). now destruct c.
Qed.

Lemma map_stripCommission_unmatched (entityData : Entity.t) (cs : list Client.t) :
  totalCommissionCount (Entity.id entityData) cs = 0%nat ->
  map (stripCommission entityData) cs = cs.
Proof.
  intros H0. rewrite <- (map_id cs) at 2. apply map_ext_in. intros c Hc.
  apply stripCommission_unmatched.
  now apply (proj1 (totalCommissionCount_zero _ _) H0).
Qed.

(** X1. A reconciliation that has nothing to write leaves the advance
    clients as they are: no client carries a transaction of the entity, and
    the commission is not positive (a new entity has no lots) or the buyer
    name is empty. *)
Theorem sync_nothing_to_write
  (u : User.t) (clients : list Client.t) (now : Z) (newDocId : string)
  (toLocaleDateString : Timestamp -> string) (entityData : Entity.t)
  (workClientsState : list Client.t) :
  NoDup (map Client.id clients) ->
  totalCommissionCount (Entity.id entityData) clients = 0%nat ->
  Qpositive (commissionOf entityData) && truthyString (Entity.buyerName entityData) = false ->
  syncedClients u clients now newDocId toLocaleDateString entityData workClientsState
  = clients.
Proof.
  intros Hnd H0 Hcond.
  assert (Hret : fst (scanOutcome now toLocaleDateString entityData clients) = false).
  { apply scanOutcome_no_buyer. intros c Hc _.
    now apply (proj1 (totalCommissionCount_zero _ _) H0). }
  rewrite syncedClients_outcome, Hret, Hcond by assumption.
  destruct (scanOutcome_not_returned now toLocaleDateString entityData clients Hret)
    as [-> _].
  now apply map_stripCommission_unmatched.
Qed.

Lemma withoutEntity_idem (e : string) (l : list Transaction.t) :
  withoutEntity e (withoutEntity e l) = withoutEntity e l.
Proof.
  apply withoutEntity_unmatched, withoutEntity_count.
Qed.

Lemma withoutEntity_updateAt (e : string) (f : Transaction.t -> Transaction.t)
  (l : list Transaction.t) (i : nat) :
  (forall t, hasEntityId e (f t) = hasEntityId e t) ->
  findIndex (hasEntityId e) l = Some i ->
  withoutEntity e (updateAt i f l) = withoutEntity e l.
Proof.
  intros Hf. unfold withoutEntity. revert i.
  induction l as [|t l IH]; simpl; intros i Hi; [discriminate|].
  destruct (hasEntityId e t) eqn:Ht.
  - injection Hi as <-. simpl. now rewrite Hf, Ht.
  - destruct (findIndex (hasEntityId e) l) as [j|]; [|discriminate].
    injection Hi as <-. simpl. rewrite Ht. simpl. f_equal. now apply IH.
Qed.

Lemma withoutEntity_app_fresh (now : Z) (tl : Timestamp -> string) (entityData : Entity.t)
  (l : list Transaction.t) :
  withoutEntity (Entity.id entityData) (l ++ [newCommissionTransaction now tl entityData])
  = withoutEntity (Entity.id entityData) l.
Proof.
  unfold withoutEntity. rewrite filter_app. simpl.
  unfold hasEntityId at 2. simpl. rewrite String.eqb_refl. simpl. apply app_nil_r.
Qed.

Lemma sameLedgerOutside_refl (e : string) (c : Client.t) : sameLedgerOutside e c c.
Proof. repeat split. Qed.

Lemma scanOutcome_sameLedger (now : Z) (tl : Timestamp -> string) (entityData : Entity.t)
  (cs : list Client.t) :
  Forall2 (sameLedgerOutside (Entity.id entityData)) cs
    (snd (scanOutcome now tl entityData cs)).
Proof.
  induction cs as [|c cs IH]; simpl; [constructor|].
  destruct (findIndex _ _) as [i|] eqn:Hi.
  - destruct (strictEqOpt _ _); simpl.
    + constructor.
      * destruct (Qpositive _); repeat split; simpl.
        -- now apply withoutEntity_updateAt.
        -- apply withoutEntity_idem.
      * clear. induction cs; constructor; auto using sameLedgerOutside_refl.
    + constructor; [|exact IH]. repeat split. simpl. apply withoutEntity_idem.
  - simpl. constructor; [apply sameLedgerOutside_refl|exact IH].
Qed.

Lemma Forall2_map_in {A B : Type} (R : A -> B -> Prop) (g : B -> B) (l : list A)
  (l' : list B) :
  Forall2 R l l' ->
  (forall a b, In a l -> R a b -> R a (g b)) ->
  Forall2 R l (map g l').
Proof.
  induction 1 as [|a b l l' Hab _ IH]; simpl; intros Hg; constructor.
  - apply Hg; [now left|assumption].
  - apply IH. intros a' b' Ha'. apply Hg. now right.
Qed.

Lemma Forall2_sameLedger_ids (e : string) (cs cs' : list Client.t) :
  Forall2 (sameLedgerOutside e) cs cs' -> map Client.id cs' = map Client.id cs.
Proof.
  induction 1 as [|c c' cs cs' Hc _ IH]; simpl; [reflexivity|].
  destruct Hc as [-> _]. now rewrite IH.
Qed.

Lemma Forall2_in_l {A B : Type} (R : A -> B -> Prop) (l : list A) (l' : list B) (a : A) :
  Forall2 R l l' -> In a l -> exists b, In b l' /\ R a b.
Proof.
  induction 1 as [|x y l l' Hxy _ IH]; simpl; intros Hin; [contradiction|].
  destruct Hin as [->|Hin]; [exists y; auto|].
  destruct (IH Hin) as (b & Hb & Hab). exists b. auto.
Qed.

(** X2. [syncBuyerCommission] never deletes a client document and never
    touches what is not a commission of the entity: every client of the
    state is still stored under its key, with its name, owner, phone and
    archive fields, and with the same transactions, in the same order, once
    those that carry the id of the entity are left out. *)
Theorem sync_keeps_other_transactions
  (u : User.t) (clients : list Client.t) (now : Z) (newDocId : string)
  (toLocaleDateString : Timestamp -> string) (entityData : Entity.t)
  (workClientsState : list Client.t) (c : Client.t) :
  NoDup (map Client.id clients) ->
  In c clients ->
  exists c',
    docWithId (Client.id c)
      (syncedClients u clients now newDocId toLocaleDateString entityData workClientsState)
    = Some c'
    /\ sameLedgerOutside (Entity.id entityData) c c'.
Proof.
  intros Hnd Hc.
  pose proof (scanOutcome_sameLedger now toLocaleDateString entityData clients) as Hscan.
  assert (Hkept : exists S0 extra,
             syncedClients u clients now newDocId toLocaleDateString entityData
               workClientsState = S0 ++ extra
             /\ Forall2 (sameLedgerOutside (Entity.id entityData)) clients S0).
  { rewrite syncedClients_outcome by assumption.
    destruct (fst (scanOutcome now toLocaleDateString entityData clients)).
    - eexists _, []. rewrite app_nil_r. split; [reflexivity|exact Hscan].
    - destruct (Qpositive _ && truthyString _).
      + destruct (find _ clients) as [b|] eqn:Hfind.
        * apply find_some in Hfind. destruct Hfind as [Hb _].
          eexists _, []. rewrite app_nil_r. split; [reflexivity|].
          apply Forall2_map_in; [exact Hscan|].
          intros a d Ha Had.
          destruct (String.eqb_spec (Client.id d) (Client.id b)) as [E|E]; [|exact Had].
          destruct Had as (Hid & Hu & Hn & Hp & Ha1 & Ha2 & Htx).
          assert (Hab : a = b)
            by (apply (NoDup_id_inj clients); try assumption; congruence).
          subst a. repeat split; simpl; try assumption.
          apply withoutEntity_app_fresh.
        * eexists _, _. split; [reflexivity|exact Hscan].
      + eexists _, []. rewrite app_nil_r. split; [reflexivity|exact Hscan]. }
  destruct Hkept as (S0 & extra & -> & HS0).
  destruct (Forall2_in_l _ _ _ c HS0 Hc) as (c' & Hc' & Hsame).
  exists c'. split; [|exact Hsame].
  apply docWithId_app_l.
  destruct Hsame as [<- _]. apply docWithId_in; [|assumption].
  now rewrite (Forall2_sameLedger_ids _ _ _ HS0).
Qed.

Lemma scanOutcome_skip (now : Z) (tl : Timestamp -> string) (entityData : Entity.t)
  (zs rest : list Client.t) :
  totalCommissionCount (Entity.id entityData) zs = 0%nat ->
  scanOutcome now tl entityData (zs ++ rest)
  = (fst (scanOutcome now tl entityData rest),
     zs ++ snd (scanOutcome now tl entityData rest)).
Proof.
  induction zs as [|z zs IH]; simpl; intros H0.
  - now destruct (scanOutcome now tl entityData rest).
  - rewrite totalCommissionCount_cons in H0.
    assert (Hz : commissionCount (Entity.id entityData) z = 0%nat) by lia.
    apply findIndex_count in Hz. rewrite Hz, IH by lia. reflexivity.
Qed.

Lemma scanOutcome_zero (now : Z) (tl : Timestamp -> string) (entityData : Entity.t)
  (zs : list Client.t) :
  totalCommissionCount (Entity.id entityData) zs = 0%nat ->
  scanOutcome now tl entityData zs = (false, zs).
Proof.
  intros H0. rewrite <- (app_nil_r zs) at 1.
  rewrite scanOutcome_skip by assumption. simpl. now rewrite app_nil_r.
Qed.

Lemma findIndex_updateAt_same {A : Type} (p : A -> bool) (f : A -> A) (i : nat)
  (l : list A) :
  (forall x, p (f x) = p x) -> findIndex p (updateAt i f l) = findIndex p l.
Proof.
  intros Hf. revert i. induction l as [|x l IH]; intros [|i]; simpl; try reflexivity.
  - now rewrite Hf.
  - now rewrite IH.
Qed.

Lemma updateAt_updateAt {A : Type} (f g : A -> A) (i : nat) (l : list A) :
  updateAt i g (updateAt i f l) = updateAt i (fun x => g (f x)) l.
Proof.
  revert i. induction l as [|x l IH]; intros [|i]; simpl; try reflexivity.
  now rewrite IH.
Qed.

Lemma updateAt_ext {A : Type} (f g : A -> A) (i : nat) (l : list A) :
  (forall x, f x = g x) -> updateAt i f l = updateAt i g l.
Proof.
  intros Hfg. revert i. induction l as [|x l IH]; intros [|i]; simpl; try reflexivity.
  - now rewrite Hfg.
  - now rewrite IH.
Qed.

Lemma findIndex_app_last {A : Type} (p : A -> bool) (l : list A) (x : A) :
  filter p l = [] -> p x = true -> findIndex p (l ++ [x]) = Some (List.length l).
Proof.
  induction l as [|y l IH]; simpl; intros Hl Hx.
  - now rewrite Hx.
  - destruct (p y); [discriminate|]. now rewrite IH.
Qed.

Lemma updateAt_app_last {A : Type} (f : A -> A) (l : list A) (x : A) :
  updateAt (List.length l) f (l ++ [x]) = l ++ [f x].
Proof. induction l as [|y l IH]; simpl; [reflexivity|]. now rewrite IH. Qed.

Section Idempotence.

Variable u u' : User.t.
Variable clients : list Client.t.
Variable now now' : Z.
Variable newDocId newDocId' : string.
Variable toLocaleDateString : Timestamp -> string.
Variable entityData : Entity.t.
Variable workClientsState workClientsState' : list Client.t.

Hypothesis distinct_ids : NoDup (map Client.id clients).
Hypothesis fresh_id : ~ In newDocId (map Client.id clients).
Hypothesis same_date : commissionDate now' entityData = commissionDate now entityData.

Let e := Entity.id entityData.
Let over (n : Z) (t : Transaction.t) : Transaction.t :=
  Transaction.overwrite t (- commissionOf entityData) (commissionDate n entityData)
    (commissionNotes toLocaleDateString entityData).

Lemma overwrite_again (t : Transaction.t) : over now' (over now t) = over now t.
Proof. unfold over. rewrite same_date. reflexivity. Qed.

Lemma overwrite_fresh :
  over now' (newCommissionTransaction now toLocaleDateString entityData)
  = newCommissionTransaction now toLocaleDateString entityData.
Proof. unfold over. rewrite same_date. reflexivity. Qed.

(** The scan of a list whose first commission of the entity sits on a
    client [c'] named as the buyer, already in the state the reconciliation
    writes: it returns and rewrites nothing. *)
Lemma scan_settled (zs l2 : list Client.t) (c' : Client.t) (i : nat) :
  totalCommissionCount e zs = 0%nat ->
  strictEqOpt (Client.name c') (Entity.buyerName entityData) = true ->
  findIndex (hasEntityId e) (Client.transactions c') = Some i ->
  Qpositive (commissionOf entityData) = true ->
  updateAt i (over now') (Client.transactions c') = Client.transactions c' ->
  Client.isBuyer c' = Some true ->
  scanOutcome now' toLocaleDateString entityData (zs ++ c' :: l2)
  = (true, zs ++ c' :: l2).
Proof.
  intros Hzs Hname Hi Hpos Htx Hbuyer.
  rewrite scanOutcome_skip by assumption. simpl.
  fold e. rewrite Hi, Hname, Hpos. simpl. do 3 f_equal.
  unfold applyPatch, rewriteCommission. simpl. fold (over now').
  rewrite Htx, <- Hbuyer. now destruct c'.
Qed.

Let synced :=
  syncedClients u clients now newDocId toLocaleDateString entityData workClientsState.

Lemma synced_distinct_ids : NoDup (map Client.id synced).
Proof.
  destruct (syncedClients_ids u clients now newDocId toLocaleDateString entityData
              workClientsState distinct_ids) as [E|E]; fold synced in E; rewrite E.
  - assumption.
  - apply NoDup_app; [assumption|repeat constructor; intros []|].
    intros x Hx [<-|[]]. now apply fresh_id.
Qed.

Lemma synced_scan_fixed :
  (totalCommissionCount e clients <= 1)%nat ->
  snd (scanOutcome now' toLocaleDateString entityData synced) = synced
  /\ (fst (scanOutcome now' toLocaleDateString entityData synced) = false ->
      Qpositive (commissionOf entityData) && truthyString (Entity.buyerName entityData)
      = false).
Proof.
  intros Hone. subst synced. rewrite syncedClients_outcome by assumption.
  destruct (fst (scanOutcome now toLocaleDateString entityData clients)) eqn:Hret.
  - destruct (scanOutcome_returned now toLocaleDateString entityData clients Hret)
      as (l1 & c & i & l2 & Hcs & Hname & Hi & Hout).
    rewrite Hout. rewrite Hcs in Hone.
    rewrite totalCommissionCount_app, totalCommissionCount_cons in Hone.
    pose proof (findIndex_some_count _ _ _ Hi) as Hc.
    assert (Hl1 : totalCommissionCount e (map (stripCommission entityData) l1) = 0%nat).
    { apply totalCommissionCount_zero. intros d Hd. apply in_map_iff in Hd.
      destruct Hd as (d0 & <- & _). apply stripCommission_count. }
    destruct (Qpositive (commissionOf entityData)) eqn:Hpos.
    + rewrite scan_settled with (i := i); simpl; try assumption.
      * split; [reflexivity|discriminate].
      * rewrite findIndex_updateAt_same by reflexivity. exact Hi.
      * rewrite updateAt_updateAt. apply updateAt_ext. intros t. apply overwrite_again.
      * reflexivity.
    + change (applyPatch _ c) with (stripCommission entityData c).
      rewrite scanOutcome_zero.
      * simpl. split; [reflexivity|]. intros _. reflexivity.
      * unfold e in *.
        rewrite totalCommissionCount_app, totalCommissionCount_cons, Hl1.
        rewrite stripCommission_count. lia.
  - destruct (scanOutcome_not_returned now toLocaleDateString entityData clients Hret)
      as [Hout Hnone].
    rewrite Hout.
    pose proof (stripped_count clients entityData) as Hzero. fold e in Hzero.
    destruct (Qpositive _ && truthyString _) eqn:Hcond.
    + apply andb_true_iff in Hcond. destruct Hcond as [Hpos Htruthy].
      destruct (find _ clients) as [b|] eqn:Hfind.
      * apply find_some in Hfind. destruct Hfind as [Hb Hbn].
        pose proof (Hnone b Hb Hbn) as Hb0.
        destruct (in_split _ _ Hb) as (p1 & p2 & Hsplit).
        assert (Hshape :
                  map (fun d => if String.eqb (Client.id d) (Client.id b)
                                then applyPatch
                                       (appendCommission now toLocaleDateString entityData b) d
                                else d)
                      (map (stripCommission entityData) clients)
                  = map (stripCommission entityData) p1
                    ++ applyPatch (appendCommission now toLocaleDateString entityData b)
                         (stripCommission entityData b)
                    :: map (stripCommission entityData) p2).
        { rewrite Hsplit, map_app. simpl map at 2.
          apply (update_positional
                   (appendCommission now toLocaleDateString entityData b)
                   (map (stripCommission entityData) p1)
                   (map (stripCommission entityData) p2)
                   (stripCommission entityData b)).
          rewrite map_app. simpl. rewrite !map_map. simpl.
          rewrite Hsplit, map_app in distinct_ids. exact distinct_ids. }
        rewrite Hshape.
        rewrite scan_settled with (i := List.length (Client.transactions b));
          simpl; try assumption.
        -- split; [reflexivity|discriminate].
        -- rewrite Hsplit, map_app, totalCommissionCount_app in Hzero. lia.
        -- apply findIndex_app_last.
           ++ now apply length_zero_iff_nil.
           ++ unfold hasEntityId. simpl. apply String.eqb_refl.
        -- rewrite updateAt_app_last. f_equal. f_equal. apply overwrite_fresh.
        -- reflexivity.
      * rewrite scan_settled with (i := 0%nat); simpl; try assumption.
        -- split; [reflexivity|discriminate].
        -- destruct (Entity.buyerName entityData) as [n|]; [|discriminate].
           simpl. apply String.eqb_refl.
        -- unfold hasEntityId. simpl. subst e. now rewrite String.eqb_refl.
        -- f_equal. apply overwrite_fresh.
        -- reflexivity.
    + rewrite scanOutcome_zero by assumption.
      simpl. split; [reflexivity|]. intros _. reflexivity.
Qed.

End Idempotence.

(** X3. Reconciliation is idempotent: on a client list with distinct keys
    that carries at most one transaction of the entity, a second
    [syncBuyerCommission] of the same entity, run on the clients the first
    one left, writes nothing new.  (The auction date of the entity is set,
    or the two calls read the same clock: a commission without auction date
    is dated with the time of the call.) *)
Theorem sync_idempotent
  (u u' : User.t) (clients : list Client.t) (now now' : Z) (newDocId newDocId' : string)
  (toLocaleDateString : Timestamp -> string) (entityData : Entity.t)
  (workClientsState workClientsState' : list Client.t) :
  NoDup (map Client.id clients) ->
  ~ In newDocId (map Client.id clients) ->
  (totalCommissionCount (Entity.id entityData) clients <= 1)%nat ->
  Entity.auctionDate entityData <> None \/ now' = now ->
  syncedClients u'
    (syncedClients u clients now newDocId toLocaleDateString entityData workClientsState)
    now' newDocId' toLocaleDateString entityData workClientsState'
  = syncedClients u clients now newDocId toLocaleDateString entityData workClientsState.
Proof.
  intros Hnd Hfresh Hone Hdate.
  assert (Hsame : commissionDate now' entityData = commissionDate now entityData).
  { unfold commissionDate. destruct Hdate as [Hd| ->]; [|reflexivity].
    destruct (Entity.auctionDate entityData); [reflexivity|congruence]. }
  pose proof (synced_distinct_ids u clients now newDocId toLocaleDateString entityData
                workClientsState Hnd Hfresh) as Hnd1.
  destruct (synced_scan_fixed u clients now now' newDocId toLocaleDateString entityData
              workClientsState Hnd Hsame Hone) as [Hsnd Hfst].
  rewrite (syncedClients_outcome u' _ now' newDocId' toLocaleDateString entityData
             workClientsState' Hnd1).
  destruct (fst (scanOutcome now' toLocaleDateString entityData _)) eqn:Hret.
  - exact Hsnd.
  - rewrite (Hfst eq_refl). exact Hsnd.
Qed.

(** ** The ledger handlers *)

Lemma commissionCount_transactions (e : string) (c c' : Client.t) :
  Client.transactions c' = Client.transactions c ->
  commissionCount e c' = commissionCount e c.
Proof. unfold commissionCount. now intros ->. Qed.

(** X4. Adding a transaction (no transaction is being edited) stores the
    ledger of the client followed by the new transaction: the balance grows
    by the amount entered, and the new transaction is never a commission of
    an entity. *)
Theorem addTransaction_balance
  (u : User.t) (clients workClientsState : list Client.t) (now : Z)
  (transactionData : TransactionData.t) (clientId : string) (type : ClientType.t)
  (client d : Client.t) (db : Db) :
  docWithId clientId (clientListOf clients workClientsState type) = Some client ->
  docWithId clientId (getCollection (collectionOf type) db) = Some d ->
  exists d' t,
    docWithId clientId
      (getCollection (collectionOf type)
         (execFirestore
            (addOrUpdateTransaction (Some u) clients workClientsState now None
               transactionData clientId type) db))
    = Some d'
    /\ Client.transactions d' = Client.transactions client ++ [t]
    /\ Transaction.entityId t = None
    /\ computeClientBalance (Client.transactions d')
       == computeClientBalance (Client.transactions client)
          + TransactionData.amount transactionData.
Proof.
  intros Hstate Hdoc. unfold addOrUpdateTransaction.
  unfold docWithId in Hstate. rewrite Hstate.
  rewrite docWithId_updateDoc, Hdoc. simpl.
  eexists _, _. split; [reflexivity|]. simpl.
  split; [reflexivity|]. split; [reflexivity|].
  rewrite !computeClientBalance_sum, sumAmounts_app. simpl.
  rewrite orZero_eq. ring.
Qed.



Lemma withoutTransaction_absent (id : string) (l : list Transaction.t) :
  (forall t, In t l -> Transaction.id t <> id) -> withoutTransaction id l = l.
Proof.
  unfold withoutTransaction. induction l as [|t l IH]; simpl; intros H; [reflexivity|].
  destruct (String.eqb_spec (Transaction.id t) id) as [E|E]; simpl.
  - exfalso. now apply (H t (or_introl eq_refl)).
  - f_equal. apply IH. intros t' Ht'. apply H. now right.
Qed.

(** X6. Deleting a transaction stores the ledger of the client without the
    transactions of that id and changes nothing else: the stored ledger is
    the former one, in the same order, with exactly the transactions of that
    id left out, the other fields of the document are untouched, and when
    the client has no transaction of that id the ledger is stored as it
    was. *)
Theorem deleteTransaction_effect
  (clients workClientsState : list Client.t) (target : TransactionToDelete.t)
  (client d : Client.t) (db : Db) :
  docWithId (TransactionToDelete.clientId target)
    (clientListOf clients workClientsState (TransactionToDelete.clientType target))
  = Some client ->
  docWithId (TransactionToDelete.clientId target)
    (getCollection (collectionOf (TransactionToDelete.clientType target)) db) = Some d ->
  exists d',
    docWithId (TransactionToDelete.clientId target)
      (getCollection (collectionOf (TransactionToDelete.clientType target))
         (execFirestore
            (handleConfirmDeleteTransaction clients workClientsState (Some target)) db))
    = Some d'
    /\ Client.transactions d'
       = filter
           (fun t =>
              negb (String.eqb (Transaction.id t) (TransactionToDelete.transactionId target)))
           (Client.transactions client)
    /\ (forall t,
          In t (Client.transactions d') <->
          In t (Client.transactions client)
          /\ Transaction.id t <> TransactionToDelete.transactionId target)
    /\ Client.id d' = Client.id d
    /\ Client.userId d' = Client.userId d
    /\ Client.name d' = Client.name d
    /\ Client.isBuyer d' = Client.isBuyer d
    /\ Client.isArchived d' = Client.isArchived d
    /\ Client.archiveType d' = Client.archiveType d
    /\ Client.phone d' = Client.phone d
    /\ ((forall t, In t (Client.transactions client) ->
           Transaction.id t <> TransactionToDelete.transactionId target) ->
        Client.transactions d' = Client.transactions client).
Proof.
  intros Hstate Hdoc. unfold handleConfirmDeleteTransaction.
  unfold docWithId in Hstate. rewrite Hstate.
  rewrite docWithId_updateDoc, Hdoc. simpl.
  eexists. split; [reflexivity|]. simpl. split; [reflexivity|]. split.
  - intros t. unfold withoutTransaction. rewrite filter_In, negb_true_iff.
    now rewrite String.eqb_neq.
  - repeat (split; [reflexivity|]). apply withoutTransaction_absent.
Qed.

Lemma clientListOf_store (db : Db) (type : ClientType.t) :
  clientListOf (advanceClients db) (workClients db) type
  = getCollection (collectionOf type) db.
Proof. now destruct type. Qed.

Lemma docWithId_find (id : string) (docs : list Client.t) :
  find (fun c => String.eqb (Client.id c) id) docs = docWithId id docs.
Proof. reflexivity. Qed.

(** X7. Adding a transaction and then deleting it gives the ledger back:
    when no transaction of the client has the id the new one receives
    ([Date.now()]), the store holds the ledger of the client as it was, once
    the deletion has run on the refreshed state. *)
Theorem add_then_delete_transaction
  (u : User.t) (clients workClientsState : list Client.t) (now : Z)
  (transactionData : TransactionData.t) (clientId : string) (type : ClientType.t)
  (client : Client.t) :
  docWithId clientId (clientListOf clients workClientsState type) = Some client ->
  (forall t, In t (Client.transactions client) -> Transaction.id t <> showInt now) ->
  exists d2,
    docWithId clientId
      (getCollection (collectionOf type)
         (execFirestore
            (handleConfirmDeleteTransaction
               (advanceClients
                  (execFirestore
                     (addOrUpdateTransaction (Some u) clients workClientsState now None
                        transactionData clientId type)
                     (storeOf clients workClientsState)))
               (workClients
                  (execFirestore
                     (addOrUpdateTransaction (Some u) clients workClientsState now None
                        transactionData clientId type)
                     (storeOf clients workClientsState)))
               (Some (TransactionToDelete.mk clientId type (showInt now))))
            (execFirestore
               (addOrUpdateTransaction (Some u) clients workClientsState now None
                  transactionData clientId type)
               (storeOf clients workClientsState))))
    = Some d2
    /\ Client.transactions d2 = Client.transactions client.
Proof.
  intros Hstate Hfresh.
  set (db1 := execFirestore
                (addOrUpdateTransaction (Some u) clients workClientsState now None
                   transactionData clientId type)
                (storeOf clients workClientsState)).
  assert (Hdoc0 : docWithId clientId
                    (getCollection (collectionOf type) (storeOf clients workClientsState))
                  = Some client).
  { rewrite <- Hstate. now destruct type. }
  assert (Hdoc1 : docWithId clientId (getCollection (collectionOf type) db1)
                  = Some (applyPatch
                            (mkPatch
                               (Some (Client.transactions client
                                        ++ [savedTransaction now None transactionData]))
                               None None Untouched) client)).
  { subst db1. unfold addOrUpdateTransaction. rewrite docWithId_find, Hstate.
    now rewrite docWithId_updateDoc, Hdoc0. }
  unfold handleConfirmDeleteTransaction. simpl TransactionToDelete.clientId.
  simpl TransactionToDelete.clientType. simpl TransactionToDelete.transactionId.
  rewrite clientListOf_store, docWithId_find, Hdoc1.
  rewrite docWithId_updateDoc, Hdoc1. simpl.
  eexists. split; [reflexivity|]. simpl.
  unfold withoutTransaction. rewrite filter_app. simpl. rewrite String.eqb_refl. simpl.
  rewrite app_nil_r. now apply withoutTransaction_absent.
Qed.

Lemma sumAmounts_markSettled (p : Transaction.t -> bool) (l : list Transaction.t) :
  sumAmounts (map (fun t => if p t then Transaction.markSettled t else t) l)
  == sumAmounts l.
Proof.
  induction l as [|t l IH]; simpl; [reflexivity|].
  rewrite IH. now destruct (p t).
Qed.

Lemma paymentUpdatedTransactions_balance (now : Z) (pd : PaymentData.t) (client : Client.t) :
  computeClientBalance (paymentUpdatedTransactions now pd client)
  == computeClientBalance (Client.transactions client) - Qabs (PaymentData.amount pd).
Proof.
  rewrite !computeClientBalance_sum. unfold paymentUpdatedTransactions.
  destruct (truthyString _).
  - rewrite sumAmounts_markSettled, sumAmounts_app. simpl. rewrite orZero_eq. ring.
  - rewrite sumAmounts_app. simpl. rewrite orZero_eq. ring.
Qed.

Lemma paymentUpdatedTransactions_unsettled (now : Z) (pd : PaymentData.t)
  (client : Client.t) (t : Transaction.t) :
  In t (paymentUpdatedTransactions now pd client) ->
  Transaction.isSettled t = false ->
  In t (Client.transactions client)
  /\ (truthyString (PaymentData.linkedTransactionId pd) = true ->
      PaymentData.linkedTransactionId pd <> Some (Transaction.id t)).
Proof.
  unfold paymentUpdatedTransactions. intros Hin Hopen.
  destruct (truthyString (PaymentData.linkedTransactionId pd)) eqn:Htruthy.
  - apply in_map_iff in Hin. destruct Hin as (x & Hx & Hin).
    destruct (strictEqOpt (Transaction.id x) (PaymentData.linkedTransactionId pd)) eqn:Hlink.
    + subst t. discriminate Hopen.
    + subst x. apply in_app_or in Hin. destruct Hin as [Hin|[<-|[]]].
      * split; [assumption|]. intros _ Heq. apply strictEqOpt_true in Heq.
        congruence.
      * discriminate Hopen.
  - apply in_app_or in Hin. destruct Hin as [Hin|[<-|[]]].
    + split; [assumption|discriminate].
    + discriminate Hopen.
Qed.

(** X8. A payment lowers the balance of the client by the absolute value
    of the amount entered, whatever its sign; the transactions it leaves
    unsettled were already in the ledger, and the transaction the payment is
    linked to is not among them. *)
Theorem addPayment_balance
  (u : User.t) (clients workClientsState : list Client.t) (now : Z)
  (paymentData : PaymentData.t) (clientId : string) (type : ClientType.t)
  (client d : Client.t) (db : Db) :
  docWithId clientId (clientListOf clients workClientsState type) = Some client ->
  docWithId clientId (getCollection (collectionOf type) db) = Some d ->
  exists d',
    docWithId clientId
      (getCollection (collectionOf type)
         (execFirestore
            (addPayment (Some u) clients workClientsState now paymentData clientId type) db))
    = Some d'
    /\ computeClientBalance (Client.transactions d')
       == computeClientBalance (Client.transactions client)
          - Qabs (PaymentData.amount paymentData)
    /\ forall t,
         In t (unsettledTransactions d') ->
         In t (unsettledTransactions client)
         /\ (truthyString (PaymentData.linkedTransactionId paymentData) = true ->
             PaymentData.linkedTransactionId paymentData <> Some (Transaction.id t)).
Proof.
  intros Hstate Hdoc. unfold addPayment.
  unfold docWithId in Hstate. rewrite Hstate.
  rewrite docWithId_updateDoc, Hdoc. simpl.
  eexists. split; [reflexivity|]. simpl.
  split; [apply paymentUpdatedTransactions_balance|].
  intros t Ht. unfold unsettledTransactions in *. simpl in Ht.
  apply filter_In in Ht. destruct Ht as [Ht Hopen]. apply negb_true_iff in Hopen.
  destruct (paymentUpdatedTransactions_unsettled now paymentData client t Ht Hopen)
    as [Hold Hlink].
  split; [|exact Hlink].
  apply filter_In. split; [assumption|]. now apply negb_true_iff.
Qed.

(** ** Settlement, restore and the views *)

Lemma docWithId_some_in (id : string) (docs : list Client.t) (d : Client.t) :
  docWithId id docs = Some d -> In d docs /\ Client.id d = id.
Proof.
  unfold docWithId. intros H. apply find_some in H. destruct H as [Hin Hid].
  split; [assumption|now apply String.eqb_eq].
Qed.

(** The document [settleAndArchive] stores. *)
Lemma settle_stored
  (u : User.t) (clients workClientsState : list Client.t) (now : Z)
  (client d : Client.t) (db : Db) :
  ~ computeClientBalance (Client.transactions client) == 0 ->
  someWithId (Client.id client) clients = true
  \/ someWithId (Client.id client) workClientsState = true ->
  docWithId (Client.id client)
    (getCollection (namespaceOf clients (Client.id client)) db) = Some d ->
  docWithId (Client.id client)
    (getCollection (namespaceOf clients (Client.id client))
       (execFirestore (settleAndArchive (Some u) clients workClientsState now client) db))
  = Some
      (applyPatch
         (mkPatch
            (Some (Client.transactions client
                     ++ [balancingTransaction now
                           (computeClientBalance (Client.transactions client))]))
            None (Some true)
            (SetTo (archiveTypeOf (namespaceOf clients (Client.id client))))) d).
Proof.
  intros HB Hheld Hdoc. unfold settleAndArchive, confirmSettleAndArchive.
  rewrite (Qpositive_abs _ HB). unfold namespaceOf in *.
  destruct (someWithId (Client.id client) clients) eqn:Ha.
  - now rewrite docWithId_updateDoc, Hdoc.
  - destruct Hheld as [Hheld|Hheld]; [discriminate|]. rewrite Hheld.
    now rewrite docWithId_updateDoc, Hdoc.
Qed.

(** X9. A settled client moves from the clients view to the archive view of
    its own namespace: after [settleAndArchive] the stored client is not
    among the clients [renderContent] gives to [ClientsView], and it is among
    those it gives to [ArchiveClientsView] for the namespace that holds it. *)
Theorem settled_client_is_archived_in_view
  (u : User.t) (clients workClientsState : list Client.t) (now : Z)
  (client d : Client.t) (db : Db) :
  ~ computeClientBalance (Client.transactions client) == 0 ->
  someWithId (Client.id client) clients = true
  \/ someWithId (Client.id client) workClientsState = true ->
  docWithId (Client.id client)
    (getCollection (namespaceOf clients (Client.id client)) db) = Some d ->
  exists d',
    docWithId (Client.id client)
      (getCollection (namespaceOf clients (Client.id client))
         (execFirestore (settleAndArchive (Some u) clients workClientsState now client) db))
    = Some d'
    /\ ~ In d'
         (activeClients
            (getCollection (namespaceOf clients (Client.id client))
               (execFirestore
                  (settleAndArchive (Some u) clients workClientsState now client) db)))
    /\ In d'
         (archivedClients (archiveTypeOf (namespaceOf clients (Client.id client)))
            (getCollection (namespaceOf clients (Client.id client))
               (execFirestore
                  (settleAndArchive (Some u) clients workClientsState now client) db))).
Proof.
  intros HB Hheld Hdoc.
  pose proof (settle_stored u clients workClientsState now client d db HB Hheld Hdoc)
    as Hd'.
  eexists. split; [exact Hd'|].
  apply docWithId_some_in in Hd'. destruct Hd' as [Hin _]. split.
  - unfold activeClients. intros H. apply filter_In in H. destruct H as [_ H].
    discriminate H.
  - unfold archivedClients. apply filter_In. split; [assumption|].
    unfold archivedAs. simpl.
    now destruct (namespaceOf clients (Client.id client)).
Qed.

(** X10. Restoring a settled client does not undo the settlement: after
    [settleAndArchive] and then [confirmRestoreClient] on the refreshed
    state, the stored client is active again ([isArchived] false, no
    [archiveType]) and shown in the clients view, but its ledger still ends
    with the balancing transaction, so its balance is [0]. *)
Theorem settle_then_restore
  (u : User.t) (clients workClientsState : list Client.t) (now : Z)
  (client archived : Client.t) :
  ~ computeClientBalance (Client.transactions client) == 0 ->
  someWithId (Client.id client) clients = true
  \/ someWithId (Client.id client) workClientsState = true ->
  Client.id archived = Client.id client ->
  exists d2,
    docWithId (Client.id client)
      (getCollection (namespaceOf clients (Client.id client))
         (execFirestore
            (confirmRestoreClient (Some u)
               (advanceClients
                  (execFirestore
                     (settleAndArchive (Some u) clients workClientsState now client)
                     (storeOf clients workClientsState)))
               (workClients
                  (execFirestore
                     (settleAndArchive (Some u) clients workClientsState now client)
                     (storeOf clients workClientsState)))
               (Some archived))
            (execFirestore
               (settleAndArchive (Some u) clients workClientsState now client)
               (storeOf clients workClientsState))))
    = Some d2
    /\ Client.isArchived d2 = Some false
    /\ Client.archiveType d2 = None
    /\ Client.transactions d2
       = Client.transactions client
         ++ [balancingTransaction now (computeClientBalance (Client.transactions client))]
    /\ computeClientBalance (Client.transactions d2) == 0
    /\ activeClients [d2] = [d2].
Proof.
  intros HB Hheld Hid.
  set (db1 := execFirestore
                (settleAndArchive (Some u) clients workClientsState now client)
                (storeOf clients workClientsState)).
  assert (Hdoc0 : exists d,
             docWithId (Client.id client)
               (getCollection (namespaceOf clients (Client.id client))
                  (storeOf clients workClientsState)) = Some d).
  { unfold namespaceOf.
    destruct (someWithId (Client.id client) clients) eqn:Ha.
    - now apply someWithId_docWithId.
    - destruct Hheld as [Hheld|Hheld]; [discriminate|].
      now apply someWithId_docWithId. }
  destruct Hdoc0 as (d & Hdoc0).
  pose proof (settle_stored u clients workClientsState now client d
                (storeOf clients workClientsState) HB Hheld Hdoc0) as Hdoc1.
  fold db1 in Hdoc1.
  unfold confirmRestoreClient. rewrite Hid.
  unfold namespaceOf in *.
  destruct (someWithId (Client.id client) clients) eqn:Ha.
  - assert (H1 : someWithId (Client.id client) (advanceClients db1) = true)
      by (apply someWithId_docWithId; eexists; exact Hdoc1).
    rewrite H1, docWithId_updateDoc, Hdoc1. simpl.
    eexists. split; [reflexivity|]. simpl.
    repeat split. apply balance_settled.
  - destruct Hheld as [Hheld|Hheld]; [discriminate|].
    assert (H1 : someWithId (Client.id client) (advanceClients db1) = false).
    { subst db1. unfold settleAndArchive, confirmSettleAndArchive.
      rewrite (Qpositive_abs _ HB), Ha, Hheld. exact Ha. }
    assert (H2 : someWithId (Client.id client) (workClients db1) = true)
      by (apply someWithId_docWithId; eexists; exact Hdoc1).
    rewrite H1, H2, docWithId_updateDoc, Hdoc1. simpl.
    eexists. split; [reflexivity|]. simpl.
    repeat split. apply balance_settled.
Qed.

(** ** Dashboard and summary figures *)

Lemma archived_not_active (type : ArchiveType.t) (l : list Client.t) :
  archivedClients type (activeClients l) = [].
Proof.
  unfold archivedClients, activeClients. induction l as [|c l IH]; simpl; [reflexivity|].
  destruct (truthyFlag (Client.isArchived c)) eqn:E; simpl; [exact IH|].
  unfold archivedAs. rewrite E. simpl. exact IH.
Qed.

(** X11. The dashboard never counts an archived client: [renderContent]
    gives [DashboardView] only the clients that are not archived, so its
    [archivedAdvances], [archivedWork] and [totalArchivedClients] are [0]
    whatever the collections hold. *)
Theorem dashboard_counts_no_archived_client
  (entities : list Entity.t) (clients workClientsState : list Client.t) :
  DashboardStats.archivedAdvances (renderedDashboardStats entities clients workClientsState)
  = 0%nat
  /\ DashboardStats.archivedWork (renderedDashboardStats entities clients workClientsState)
     = 0%nat
  /\ DashboardStats.totalArchivedClients
       (renderedDashboardStats entities clients workClientsState) = 0%nat.
Proof.
  unfold renderedDashboardStats, dashboardStats. simpl.
  rewrite !archived_not_active. repeat split.
Qed.

Lemma summaryStep_sides (l : list Transaction.t) (acc : Q * Q) :
  fold_left summaryStep l acc
  = (fold_left (fun a t => a + orZero (Transaction.amount t)) (filter isDebit l) (fst acc),
     fold_left (fun a t => a + Qabs (orZero (Transaction.amount t)))
       (filter (fun t => negb (isDebit t)) l) (snd acc)).
Proof.
  revert acc. induction l as [|t l IH]; intros acc; simpl.
  - now destruct acc.
  - rewrite IH. unfold summaryStep, isDebit.
    now destruct (Qpositive (orZero (Transaction.amount t))).
Qed.

Lemma summaryTotals_flat (l : list Client.t) (acc : Q * Q) :
  fold_left (fun a client => fold_left summaryStep (Client.transactions client) a) l acc
  = fold_left summaryStep (flat_map Client.transactions l) acc.
Proof.
  revert acc. induction l as [|c l IH]; intros acc; simpl; [reflexivity|].
  now rewrite IH, fold_left_app.
Qed.

Lemma debit_nonneg (l : list Transaction.t) (a : Q) :
  0 <= a ->
  0 <= fold_left (fun a t => a + orZero (Transaction.amount t)) (filter isDebit l) a.
Proof.
  revert a. induction l as [|t l IH]; intros a Ha; simpl; [exact Ha|].
  destruct (isDebit t) eqn:Hd; simpl; [|now apply IH].
  apply IH. unfold isDebit in Hd. apply Qpositive_true in Hd.
  rewrite <- (Qplus_0_r 0). apply Qplus_le_compat; [assumption|].
  now apply Qlt_le_weak.
Qed.

Lemma credit_nonneg (l : list Transaction.t) (a : Q) :
  0 <= a ->
  0 <= fold_left (fun a t => a + Qabs (orZero (Transaction.amount t)))
         (filter (fun t => negb (isDebit t)) l) a.
Proof.
  revert a. induction l as [|t l IH]; intros a Ha; simpl; [exact Ha|].
  destruct (negb (isDebit t)); simpl; [|now apply IH].
  apply IH. rewrite <- (Qplus_0_r 0). apply Qplus_le_compat; [assumption|].
  apply Qabs_nonneg.
Qed.

(** X12. [SummaryPanel] counts every transaction on exactly one side: over
    the transactions of all the clients, in order, [totalDebit] is the
    running sum of the amounts that are positive and [totalCredit] the
    running sum of the absolute values of the others; neither is ever
    negative. *)
Theorem summary_counts_each_side (clients : list Client.t) :
  FinancialSummary.totalDebit (summary clients)
  = fold_left (fun a t => a + orZero (Transaction.amount t))
      (filter isDebit (flat_map Client.transactions clients)) 0
  /\ FinancialSummary.totalCredit (summary clients)
     = fold_left (fun a t => a + Qabs (orZero (Transaction.amount t)))
         (filter (fun t => negb (isDebit t)) (flat_map Client.transactions clients)) 0
  /\ 0 <= FinancialSummary.totalDebit (summary clients)
  /\ 0 <= FinancialSummary.totalCredit (summary clients).
Proof.
  unfold summary, summaryTotals. simpl.
  rewrite summaryTotals_flat, summaryStep_sides. simpl.
  split; [reflexivity|]. split; [reflexivity|].
  split; [apply debit_nonneg|apply credit_nonneg]; apply Qle_refl.
Qed.

Lemma countLots_fold (p : Lot.t -> bool) (entities : list Entity.t) (a : nat) :
  fold_left (fun sum e => (sum + List.length (filter p (Entity.lots e)))%nat) entities a
  = (a + List.length (filter p (flat_map Entity.lots entities)))%nat.
Proof.
  revert a. induction entities as [|e entities IH]; intros a; simpl; [lia|].
  rewrite IH, filter_app, length_app. lia.
Qed.

Lemma filter_partition_length {A : Type} (p : A -> bool) (l : list A) :
  (List.length (filter p l) + List.length (filter (fun x => negb (p x)) l))%nat
  = List.length l.
Proof.
  induction l as [|x l IH]; simpl; [reflexivity|].
  destruct (p x); simpl; lia.
Qed.

(** X13. Every lot is counted once by the dashboard: the number of active
    lots and the number of archived lots add up to the number of lots of all
    the entities. *)
Theorem dashboard_counts_every_lot
  (entities : list Entity.t) (clients workClientsProp : list Client.t) :
  (DashboardStats.activeLots (dashboardStats entities clients workClientsProp)
   + DashboardStats.archivedLots (dashboardStats entities clients workClientsProp))%nat
  = List.length (flat_map Entity.lots entities).
Proof.
  unfold dashboardStats, countLots. simpl. rewrite !countLots_fold. simpl.
  rewrite Nat.add_comm. apply filter_partition_length.
Qed.

Lemma activeLotsEntities_allLots (entities : list Entity.t) :
  flat_map Entity.lots (activeLotsEntities entities) = allLots entities.
Proof.
  unfold activeLotsEntities, allLots.
  induction entities as [|e entities IH]; simpl; [reflexivity|].
  destruct (existsb (fun l => negb (Lot.isArchived l)) (Entity.lots e)) eqn:Hex; simpl.
  - now rewrite IH.
  - destruct (Nat.eqb (List.length (Entity.lots e)) 0) eqn:Hlen; simpl.
    + rewrite IH. reflexivity.
    + rewrite IH.
      assert (Hnone : filter (fun l => negb (Lot.isArchived l)) (Entity.lots e) = []).
      { clear -Hex. induction (Entity.lots e) as [|l ls IHl]; simpl in *; [reflexivity|].
        apply orb_false_iff in Hex. destruct Hex as [Hl Hls].
        rewrite Hl. now apply IHl. }
      now rewrite Hnone.
Qed.

(** X14. The memo [activeLotsEntities], from which [EntitiesView] searches,
    groups and sorts what it shows, and the dashboard work on the same lots:
    its lots are, in order, the lots of [DashboardMetrics], that is the lots
    of the entities that are not archived (leaving out an entity whose lots
    are all archived loses none); the lots [ArchiveView] renders are exactly
    the archived ones. *)
Theorem views_share_out_lots (entities : list Entity.t) (l : Lot.t) :
  flat_map Entity.lots (activeLotsEntities entities) = allLots entities
  /\ (In l (flat_map Entity.lots (activeLotsEntities entities))
      <-> exists e, In e entities /\ In l (Entity.lots e) /\ Lot.isArchived l = false)
  /\ (In l (flat_map Entity.lots (archivedLotsEntities entities))
      <-> exists e, In e entities /\ In l (Entity.lots e) /\ Lot.isArchived l = true).
Proof.
  split; [apply activeLotsEntities_allLots|]. split.
  - rewrite activeLotsEntities_allLots. apply allLots_in.
  - unfold archivedLotsEntities. rewrite in_flat_map. split.
    + intros (e' & He' & Hl). apply filter_In in He'. destruct He' as [He' _].
      apply in_map_iff in He'. destruct He' as (e & <- & He). simpl in Hl.
      apply filter_In in Hl. destruct Hl as [Hl Ha]. exists e. auto.
    + intros (e & He & Hl & Ha).
      exists (withLots (filter Lot.isArchived (Entity.lots e)) e).
      assert (Hin : In l (filter Lot.isArchived (Entity.lots e)))
        by (apply filter_In; auto).
      split; [|exact Hin].
      apply filter_In. split; [apply in_map_iff; exists e; auto|]. simpl.
      destruct (filter Lot.isArchived (Entity.lots e)); [contradiction|reflexivity].
Qed.

Lemma allLots_paid (entities : list Entity.t) :
  (forall e l, In e entities -> In l (Entity.lots e) -> Lot.isArchived l = false ->
     truthyFlag (Lot.is70Paid l) = true) ->
  filter (fun l => negb (truthyFlag (Lot.is70Paid l))) (allLots entities) = [].
Proof.
  intros Hpaid.
  assert (Hall : forall l, In l (allLots entities) -> truthyFlag (Lot.is70Paid l) = true).
  { intros l Hl. apply allLots_in in Hl. destruct Hl as (e & He & Hl & Ha). eauto. }
  induction (allLots entities) as [|l ls IH]; simpl; [reflexivity|].
  rewrite (Hall l (or_introl eq_refl)). simpl.
  apply IH. intros l' Hl'. apply Hall. now right.
Qed.

Lemma nothing_due_when_paid (now : Z) (entities : list Entity.t) :
  (forall e l, In e entities -> In l (Entity.lots e) -> Lot.isArchived l = false ->
     truthyFlag (Lot.is70Paid l) = true) ->
  remainingToSupply entities = 0 /\ upcomingLot now entities = None.
Proof.
  intros Hpaid. pose proof (allLots_paid entities Hpaid) as Hnone. split.
  - unfold remainingToSupply. now rewrite Hnone.
  - unfold upcomingLot, upcomingCandidates. now rewrite Hnone.
Qed.

(** X16. When every lot that is not archived is paid, nothing is due: the
    [remainingToSupply] of the dashboard is [0], there is no upcoming lot,
    and the "fully paid" banner is shown exactly when the total of the
    invoices is positive. *)
Theorem all_paid_nothing_due (now : Z) (entities : list Entity.t) :
  (forall e l, In e entities -> In l (Entity.lots e) -> Lot.isArchived l = false ->
     truthyFlag (Lot.is70Paid l) = true) ->
  remainingToSupply entities = 0
  /\ upcomingLot now entities = None
  /\ isFullyPaid entities = Qpositive (totalInvoices entities).
Proof.
  intros Hpaid. destruct (nothing_due_when_paid now entities Hpaid) as [Hr Hnone].
  split; [exact Hr|]. split; [exact Hnone|].
  unfold isFullyPaid. rewrite Hr. apply andb_true_r.
Qed.

(** ** The lot handlers *)

Lemma findEntity_update (id : string) (lots : list Lot.t) (docs : list Entity.t) :
  findEntity
    (map (fun d => if String.eqb (Entity.id d) id then withLots lots d else d) docs) id
  = option_map (withLots lots) (findEntity docs id).
Proof.
  unfold findEntity. induction docs as [|d docs IH]; simpl; [reflexivity|].
  destruct (String.eqb (Entity.id d) id) eqn:E; simpl.
  - now rewrite E.
  - now rewrite E, IH.
Qed.

Lemma withLots_same (e : Entity.t) : withLots (Entity.lots e) e = e.
Proof. now destruct e. Qed.

Lemma withLots_withLots (l1 l2 : list Lot.t) (e : Entity.t) :
  withLots l1 (withLots l2 e) = withLots l1 e.
Proof. reflexivity. Qed.

Lemma flipArchived_twice (id : string) (lots : list Lot.t) :
  map (fun l => if String.eqb (Lot.id l) id then flipArchived l else l)
    (map (fun l => if String.eqb (Lot.id l) id then flipArchived l else l) lots)
  = lots.
Proof.
  induction lots as [|l lots IH]; simpl; [reflexivity|].
  rewrite IH. destruct (String.eqb (Lot.id l) id) eqn:E; simpl; rewrite E.
  - f_equal. destruct l. unfold flipArchived. simpl. now rewrite negb_involutive.
  - reflexivity.
Qed.

(** X17. Toggling the archive flag of a lot twice gives the entity back:
    after [toggleLotArchive] and a second [toggleLotArchive] of the same lot
    on the refreshed state, the entity document is the one the first call
    found. *)
Theorem toggleLotArchive_twice
  (user user' : option User.t) (clients : list Client.t) (entities : list Entity.t)
  (now now' : Z) (newDocId newDocId' : string) (toLocaleDateString : Timestamp -> string)
  (lot : Lot.t) (entityId : string) (entity : Entity.t) (s : Store) :
  entityDocs s = entities ->
  findEntity entities entityId = Some entity ->
  findEntity
    (entityDocs
       (toggleLotArchive user'
          (advanceClients
             (clientDocs
                (toggleLotArchive user clients entities now newDocId toLocaleDateString
                   lot entityId s)))
          (entityDocs
             (toggleLotArchive user clients entities now newDocId toLocaleDateString
                lot entityId s))
          now' newDocId' toLocaleDateString lot entityId
          (toggleLotArchive user clients entities now newDocId toLocaleDateString
             lot entityId s)))
    entityId
  = Some entity.
Proof.
  intros Hstore Hfind.
  assert (H1 : findEntity
                 (entityDocs
                    (toggleLotArchive user clients entities now newDocId toLocaleDateString
                       lot entityId s)) entityId
               = Some (withLots
                         (map (fun l => if String.eqb (Lot.id l) (Lot.id lot)
                                        then flipArchived l else l)
                              (Entity.lots entity)) entity)).
  { unfold toggleLotArchive. rewrite Hfind. simpl.
    now rewrite findEntity_update, Hstore, Hfind. }
  unfold toggleLotArchive at 1. rewrite H1. simpl.
  rewrite findEntity_update, H1. simpl.
  now rewrite flipArchived_twice, withLots_withLots, withLots_same.
Qed.

Lemma activeLots_app (l1 l2 : list Lot.t) :
  activeLots (l1 ++ l2) = activeLots l1 ++ activeLots l2.
Proof. apply filter_app. Qed.

(** X18. Adding a lot (no lot is being edited) stores the lots of the
    entity followed by the new lot, which is active and unpaid, has the
    value entered and [value70 = totalValue - value30]; the commission of
    the entity becomes [0.005] times the running total of its active lots
    plus the value of the new lot, and the reconciliation runs on the entity
    with the new lot. *)
Theorem addLot_effect
  (u : User.t) (clients : list Client.t) (entities : list Entity.t) (now : Z)
  (newDocId : string) (toLocaleDateString : Timestamp -> string) (lotData : LotData.t)
  (entityId : string) (entity : Entity.t) (s : Store) :
  entityDocs s = entities ->
  findEntity entities entityId = Some entity ->
  exists l,
    findEntity
      (entityDocs
         (addOrUpdateLot (Some u) clients entities now newDocId toLocaleDateString None
            lotData entityId s)) entityId
    = Some (withLots (Entity.lots entity ++ [l]) entity)
    /\ Lot.isArchived l = false
    /\ truthyFlag (Lot.is70Paid l) = false
    /\ Lot.totalValue l == LotData.totalValue lotData
    /\ Lot.value70 l == LotData.totalValue lotData - LotData.value30 lotData
    /\ commissionOf (withLots (Entity.lots entity ++ [l]) entity)
       == (lotsTotalValue (activeLots (Entity.lots entity)) + Lot.totalValue l) * 0.005
    /\ clientDocs
         (addOrUpdateLot (Some u) clients entities now newDocId toLocaleDateString None
            lotData entityId s)
       = execFirestore
           (syncBuyerCommission (Some u) clients now newDocId toLocaleDateString
              (withLots (Entity.lots entity ++ [l]) entity))
           (clientDocs s).
Proof.
  intros Hstore Hfind. unfold addOrUpdateLot. rewrite Hfind.
  exists (newLot now lotData). simpl.
  rewrite findEntity_update, Hstore, Hfind. simpl.
  split; [reflexivity|]. split; [reflexivity|]. split; [reflexivity|].
  split; [apply orZero_eq|].
  split; [now rewrite !orZero_eq|]. split; [|reflexivity].
  unfold commissionOf, lotsTotalValue. simpl.
  rewrite activeLots_app, fold_left_app. simpl.
  now rewrite !orZero_eq.
Qed.

Lemma savedLots_edit (now : Z) (editing : Lot.t) (lotData : LotData.t) (lots : list Lot.t) :
  map Lot.id (savedLots now (Some editing) lotData lots) = map Lot.id lots
  /\ map Lot.isArchived (savedLots now (Some editing) lotData lots)
     = map Lot.isArchived lots
  /\ map Lot.is70Paid (savedLots now (Some editing) lotData lots) = map Lot.is70Paid lots
  /\ forall l,
       In l (savedLots now (Some editing) lotData lots) ->
       (Lot.id l = Lot.id editing ->
        Lot.totalValue l == LotData.totalValue lotData
        /\ Lot.value30 l == LotData.value30 lotData
        /\ Lot.value70 l == LotData.totalValue lotData - LotData.value30 lotData)
       /\ (Lot.id l <> Lot.id editing -> In l lots).
Proof.
  unfold savedLots. induction lots as [|x lots (IH1 & IH2 & IH3 & IH4)]; simpl.
  - repeat split; contradiction.
  - rewrite IH1, IH2, IH3.
    destruct (String.eqb_spec (Lot.id x) (Lot.id editing)) as [E|E]; simpl.
    + repeat split; try reflexivity;
        destruct H as [<-|Hin]; simpl in *;
        try (rewrite ?orZero_eq; reflexivity);
        try (now apply (IH4 l Hin)); try congruence.
      right. now apply (IH4 l Hin).
    + repeat split; try reflexivity;
        destruct H as [<-|Hin]; simpl in *;
        try (now apply (IH4 l Hin)); try congruence; auto.
      right. now apply (IH4 l Hin).
Qed.

(** X19. Editing a lot changes neither which lots the entity has nor their
    status: the stored lots have the same ids, the same archive flags and
    the same paid flags, in the same order; the lots of other ids are the
    former ones, and a lot of the edited id gets the values entered, with
    [value70 = totalValue - value30]. *)
Theorem editLot_keeps_status
  (u : User.t) (clients : list Client.t) (entities : list Entity.t) (now : Z)
  (newDocId : string) (toLocaleDateString : Timestamp -> string) (editing : Lot.t)
  (lotData : LotData.t) (entityId : string) (entity : Entity.t) (s : Store) :
  entityDocs s = entities ->
  findEntity entities entityId = Some entity ->
  exists lots',
    findEntity
      (entityDocs
         (addOrUpdateLot (Some u) clients entities now newDocId toLocaleDateString
            (Some editing) lotData entityId s)) entityId
    = Some (withLots lots' entity)
    /\ map Lot.id lots' = map Lot.id (Entity.lots entity)
    /\ map Lot.isArchived lots' = map Lot.isArchived (Entity.lots entity)
    /\ map Lot.is70Paid lots' = map Lot.is70Paid (Entity.lots entity)
    /\ forall l,
         In l lots' ->
         (Lot.id l = Lot.id editing ->
          Lot.totalValue l == LotData.totalValue lotData
          /\ Lot.value30 l == LotData.value30 lotData
          /\ Lot.value70 l == LotData.totalValue lotData - LotData.value30 lotData)
         /\ (Lot.id l <> Lot.id editing -> In l (Entity.lots entity)).
Proof.
  intros Hstore Hfind. unfold addOrUpdateLot. rewrite Hfind.
  exists (savedLots now (Some editing) lotData (Entity.lots entity)). simpl.
  rewrite findEntity_update, Hstore, Hfind. simpl.
  split; [reflexivity|].
  exact (savedLots_edit now editing lotData (Entity.lots entity)).
Qed.

Lemma runningActiveTotal_map (f : Lot.t -> Lot.t) (lots : list Lot.t) (a : Q) :
  (forall l, Lot.isArchived (f l) = Lot.isArchived l) ->
  (forall l, Lot.totalValue (f l) = Lot.totalValue l) ->
  runningActiveTotal a (map f lots) = runningActiveTotal a lots.
Proof.
  intros Ha Hv. revert a. induction lots as [|l lots IH]; intros a; simpl; [reflexivity|].
  now rewrite Ha, Hv, IH.
Qed.

Lemma commissionOf_map (f : Lot.t -> Lot.t) (lots : list Lot.t) (e : Entity.t) :
  (forall l, Lot.isArchived (f l) = Lot.isArchived l) ->
  (forall l, Lot.totalValue (f l) = Lot.totalValue l) ->
  commissionOf (withLots (map f lots) e) = commissionOf (withLots lots e).
Proof.
  intros Ha Hv. unfold commissionOf, lotsTotalValue. simpl.
  now rewrite !lotsTotalValue_running, runningActiveTotal_map.
Qed.

(** X20. Recording the supply for a whole entity pays every lot of it and
    touches nothing else: the stored lots are the lots of the entity, with
    the same ids, archive flags and values in the same order, each of them
    paid; the commission of the entity is what it was, no client document is
    written, and for that entity nothing remains to supply and no lot is
    upcoming. *)
Theorem supplyEntity_pays_all
  (u : User.t) (entities : list Entity.t) (now : Z) (target : SupplyTarget.t)
  (data : SupplyData.t) (entity : Entity.t) (s : Store) :
  entityDocs s = entities ->
  findEntity entities (SupplyTarget.entityId target) = Some entity ->
  SupplyTarget.type target = SupplyType.entity ->
  exists lots',
    findEntity (entityDocs (handleSupplySave (Some u) entities (Some target) data s))
      (SupplyTarget.entityId target)
    = Some (withLots lots' entity)
    /\ map Lot.id lots' = map Lot.id (Entity.lots entity)
    /\ map Lot.isArchived lots' = map Lot.isArchived (Entity.lots entity)
    /\ map Lot.totalValue lots' = map Lot.totalValue (Entity.lots entity)
    /\ map Lot.value70 lots' = map Lot.value70 (Entity.lots entity)
    /\ (forall l, In l lots' -> truthyFlag (Lot.is70Paid l) = true)
    /\ commissionOf (withLots lots' entity) = commissionOf entity
    /\ clientDocs (handleSupplySave (Some u) entities (Some target) data s) = clientDocs s
    /\ remainingToSupply [withLots lots' entity] = 0
    /\ upcomingLot now [withLots lots' entity] = None.
Proof.
  intros Hstore Hfind Htype. unfold handleSupplySave, suppliedLots.
  rewrite Hfind, Htype. simpl.
  rewrite findEntity_update, Hstore, Hfind. simpl.
  eexists. split; [reflexivity|].
  assert (Hpaid : forall l,
             In l (map (fun l0 =>
                          if negb (truthyFlag (Lot.is70Paid l0))
                          then markPaid
                                 (PaymentDetails.mk (SupplyData.payerName data)
                                    (SupplyData.date data) (SupplyData.receiptImage data)) l0
                          else l0) (Entity.lots entity)) ->
             truthyFlag (Lot.is70Paid l) = true).
  { intros l Hl. apply in_map_iff in Hl. destruct Hl as (x & <- & _).
    destruct (truthyFlag (Lot.is70Paid x)) eqn:E; simpl; [exact E|reflexivity]. }
  assert (Hkept : forall (A : Type) (g : Lot.t -> A),
             (forall pd l, g (markPaid pd l) = g l) ->
             map g (map (fun l0 =>
                           if negb (truthyFlag (Lot.is70Paid l0))
                           then markPaid
                                  (PaymentDetails.mk (SupplyData.payerName data)
                                     (SupplyData.date data) (SupplyData.receiptImage data))
                                  l0
                           else l0) (Entity.lots entity))
             = map g (Entity.lots entity)).
  { intros A g Hg. rewrite map_map. apply map_ext. intros l.
    destruct (negb (truthyFlag (Lot.is70Paid l))); [apply Hg|reflexivity]. }
  split; [now apply Hkept|]. split; [now apply Hkept|].
  split; [now apply Hkept|]. split; [now apply Hkept|].
  split; [exact Hpaid|]. split.
  - rewrite commissionOf_map;
      [now destruct entity| |]; intros l;
      now destruct (negb (truthyFlag (Lot.is70Paid l))).
  - split; [reflexivity|].
    apply nothing_due_when_paid. intros e l [<-|[]] Hl _. now apply Hpaid.
Qed.

Lemma loadedLots_effect (target : LoadingTarget.t) (data : LoadingDetails.t)
  (lots : list Lot.t) :
  map Lot.id (loadedLots target data lots) = map Lot.id lots
  /\ (forall l, In l (loadedLots target data lots) -> Lot.isArchived l = false -> In l lots)
  /\ (truthyString (LoadingTarget.lotId target) = false ->
      forallb Lot.isArchived (loadedLots target data lots) = true).
Proof.
  unfold loadedLots. destruct (truthyString (LoadingTarget.lotId target)).
  - split; [|split; [|discriminate]].
    + rewrite map_map. apply map_ext. intros l. now destruct (strictEqOpt _ _).
    + intros l Hl Ha. apply in_map_iff in Hl. destruct Hl as (x & <- & Hx).
      destruct (strictEqOpt _ _); [discriminate Ha|assumption].
  - split; [|split].
    + rewrite map_map. now apply map_ext.
    + intros l Hl Ha. apply in_map_iff in Hl. destruct Hl as (x & <- & _).
      discriminate Ha.
    + intros _. apply forallb_forall. intros l Hl. apply in_map_iff in Hl.
      now destruct Hl as (x & <- & _).
Qed.

(** X21. Marking lots as loaded archives them without reconciling the
    commission: [handleLoadingSave] writes no client document, keeps the lots
    of the entity (same ids, same order) and never makes an archived lot
    active; when the whole entity is loaded every lot is archived, so the
    commission computed from the stored lots is not positive, although the
    commission transaction is still on the ledger of the buyer. *)
Theorem loading_does_not_reconcile
  (u : User.t) (entities : list Entity.t) (target : LoadingTarget.t)
  (data : LoadingDetails.t) (entity : Entity.t) (s : Store) :
  entityDocs s = entities ->
  findEntity entities (LoadingTarget.entityId target) = Some entity ->
  exists lots',
    findEntity (entityDocs (handleLoadingSave (Some u) entities (Some target) data s))
      (LoadingTarget.entityId target)
    = Some (withLots lots' entity)
    /\ clientDocs (handleLoadingSave (Some u) entities (Some target) data s) = clientDocs s
    /\ map Lot.id lots' = map Lot.id (Entity.lots entity)
    /\ (forall l, In l lots' -> Lot.isArchived l = false -> In l (Entity.lots entity))
    /\ (truthyString (LoadingTarget.lotId target) = false ->
        forallb Lot.isArchived lots' = true
        /\ Qpositive (commissionOf (withLots lots' entity)) = false).
Proof.
  intros Hstore Hfind. unfold handleLoadingSave. rewrite Hfind. simpl.
  rewrite findEntity_update, Hstore, Hfind. simpl.
  destruct (loadedLots_effect target data (Entity.lots entity)) as (H1 & H2 & H3).
  eexists. split; [reflexivity|]. split; [reflexivity|].
  split; [exact H1|]. split; [exact H2|].
  intros Hall. split; [now apply H3|].
  apply commissionOf_all_archived. simpl. now apply H3.
Qed.

Lemma filter_absent_lot (id : string) (lots : list Lot.t) :
  (forall l, In l lots -> Lot.id l <> id) ->
  filter (fun l => negb (String.eqb (Lot.id l) id)) lots = lots.
Proof.
  induction lots as [|l lots IH]; simpl; intros H; [reflexivity|].
  destruct (String.eqb_spec (Lot.id l) id) as [E|E]; simpl.
  - exfalso. now apply (H l (or_introl eq_refl)).
  - f_equal. apply IH. intros l' Hl'. apply H. now right.
Qed.

Lemma activeLots_without_archived (id : string) (lots : list Lot.t) :
  (forall l, In l lots -> Lot.id l = id -> Lot.isArchived l = true) ->
  activeLots (filter (fun l => negb (String.eqb (Lot.id l) id)) lots) = activeLots lots.
Proof.
  unfold activeLots. induction lots as [|l lots IH]; simpl; intros H; [reflexivity|].
  assert (IH' : filter (fun l0 => negb (Lot.isArchived l0))
                  (filter (fun l0 => negb (String.eqb (Lot.id l0) id)) lots)
                = filter (fun l0 => negb (Lot.isArchived l0)) lots).
  { apply IH. intros l' Hl'. apply H. now right. }
  destruct (String.eqb_spec (Lot.id l) id) as [E|E]; simpl.
  - rewrite (H l (or_introl eq_refl) E). simpl. exact IH'.
  - now rewrite IH'.
Qed.

(** X22. Deleting a lot stores the lots of the entity without those of
    that id and reconciles the commission on what is left: the stored lots
    are the former ones, in the same order, with exactly the lots of that id
    left out; when the deleted lots were archived the commission is what it
    was, and when the entity has no lot of that id its lots are stored as
    they were. *)
Theorem deleteLot_effect
  (user : option User.t) (clients : list Client.t) (entities : list Entity.t) (now : Z)
  (newDocId : string) (toLocaleDateString : Timestamp -> string)
  (entityId lotId : string) (entity : Entity.t) (s : Store) :
  entityDocs s = entities ->
  findEntity entities entityId = Some entity ->
  exists lots',
    findEntity
      (entityDocs
         (handleConfirmDeleteLot user clients entities now newDocId toLocaleDateString
            (Some (entityId, lotId)) s)) entityId
    = Some (withLots lots' entity)
    /\ lots' = filter (fun l => negb (String.eqb (Lot.id l) lotId)) (Entity.lots entity)
    /\ (forall l, In l lots' <-> In l (Entity.lots entity) /\ Lot.id l <> lotId)
    /\ ((forall l, In l (Entity.lots entity) -> Lot.id l = lotId ->
           Lot.isArchived l = true) ->
        commissionOf (withLots lots' entity) = commissionOf entity)
    /\ clientDocs
         (handleConfirmDeleteLot user clients entities now newDocId toLocaleDateString
            (Some (entityId, lotId)) s)
       = execFirestore
           (syncBuyerCommission user clients now newDocId toLocaleDateString
              (withLots lots' entity))
           (clientDocs s)
    /\ ((forall l, In l (Entity.lots entity) -> Lot.id l <> lotId) ->
        lots' = Entity.lots entity).
Proof.
  intros Hstore Hfind. unfold handleConfirmDeleteLot. rewrite Hfind. simpl.
  rewrite findEntity_update, Hstore, Hfind. simpl.
  eexists. split; [reflexivity|]. split; [reflexivity|].
  split; [|split; [|split; [reflexivity|]]].
  - intros l. rewrite filter_In, negb_true_iff. now rewrite String.eqb_neq.
  - intros Harchived. unfold commissionOf. simpl.
    now rewrite activeLots_without_archived.
  - apply filter_absent_lot.
Qed.

(** ** Sorting by a key *)

Section SortByKey.

Variable A : Type.
Variable key : A -> Z.

Let byKey (a b : A) : Z := (key a - key b)%Z.
Let ordered (a b : A) : Prop := (key a <= key b)%Z.

Lemma insertSorted_perm (cmp : A -> A -> Z) (x : A) (l : list A) :
  Permutation (insertSorted cmp x l) (x :: l).
Proof.
  induction l as [|y l IH]; simpl; [reflexivity|].
  destruct (cmp x y <=? 0)%Z; [reflexivity|].
  rewrite IH. apply perm_swap.
Qed.

Lemma sortBy_perm (cmp : A -> A -> Z) (l : list A) : Permutation (sortBy cmp l) l.
Proof.
  unfold sortBy. induction l as [|x l IH]; simpl; [reflexivity|].
  rewrite insertSorted_perm. now constructor.
Qed.

Lemma insertSorted_sorted (x : A) (l : list A) :
  StronglySorted ordered l -> StronglySorted ordered (insertSorted byKey x l).
Proof.
  induction 1 as [|y l Hl IH Hy]; simpl.
  - repeat constructor.
  - unfold byKey at 1. destruct (key x - key y <=? 0)%Z eqn:E.
    + apply Z.leb_le in E. constructor; [now constructor|].
      constructor; [unfold ordered; lia|].
      apply Forall_forall. intros z Hz.
      pose proof (proj1 (Forall_forall _ _) Hy z Hz) as Hyz.
      unfold ordered in *. lia.
    + apply Z.leb_gt in E. constructor; [exact IH|].
      apply Forall_forall. intros z Hz.
      apply (Permutation_in _ (insertSorted_perm byKey x l)) in Hz.
      destruct Hz as [<-|Hz]; [unfold ordered; lia|].
      exact (proj1 (Forall_forall _ _) Hy z Hz).
Qed.

Lemma sortBy_sorted (l : list A) : StronglySorted ordered (sortBy byKey l).
Proof.
  unfold sortBy. induction l as [|x l IH]; simpl; [constructor|].
  now apply insertSorted_sorted.
Qed.

Lemma insertSorted_agree (cmp cmp' : A -> A -> Z) (x : A) (s : list A) :
  (forall y, In y s -> cmp x y = cmp' x y) ->
  insertSorted cmp x s = insertSorted cmp' x s.
Proof.
  induction s as [|y s IH]; simpl; intros H; [reflexivity|].
  rewrite (H y (or_introl eq_refl)).
  destruct (cmp' x y <=? 0)%Z; [reflexivity|].
  f_equal. apply IH. intros z Hz. apply H. now right.
Qed.

Lemma sortBy_agree (cmp cmp' : A -> A -> Z) (l : list A) :
  (forall a b, In a l -> In b l -> cmp a b = cmp' a b) ->
  sortBy cmp l = sortBy cmp' l.
Proof.
  induction l as [|x l IH]; intros H; [reflexivity|].
  change (sortBy cmp (x :: l)) with (insertSorted cmp x (sortBy cmp l)).
  change (sortBy cmp' (x :: l)) with (insertSorted cmp' x (sortBy cmp' l)).
  rewrite IH by (intros a b Ha Hb; apply H; now right).
  apply insertSorted_agree. intros y Hy. apply H; [now left|].
  right. exact (Permutation_in _ (sortBy_perm cmp' l) Hy).
Qed.

End SortByKey.

(** X23. [sortLotsByNumber] puts lots in the order of the numbers written
    in their lot numbers: for lots that all have a lot number, whose digits
    form a number below [2^53] (the integers a binary64 float holds
    exactly), the result is a rearrangement of the lots in which the number
    formed by the digits of [lotNumber] never decreases; the other
    characters are ignored. *)
Theorem sortLotsByNumber_sorted (lots : list Lot.t) :
  (forall l, In l lots -> Lot.lotNumber l <> EmptyString) ->
  (forall l, In l lots -> (lotNumberValue l < 2 ^ 53)%Z) ->
  Permutation (sortLotsByNumber lots) lots
  /\ StronglySorted (fun a b => (lotNumberValue a <= lotNumberValue b)%Z)
       (sortLotsByNumber lots).
Proof.
  intros Hnum _.
  assert (Hsort : sortLotsByNumber lots = sortBy compareLotNumbers lots)
    by now destruct lots.
  rewrite Hsort. split; [apply sortBy_perm|].
  rewrite (sortBy_agree Lot.t compareLotNumbers
             (fun a b => (lotNumberValue a - lotNumberValue b)%Z)).
  - apply sortBy_sorted.
  - intros a b Ha Hb. unfold compareLotNumbers.
    pose proof (Hnum a Ha) as Hna. pose proof (Hnum b Hb) as Hnb.
    destruct (Lot.lotNumber a); [congruence|].
    destruct (Lot.lotNumber b); [congruence|reflexivity].
Qed.

(** ** Image links *)

Lemma takeWhile_run (p : Ascii.ascii -> bool) (s rest : string) :
  allChars p s = true ->
  stopsRun p rest = true ->
  takeWhile p (String.append s rest) = s.
Proof.
  intros Hall Hstop. induction s as [|a s IH]; simpl in *.
  - destruct rest as [|b rest]; [reflexivity|].
    simpl in *. now destruct (p b).
  - apply andb_true_iff in Hall as [Ha Hs]. rewrite Ha. now rewrite IH.
Qed.

Lemma takeWhile_all (p : Ascii.ascii -> bool) (s : string) :
  allChars p s = true -> takeWhile p s = s.
Proof.
  intros Hall. induction s as [|a s IH]; simpl in *; [reflexivity|].
  apply andb_true_iff in Hall as [Ha Hs]. rewrite Ha. now rewrite IH.
Qed.

Lemma captureRun_some (p : Ascii.ascii -> bool) (s : string) :
  isEmptyString s = false -> takeWhile p s = s -> captureRun p s = Some s.
Proof.
  intros Hne Hrun. unfold captureRun.
  destruct s; [discriminate|]. rewrite Hrun. reflexivity.
Qed.

Lemma captureRun_run (p : Ascii.ascii -> bool) (s rest : string) :
  isEmptyString s = false ->
  allChars p s = true ->
  stopsRun p rest = true ->
  captureRun p (String.append s rest) = Some s.
Proof.
  intros Hne Hall Hstop. unfold captureRun.
  rewrite (takeWhile_run p s rest Hall Hstop). now destruct s.
Qed.

Lemma matchFirst_here (matchAt : string -> option string) (s g : string) :
  matchAt s = Some g -> matchFirst matchAt s = Some g.
Proof. intros H. destruct s; simpl; now rewrite H. Qed.

Lemma matchFirst_skip (matchAt : string -> option string) (a : Ascii.ascii) (s : string) :
  matchAt (String a s) = None ->
  matchFirst matchAt (String a s) = matchFirst matchAt s.
Proof. intros H. simpl. now rewrite H. Qed.

(** An identifier without [/] holds no match of the first pattern. *)
Lemma viewPattern_absent (s : string) :
  allChars (fun c => negb (Ascii.eqb c "/"%char)) s = true ->
  matchFirst viewPattern s = None.
Proof.
  induction s as [|a s IH]; intros Hall; [reflexivity|].
  simpl in Hall. apply andb_true_iff in Hall as [Ha Hs].
  rewrite matchFirst_skip; [now apply IH|].
  unfold viewPattern. cbn [afterLiteral].
  rewrite Ascii.eqb_sym. apply negb_true_iff in Ha. now rewrite Ha.
Qed.

Ltac skip_prefix :=
  repeat (rewrite matchFirst_skip by reflexivity).

(** X24. A link of the form [https://drive.google.com/file/d/FILE_ID/view]
    becomes the direct link of the file: when the identifier is not empty
    and has neither [/] nor [?], and what follows it is empty or starts
    with one of them, [getDirectImageUrl] returns
    [https://drive.google.com/uc?export=view&id=FILE_ID]. *)
Theorem viewLink_made_direct (fileId rest : string) :
  isEmptyString fileId = false ->
  allChars notSlashNorQuery fileId = true ->
  stopsRun notSlashNorQuery rest = true ->
  getDirectImageUrl (viewUrl fileId rest) = directUrl fileId.
Proof.
  intros Hne Hall Hstop.
  assert (Hview : matchFirst viewPattern (viewUrl fileId rest) = Some fileId).
  { unfold viewUrl. simpl String.append. skip_prefix.
    apply matchFirst_here. unfold viewPattern. simpl afterLiteral.
    now apply captureRun_run. }
  unfold getDirectImageUrl. rewrite Hview.
  change (isEmptyString (viewUrl fileId rest)) with false.
  change (includes (viewUrl fileId rest) "drive.google.com") with true.
  cbv beta iota zeta. rewrite !Hne. reflexivity.
Qed.

(** X25. A direct link is left as it is: when the identifier is not empty
    and has neither [/] nor [&], [getDirectImageUrl] returns
    [https://drive.google.com/uc?export=view&id=FILE_ID] unchanged, so that
    converting a link a second time changes nothing. *)
Theorem directLink_unchanged (fileId : string) :
  isEmptyString fileId = false ->
  allChars (fun c => negb (Ascii.eqb c "/"%char)) fileId = true ->
  allChars notAmpersand fileId = true ->
  getDirectImageUrl (directUrl fileId) = directUrl fileId.
Proof.
  intros Hne Hslash Hamp.
  assert (Hview : matchFirst viewPattern (directUrl fileId) = None).
  { unfold directUrl. simpl String.append. skip_prefix.
    now apply viewPattern_absent. }
  assert (Hid : matchFirst idPattern (directUrl fileId) = Some fileId).
  { unfold directUrl. simpl String.append. skip_prefix.
    apply matchFirst_here. unfold idPattern. simpl.
    apply captureRun_some; [exact Hne|]. now apply takeWhile_all. }
  unfold getDirectImageUrl. rewrite Hview, Hid.
  change (isEmptyString (directUrl fileId)) with false.
  change (includes (directUrl fileId) "drive.google.com") with true.
  cbn [isEmptyString]. rewrite !Hne. reflexivity.
Qed.

(** ** Deleting a client *)

Lemma docWithId_removed (id : string) (docs : list Client.t) :
  docWithId id (filter (fun d => negb (String.eqb (Client.id d) id)) docs) = None.
Proof.
  unfold docWithId. induction docs as [|d docs IH]; [reflexivity|].
  simpl. destruct (String.eqb (Client.id d) id) eqn:Hd; simpl; [exact IH|].
  now rewrite Hd.
Qed.

Lemma docWithId_kept (id other : string) (docs : list Client.t) :
  other <> id ->
  docWithId other (filter (fun d => negb (String.eqb (Client.id d) id)) docs)
  = docWithId other docs.
Proof.
  intros Hother. unfold docWithId. induction docs as [|d docs IH]; [reflexivity|].
  simpl. destruct (String.eqb (Client.id d) id) eqn:Hd; simpl.
  - apply String.eqb_eq in Hd.
    destruct (String.eqb (Client.id d) other) eqn:Ho; [|exact IH].
    apply String.eqb_eq in Ho. congruence.
  - now rewrite IH.
Qed.

Lemma totalCommissionCount_filter (e : string) (p : Client.t -> bool)
  (docs : list Client.t) :
  (totalCommissionCount e (filter p docs) <= totalCommissionCount e docs)%nat.
Proof.
  unfold totalCommissionCount. induction docs as [|d docs IH]; simpl; [lia|].
  destruct (p d); simpl; lia.
Qed.

(** X26. Deleting a client removes the document stored under its key and
    nothing else: the collection no longer answers for that key, every
    other key answers as before, the other collection is untouched, and no
    entity has more commission transactions than before. *)
Theorem deleteClient_effect (id : string) (type : ClientType.t) (db : Db) :
  docWithId id
    (getCollection (collectionOf type)
       (execFirestore (handleConfirmDeleteClient (Some (id, type))) db)) = None
  /\ (forall other,
        other <> id ->
        docWithId other
          (getCollection (collectionOf type)
             (execFirestore (handleConfirmDeleteClient (Some (id, type))) db))
        = docWithId other (getCollection (collectionOf type) db))
  /\ (forall c,
        c <> collectionOf type ->
        getCollection c (execFirestore (handleConfirmDeleteClient (Some (id, type))) db)
        = getCollection c db)
  /\ forall e c,
       (totalCommissionCount e
          (getCollection c
             (execFirestore (handleConfirmDeleteClient (Some (id, type))) db))
        <= totalCommissionCount e (getCollection c db))%nat.
Proof.
  unfold handleConfirmDeleteClient, deleteDoc, execFirestore. cbn [snd].
  repeat split.
  - destruct type; cbn; apply docWithId_removed.
  - intros other Hother. destruct type; cbn; now apply docWithId_kept.
  - intros c Hc. destruct type, c; cbn in *; congruence.
  - intros e c. destruct type, c; cbn; try lia; apply totalCommissionCount_filter.
Qed.

(** ** Worked instances of the further properties *)

Lemma sync_nothing_to_write_witness :
  totalCommissionCount (Entity.id newEntity) [ahmed] = 0%nat
  /\ syncedClients sampleUser [ahmed] sampleNow "c-new-1" sampleLocale newEntity [] = [ahmed].
Proof.
  split; [reflexivity|].
  apply (sync_nothing_to_write sampleUser [ahmed] sampleNow "c-new-1" sampleLocale
           newEntity []).
  - distinct_keys.
  - reflexivity.
  - reflexivity.
Defined.

Lemma sync_keeps_other_transactions_witness :
  In ahmedWithCommission [ahmedWithCommission]
  /\ exists c',
       docWithId (Client.id ahmedWithCommission)
         (syncedClients sampleUser [ahmedWithCommission] sampleNow "c-new-2" sampleLocale
            saraEntity [])
       = Some c'
       /\ sameLedgerOutside (Entity.id saraEntity) ahmedWithCommission c'.
Proof.
  assert (Hin : In ahmedWithCommission [ahmedWithCommission]) by (left; reflexivity).
  split; [exact Hin|].
  apply (sync_keeps_other_transactions sampleUser [ahmedWithCommission] sampleNow
           "c-new-2" sampleLocale saraEntity [] ahmedWithCommission).
  - distinct_keys.
  - exact Hin.
Defined.

Lemma sync_idempotent_witness :
  (totalCommissionCount (Entity.id saraEntity) [ahmedWithCommission] <= 1)%nat
  /\ syncedClients sampleUser
       (syncedClients sampleUser [ahmedWithCommission] sampleNow "c-new-2" sampleLocale
          saraEntity [])
       (sampleNow + 1000) "c-new-3" sampleLocale saraEntity []
     = syncedClients sampleUser [ahmedWithCommission] sampleNow "c-new-2" sampleLocale
         saraEntity [].
Proof.
  assert (Hone : (totalCommissionCount (Entity.id saraEntity) [ahmedWithCommission]
                  <= 1)%nat) by (vm_compute; lia).
  split; [exact Hone|].
  apply (sync_idempotent sampleUser sampleUser [ahmedWithCommission] sampleNow
           (sampleNow + 1000) "c-new-2" "c-new-3" sampleLocale saraEntity [] []).
  - distinct_keys.
  - simpl. intuition discriminate.
  - exact Hone.
  - left. discriminate.
Defined.

Lemma addTransaction_balance_witness :
  docWithId "c-ahmed" (clientListOf [ahmed] [] ClientType.advance) = Some ahmed
  /\ exists d' t,
       docWithId "c-ahmed"
         (getCollection (collectionOf ClientType.advance)
            (execFirestore
               (addOrUpdateTransaction (Some sampleUser) [ahmed] [] sampleNow None
                  sampleTransactionData "c-ahmed" ClientType.advance) sampleStoreDb))
       = Some d'
       /\ Client.transactions d' = Client.transactions ahmed ++ [t]
       /\ Transaction.entityId t = None
       /\ computeClientBalance (Client.transactions d')
          == computeClientBalance (Client.transactions ahmed)
             + TransactionData.amount sampleTransactionData.
Proof.
  assert (Hstate : docWithId "c-ahmed" (clientListOf [ahmed] [] ClientType.advance)
                   = Some ahmed) by reflexivity.
  split; [exact Hstate|].
  apply (addTransaction_balance sampleUser [ahmed] [] sampleNow sampleTransactionData
           "c-ahmed" ClientType.advance ahmed ahmed sampleStoreDb Hstate).
  reflexivity.
Defined.


Lemma deleteTransaction_effect_witness :
  docWithId (TransactionToDelete.clientId sampleDeletion)
    (clientListOf [ahmed] [] (TransactionToDelete.clientType sampleDeletion))
  = Some ahmed
  /\ exists d',
       docWithId (TransactionToDelete.clientId sampleDeletion)
         (getCollection (collectionOf (TransactionToDelete.clientType sampleDeletion))
            (execFirestore
               (handleConfirmDeleteTransaction [ahmed] [] (Some sampleDeletion))
               sampleStoreDb))
       = Some d'
       /\ Client.transactions d'
          = filter
              (fun t =>
                 negb (String.eqb (Transaction.id t)
                         (TransactionToDelete.transactionId sampleDeletion)))
              (Client.transactions ahmed)
       /\ (forall t,
             In t (Client.transactions d') <->
             In t (Client.transactions ahmed)
             /\ Transaction.id t <> TransactionToDelete.transactionId sampleDeletion)
       /\ Client.id d' = Client.id ahmed
       /\ Client.userId d' = Client.userId ahmed
       /\ Client.name d' = Client.name ahmed
       /\ Client.isBuyer d' = Client.isBuyer ahmed
       /\ Client.isArchived d' = Client.isArchived ahmed
       /\ Client.archiveType d' = Client.archiveType ahmed
       /\ Client.phone d' = Client.phone ahmed
       /\ ((forall t, In t (Client.transactions ahmed) ->
              Transaction.id t <> TransactionToDelete.transactionId sampleDeletion) ->
           Client.transactions d' = Client.transactions ahmed).
Proof.
  assert (Hstate : docWithId (TransactionToDelete.clientId sampleDeletion)
                     (clientListOf [ahmed] []
                        (TransactionToDelete.clientType sampleDeletion))
                   = Some ahmed) by reflexivity.
  split; [exact Hstate|].
  apply (deleteTransaction_effect [ahmed] [] sampleDeletion ahmed ahmed sampleStoreDb
           Hstate).
  reflexivity.
Defined.

Lemma add_then_delete_transaction_witness :
  (forall t, In t (Client.transactions ahmed) -> Transaction.id t <> showInt sampleNow)
  /\ exists d2,
       docWithId "c-ahmed"
         (getCollection (collectionOf ClientType.advance)
            (execFirestore
               (handleConfirmDeleteTransaction
                  (advanceClients
                     (execFirestore
                        (addOrUpdateTransaction (Some sampleUser) [ahmed] [] sampleNow None
                           sampleTransactionData "c-ahmed" ClientType.advance)
                        (storeOf [ahmed] [])))
                  (workClients
                     (execFirestore
                        (addOrUpdateTransaction (Some sampleUser) [ahmed] [] sampleNow None
                           sampleTransactionData "c-ahmed" ClientType.advance)
                        (storeOf [ahmed] [])))
                  (Some (TransactionToDelete.mk "c-ahmed" ClientType.advance
                           (showInt sampleNow))))
               (execFirestore
                  (addOrUpdateTransaction (Some sampleUser) [ahmed] [] sampleNow None
                     sampleTransactionData "c-ahmed" ClientType.advance)
                  (storeOf [ahmed] []))))
       = Some d2
       /\ Client.transactions d2 = Client.transactions ahmed.
Proof.
  assert (Hfresh : forall t, In t (Client.transactions ahmed) ->
                             Transaction.id t <> showInt sampleNow).
  { intros t [<-|[<-|[<-|[]]]]; vm_compute; discriminate. }
  split; [exact Hfresh|].
  apply (add_then_delete_transaction sampleUser [ahmed] [] sampleNow
           sampleTransactionData "c-ahmed" ClientType.advance ahmed).
  - reflexivity.
  - exact Hfresh.
Defined.

Lemma addPayment_balance_witness :
  docWithId "c-ahmed" (clientListOf [ahmed] [] ClientType.advance) = Some ahmed
  /\ exists d',
       docWithId "c-ahmed"
         (getCollection (collectionOf ClientType.advance)
            (execFirestore
               (addPayment (Some sampleUser) [ahmed] [] sampleNow (samplePayment (-300))
                  "c-ahmed" ClientType.advance) sampleStoreDb))
       = Some d'
       /\ computeClientBalance (Client.transactions d')
          == computeClientBalance (Client.transactions ahmed)
             - Qabs (PaymentData.amount (samplePayment (-300)))
       /\ forall t,
            In t (unsettledTransactions d') ->
            In t (unsettledTransactions ahmed)
            /\ (truthyString (PaymentData.linkedTransactionId (samplePayment (-300))) = true ->
                PaymentData.linkedTransactionId (samplePayment (-300))
                <> Some (Transaction.id t)).
Proof.
  assert (Hstate : docWithId "c-ahmed" (clientListOf [ahmed] [] ClientType.advance)
                   = Some ahmed) by reflexivity.
  split; [exact Hstate|].
  apply (addPayment_balance sampleUser [ahmed] [] sampleNow (samplePayment (-300))
           "c-ahmed" ClientType.advance ahmed ahmed sampleStoreDb Hstate).
  reflexivity.
Defined.

Lemma settled_client_is_archived_in_view_witness :
  ~ computeClientBalance (Client.transactions ahmed) == 0
  /\ exists d',
       docWithId (Client.id ahmed)
         (getCollection (namespaceOf [ahmed] (Client.id ahmed))
            (execFirestore (settleAndArchive (Some sampleUser) [ahmed] [] sampleNow ahmed)
               sampleStoreDb))
       = Some d'
       /\ ~ In d'
            (activeClients
               (getCollection (namespaceOf [ahmed] (Client.id ahmed))
                  (execFirestore
                     (settleAndArchive (Some sampleUser) [ahmed] [] sampleNow ahmed)
                     sampleStoreDb)))
       /\ In d'
            (archivedClients (archiveTypeOf (namespaceOf [ahmed] (Client.id ahmed)))
               (getCollection (namespaceOf [ahmed] (Client.id ahmed))
                  (execFirestore
                     (settleAndArchive (Some sampleUser) [ahmed] [] sampleNow ahmed)
                     sampleStoreDb))).
Proof.
  assert (Hbal : ~ computeClientBalance (Client.transactions ahmed) == 0)
    by (vm_compute; discriminate).
  split; [exact Hbal|].
  apply (settled_client_is_archived_in_view sampleUser [ahmed] [] sampleNow ahmed ahmed
           sampleStoreDb Hbal).
  - left. reflexivity.
  - reflexivity.
Defined.

Lemma settle_then_restore_witness :
  ~ computeClientBalance (Client.transactions ahmed) == 0
  /\ exists d2,
       docWithId (Client.id ahmed)
         (getCollection (namespaceOf [ahmed] (Client.id ahmed))
            (execFirestore
               (confirmRestoreClient (Some sampleUser)
                  (advanceClients
                     (execFirestore
                        (settleAndArchive (Some sampleUser) [ahmed] [] sampleNow ahmed)
                        (storeOf [ahmed] [])))
                  (workClients
                     (execFirestore
                        (settleAndArchive (Some sampleUser) [ahmed] [] sampleNow ahmed)
                        (storeOf [ahmed] [])))
                  (Some archivedAhmed))
               (execFirestore
                  (settleAndArchive (Some sampleUser) [ahmed] [] sampleNow ahmed)
                  (storeOf [ahmed] []))))
       = Some d2
       /\ Client.isArchived d2 = Some false
       /\ Client.archiveType d2 = None
       /\ Client.transactions d2
          = Client.transactions ahmed
            ++ [balancingTransaction sampleNow
                  (computeClientBalance (Client.transactions ahmed))]
       /\ computeClientBalance (Client.transactions d2) == 0
       /\ activeClients [d2] = [d2].
Proof.
  assert (Hbal : ~ computeClientBalance (Client.transactions ahmed) == 0)
    by (vm_compute; discriminate).
  split; [exact Hbal|].
  apply (settle_then_restore sampleUser [ahmed] [] sampleNow ahmed archivedAhmed Hbal).
  - left. reflexivity.
  - reflexivity.
Defined.

Lemma all_paid_nothing_due_witness :
  remainingToSupply paidEntities = 0
  /\ upcomingLot sampleNow paidEntities = None
  /\ isFullyPaid paidEntities = Qpositive (totalInvoices paidEntities).
Proof.
  apply (all_paid_nothing_due sampleNow paidEntities).
  intros e l [<-|[]] [<-|[<-|[]]] Harchived.
  - reflexivity.
  - discriminate Harchived.
Defined.

Lemma toggleLotArchive_twice_witness :
  findEntity [saraEntity] "Auction-7" = Some saraEntity
  /\ findEntity
       (entityDocs
          (toggleLotArchive (Some sampleUser)
             (advanceClients
                (clientDocs
                   (toggleLotArchive (Some sampleUser) [ahmedWithCommission] [saraEntity]
                      sampleNow "c-new-2" sampleLocale (sampleLot "l1" 10000 None false)
                      "Auction-7" sampleStore)))
             (entityDocs
                (toggleLotArchive (Some sampleUser) [ahmedWithCommission] [saraEntity]
                   sampleNow "c-new-2" sampleLocale (sampleLot "l1" 10000 None false)
                   "Auction-7" sampleStore))
             (sampleNow + 1000) "c-new-3" sampleLocale (sampleLot "l1" 10000 None false)
             "Auction-7"
             (toggleLotArchive (Some sampleUser) [ahmedWithCommission] [saraEntity]
                sampleNow "c-new-2" sampleLocale (sampleLot "l1" 10000 None false)
                "Auction-7" sampleStore)))
       "Auction-7"
     = Some saraEntity.
Proof.
  assert (Hfound : findEntity [saraEntity] "Auction-7" = Some saraEntity) by reflexivity.
  split; [exact Hfound|].
  apply (toggleLotArchive_twice (Some sampleUser) (Some sampleUser) [ahmedWithCommission]
           [saraEntity] sampleNow (sampleNow + 1000) "c-new-2" "c-new-3" sampleLocale
           (sampleLot "l1" 10000 None false) "Auction-7" saraEntity sampleStore).
  - reflexivity.
  - exact Hfound.
Defined.

Lemma addLot_effect_witness :
  findEntity [saraEntity] "Auction-7" = Some saraEntity
  /\ exists l,
       findEntity
         (entityDocs
            (addOrUpdateLot (Some sampleUser) [ahmedWithCommission] [saraEntity] sampleNow
               "c-new-2" sampleLocale None sampleLotData "Auction-7" sampleStore))
         "Auction-7"
       = Some (withLots (Entity.lots saraEntity ++ [l]) saraEntity)
       /\ Lot.isArchived l = false
       /\ truthyFlag (Lot.is70Paid l) = false
       /\ Lot.totalValue l == LotData.totalValue sampleLotData
       /\ Lot.value70 l == LotData.totalValue sampleLotData - LotData.value30 sampleLotData
       /\ commissionOf (withLots (Entity.lots saraEntity ++ [l]) saraEntity)
          == (lotsTotalValue (activeLots (Entity.lots saraEntity)) + Lot.totalValue l)
             * 0.005
       /\ clientDocs
            (addOrUpdateLot (Some sampleUser) [ahmedWithCommission] [saraEntity] sampleNow
               "c-new-2" sampleLocale None sampleLotData "Auction-7" sampleStore)
          = execFirestore
              (syncBuyerCommission (Some sampleUser) [ahmedWithCommission] sampleNow
                 "c-new-2" sampleLocale
                 (withLots (Entity.lots saraEntity ++ [l]) saraEntity))
              (clientDocs sampleStore).
Proof.
  assert (Hfound : findEntity [saraEntity] "Auction-7" = Some saraEntity) by reflexivity.
  split; [exact Hfound|].
  apply (addLot_effect sampleUser [ahmedWithCommission] [saraEntity] sampleNow "c-new-2"
           sampleLocale sampleLotData "Auction-7" saraEntity sampleStore).
  - reflexivity.
  - exact Hfound.
Defined.

Lemma editLot_keeps_status_witness :
  findEntity [saraEntity] "Auction-7" = Some saraEntity
  /\ exists lots',
       findEntity
         (entityDocs
            (addOrUpdateLot (Some sampleUser) [ahmedWithCommission] [saraEntity] sampleNow
               "c-new-2" sampleLocale (Some (sampleLot "l1" 10000 None false))
               sampleLotData "Auction-7" sampleStore)) "Auction-7"
       = Some (withLots lots' saraEntity)
       /\ map Lot.id lots' = map Lot.id (Entity.lots saraEntity)
       /\ map Lot.isArchived lots' = map Lot.isArchived (Entity.lots saraEntity)
       /\ map Lot.is70Paid lots' = map Lot.is70Paid (Entity.lots saraEntity)
       /\ forall l,
            In l lots' ->
            (Lot.id l = Lot.id (sampleLot "l1" 10000 None false) ->
             Lot.totalValue l == LotData.totalValue sampleLotData
             /\ Lot.value30 l == LotData.value30 sampleLotData
             /\ Lot.value70 l
                == LotData.totalValue sampleLotData - LotData.value30 sampleLotData)
            /\ (Lot.id l <> Lot.id (sampleLot "l1" 10000 None false) ->
                In l (Entity.lots saraEntity)).
Proof.
  assert (Hfound : findEntity [saraEntity] "Auction-7" = Some saraEntity) by reflexivity.
  split; [exact Hfound|].
  apply (editLot_keeps_status sampleUser [ahmedWithCommission] [saraEntity] sampleNow
           "c-new-2" sampleLocale (sampleLot "l1" 10000 None false) sampleLotData
           "Auction-7" saraEntity sampleStore).
  - reflexivity.
  - exact Hfound.
Defined.

Lemma supplyEntity_pays_all_witness :
  findEntity [saraEntity] (SupplyTarget.entityId sampleSupplyTarget) = Some saraEntity
  /\ exists lots',
       findEntity
         (entityDocs
            (handleSupplySave (Some sampleUser) [saraEntity] (Some sampleSupplyTarget)
               sampleSupplyData sampleStore))
         (SupplyTarget.entityId sampleSupplyTarget)
       = Some (withLots lots' saraEntity)
       /\ map Lot.id lots' = map Lot.id (Entity.lots saraEntity)
       /\ map Lot.isArchived lots' = map Lot.isArchived (Entity.lots saraEntity)
       /\ map Lot.totalValue lots' = map Lot.totalValue (Entity.lots saraEntity)
       /\ map Lot.value70 lots' = map Lot.value70 (Entity.lots saraEntity)
       /\ (forall l, In l lots' -> truthyFlag (Lot.is70Paid l) = true)
       /\ commissionOf (withLots lots' saraEntity) = commissionOf saraEntity
       /\ clientDocs
            (handleSupplySave (Some sampleUser) [saraEntity] (Some sampleSupplyTarget)
               sampleSupplyData sampleStore)
          = clientDocs sampleStore
       /\ remainingToSupply [withLots lots' saraEntity] = 0
       /\ upcomingLot sampleNow [withLots lots' saraEntity] = None.
Proof.
  assert (Hfound : findEntity [saraEntity] (SupplyTarget.entityId sampleSupplyTarget)
                   = Some saraEntity) by reflexivity.
  split; [exact Hfound|].
  apply (supplyEntity_pays_all sampleUser [saraEntity] sampleNow sampleSupplyTarget
           sampleSupplyData saraEntity sampleStore).
  - reflexivity.
  - exact Hfound.
  - reflexivity.
Defined.

Lemma loading_does_not_reconcile_witness :
  findEntity [saraEntity] (LoadingTarget.entityId sampleLoadingTarget) = Some saraEntity
  /\ exists lots',
       findEntity
         (entityDocs
            (handleLoadingSave (Some sampleUser) [saraEntity] (Some sampleLoadingTarget)
               sampleLoadingData sampleStore))
         (LoadingTarget.entityId sampleLoadingTarget)
       = Some (withLots lots' saraEntity)
       /\ clientDocs
            (handleLoadingSave (Some sampleUser) [saraEntity] (Some sampleLoadingTarget)
               sampleLoadingData sampleStore)
          = clientDocs sampleStore
       /\ map Lot.id lots' = map Lot.id (Entity.lots saraEntity)
       /\ (forall l, In l lots' -> Lot.isArchived l = false ->
             In l (Entity.lots saraEntity))
       /\ (truthyString (LoadingTarget.lotId sampleLoadingTarget) = false ->
           forallb Lot.isArchived lots' = true
           /\ Qpositive (commissionOf (withLots lots' saraEntity)) = false).
Proof.
  assert (Hfound : findEntity [saraEntity] (LoadingTarget.entityId sampleLoadingTarget)
                   = Some saraEntity) by reflexivity.
  split; [exact Hfound|].
  apply (loading_does_not_reconcile sampleUser [saraEntity] sampleLoadingTarget
           sampleLoadingData saraEntity sampleStore).
  - reflexivity.
  - exact Hfound.
Defined.

Lemma deleteLot_effect_witness :
  findEntity [saraEntity] "Auction-7" = Some saraEntity
  /\ exists lots',
       findEntity
         (entityDocs
            (handleConfirmDeleteLot (Some sampleUser) [ahmedWithCommission] [saraEntity]
               sampleNow "c-new-2" sampleLocale (Some ("Auction-7"%string, "l1"%string))
               sampleStore)) "Auction-7"
       = Some (withLots lots' saraEntity)
       /\ lots'
          = filter (fun l => negb (String.eqb (Lot.id l) "l1")) (Entity.lots saraEntity)
       /\ (forall l,
             In l lots' <-> In l (Entity.lots saraEntity) /\ Lot.id l <> "l1"%string)
       /\ ((forall l, In l (Entity.lots saraEntity) -> Lot.id l = "l1"%string ->
              Lot.isArchived l = true) ->
           commissionOf (withLots lots' saraEntity) = commissionOf saraEntity)
       /\ clientDocs
            (handleConfirmDeleteLot (Some sampleUser) [ahmedWithCommission] [saraEntity]
               sampleNow "c-new-2" sampleLocale (Some ("Auction-7"%string, "l1"%string))
               sampleStore)
          = execFirestore
              (syncBuyerCommission (Some sampleUser) [ahmedWithCommission] sampleNow
                 "c-new-2" sampleLocale (withLots lots' saraEntity))
              (clientDocs sampleStore)
       /\ ((forall l, In l (Entity.lots saraEntity) -> Lot.id l <> "l1"%string) ->
           lots' = Entity.lots saraEntity).
Proof.
  assert (Hfound : findEntity [saraEntity] "Auction-7" = Some saraEntity) by reflexivity.
  split; [exact Hfound|].
  apply (deleteLot_effect (Some sampleUser) [ahmedWithCommission] [saraEntity] sampleNow
           "c-new-2" sampleLocale "Auction-7" "l1" saraEntity sampleStore).
  - reflexivity.
  - exact Hfound.
Defined.

Lemma sortLotsByNumber_sorted_witness :
  Permutation (sortLotsByNumber numberedLots) numberedLots
  /\ StronglySorted (fun a b => (lotNumberValue a <= lotNumberValue b)%Z)
       (sortLotsByNumber numberedLots).
Proof.
  apply (sortLotsByNumber_sorted numberedLots).
  - intros l [<-|[<-|[<-|[]]]]; discriminate.
  - intros l [<-|[<-|[<-|[]]]]; reflexivity.
Defined.

Lemma viewLink_made_direct_witness :
  getDirectImageUrl (viewUrl sampleFileId "/view?usp=sharing") = directUrl sampleFileId.
Proof.
  apply (viewLink_made_direct sampleFileId "/view?usp=sharing"); reflexivity.
Defined.

Lemma directLink_unchanged_witness :
  getDirectImageUrl (directUrl sampleFileId) = directUrl sampleFileId.
Proof.
  apply (directLink_unchanged sampleFileId); reflexivity.
Defined.
